(* ===== verification/_CoqProject ===== *)
-Q . S2P
Prelude.v
Digits.v
JsNumber.v
Viem.v
JsDouble.v
Phase.v
Contract.v
Arena.v
ArenaInv.v
ArenaFlow.v
ArenaComposite.v
ArenaRuns.v
ArenaFindings.v
Portfolio.v
PortfolioSim.v
PortfolioRuns.v
Factions.v
Views.v
Amounts.v
JsDoubleSpec.v
PortfolioFlow.v
PortfolioFindings.v
ArenaLive.v
Requests.v
Config.v
