(* ===== verification/Prelude.v ===== *)
(** * 5xFaction staking front end: a verification development

    ** The program

    The repository is the browser client of a five-faction staking contest.
    Its logic lives in five files:

    - [src/hooks/useContract.ts]: the [Clan] enumeration, one read hook per
      ledger query, one write hook per ledger transaction ([approve],
      [joinClan], [stakeInk], [withdrawInk], [clearCanvas], [mint]), the
      classification of a rejected stake, and the pure helpers [formatUSDC],
      [formatScore] and [isDepositPhase];
    - [src/app/arena/page.tsx]: the arena page: the faction table, the
      component state ([actionStep], [pendingStakeAmount], the amount
      cells), the click handlers ([handleAction], [handleWithdraw],
      [handleMint]), the effects (one per confirmed write, the 30 s poller),
      the derived values ([hasAllowance], [canClearCanvas], [getButtonText],
      [isButtonDisabled]) and the JSX that shows them;
    - [src/app/portfolio/page.tsx]: the portfolio page, a second
      orchestrator without the join, the rollover and the poller, with
      [getClanTVL] and [getStakePercentage];
    - [src/next.config.ts] and [src/lib/wagmi.ts]: the content security
      policy of the deployment, and the chain with its RPC endpoint.

    The ledger (the staking contract and the token), the wallet, wagmi's
    hooks, viem's [parseUnits] and [formatUnits], JavaScript's [Number] and
    React itself are external: where the behaviour of the code depends on
    them they are modelled from their published behaviour and marked as
    modelled from the specification in the manifest.

    ** Files, in dependency order

    Libraries the program calls:

    - [Prelude] (this file): JavaScript truthiness of [bigint | undefined]
      and of strings, record update notation, [run] and [reachable] of a
      labelled step function with the induction principle for invariants,
      the tactics [bool_to_prop] and [bool_lia], the hint database [fx].
    - [Digits]: decimal digit strings: printing, reading, padding, the
      thousands grouping of [toLocaleString] and its inverse.
    - [JsNumber]: [parseFloat], the sign test of a Number as binary64
      decides it, decimal-to-double conversion on the standard library's
      [SpecFloat], [Math.round].
    - [Viem]: [parseUnits], [formatUnits], [maxUint256].
    - [JsDouble]: arithmetic on doubles, [parseInt], [toFixed] and
      [Number::toString], computed on the exact value of the double.

    The program:

    - [Phase]: [isDepositPhase], [canClearCanvas], the two
      [formatTimeRemaining] functions, and the three phases of the
      specification that the tests refine.
    - [Contract]: [useContract.ts]: the enum, the read hooks as call
      descriptors, the write hooks as a status machine with the request
      each submits, the stake-error classifier, [formatUSDC], [formatScore],
      the query cache.
    - [Arena]: the arena page as a total step function [step] over
      [Event]s on the record [State]: one definition per handler, per
      continuation and per effect, named as in the source.
    - [Portfolio]: the portfolio page, on the same record and the same
      events; a name the arena page also has carries the prefix
      [portfolio_].
    - [Factions]: the faction table and the cards of the grid.
    - [Views]: what each block of the two pages shows, one record per
      block.
    - [Config]: the two configuration files as data, with the matching of
      an address against the policy.

    The theorems:

    - [ArenaInv]: the effects reach a fixed point in one pass ([settled] is
      an invariant); the amounts that wait for an approval parse.
    - [ArenaFlow]: the write log against guarded commands ([submits]): a
      step submits exactly what its event calls for.
    - [ArenaComposite], [ArenaRuns]: one lemma per step of a flow, and the
      composites of the specification (approve then stake, verification
      failure, direct stake, join, withdraw, poll, settle delay) as
      theorems over every state that is ready for them.
    - [ArenaLive]: the suspended continuations complete when the reads
      resolve and the timers fire.
    - [Requests]: the test and the conversion of an amount agree on the
      sign; every request of the log is a call of the ledger interface.
    - [Amounts]: [parseUnits] reads what [formatUnits] prints; [formatUSDC]
      rounds to cents; what MAX stakes.
    - [JsDoubleSpec]: the rounding of [toFixed] is to the nearest; the fuel
      of the search in [Number::toString] is enough.
    - [PortfolioFlow]: the guarded commands of the portfolio page.
    - [PortfolioSim], [PortfolioRuns]: the two pages move in lock step on
      the events they share, and the deposit composites of the arena page
      hold of the portfolio page through the simulation.
    - [ArenaFindings], [PortfolioFindings]: runs on which the code departs
      from the specification, or the pages from each other.

    ** How state and effects are modelled

    A React component is a record of its [useState] cells, the states of
    its hooks, the query cache, the suspended continuations ([tasks]), the
    clock, and three logs: the ledger writes handed to [writeContract]
    ([writes]), the refetches ([refetches]) and the console.  A handler is
    a function on that record; state is passed explicitly.  An [await]
    splits a handler in two: the first half leaves a [Task] with the values
    its closure captured, the second half runs when the environment
    delivers the result as an event.  Everything the environment decides
    (what a read returns, whether it fails, whether the wallet signs,
    whether a receipt arrives, when a timer fires, when the clock moves) is
    the event of a step, so a theorem about [step] holds of every ledger,
    wallet and schedule.  A step is the handler, then the effects in the
    order of the source, then a render, which reads the clock; the passing
    of time alone renders nothing, which is how a phase test can be stale.
    Privy's [ready] flag is folded into [authenticated].

    ** Numbers, bounds and fuel

    [bigint] is [Z]; amounts are fixed point with 6 decimals.  A Number
    that comes from a decimal string is kept as the exact decimal
    ([JsNum]); where the code computes on Numbers (the percent buttons, the
    share of the clan total, the remaining stake) the doubles are
    [SpecFloat] values at precision 53 and [emax] 1024 and every operation
    is the correctly rounded one, so the model has no rounding assumption.
    [toLocaleString] is modelled on the exact decimal: the formatter
    theorems describe the running code for amounts below [10^15]
    micro-units, where the double of the amount prints as the amount.
    [Math.floor(Date.now() / 1000)] is integer division for every clock
    below [2^53] ms.  [Number::toString] searches the position of the
    decimal point downward from 310 with fuel 700, and the digits with
    fuel 17: [JsDoubleSpec.point_position_found] shows that the first is
    enough for every double of the binary64 range; that 17 digits identify
    a double is the classical bound and is not proved here (after 17
    attempts [shortest_digits] returns the truncation to 18 digits).  [drain]
    takes the load of the task list as its fuel, which
    [ArenaLive.drain_empties] shows to be enough.

    ** What the theorems show

    - Safety: a stake is submitted only on an allowance read made for it
      that covers the amount, on both pages; every approval is the
      unlimited one; a withdrawal of the portfolio page needs a stake, an
      open phase and a positive amount; the timer does not fire early.
    - Refinement: the write log of each page implements its guarded
      commands; the phase tests implement the phases of the specification;
      the portfolio page simulates the arena page.
    - Functional behaviour: the composites of the specification, with the
      exact log and the final state, for every ready state and every
      environment that answers as the flow assumes.
    - Invariants and types: settledness, parsed pending amounts, tested
      amounts, well-formed requests, the faction table as a tournament.
    - Liveness and termination: the continuations complete; the effect
      cascade ends after one pass; the fuel of the printing is enough.
    - Round trips and bounds: printing and reading amounts, MAX, the
      rounding of [toFixed], the units of the countdown.
    - Findings: the intent register [actionStep] guards nothing; a double
      click and a click in the settle delay stake twice; a rejected stake
      leaves the register set; the phase guard is the one of the last
      render; an amount above the stake is submitted; and others, listed in
      the manifest.

    ** Not modelled

    Class names, icons and the arrangement of the cards; the Privy SDK, the
    wallet, the RPC transport and the ledger contracts, which appear only
    as the events they cause; the encoding of a request by viem, so that
    an amount above [2^256 - 1] is logged as handed to [writeContract]. *)

From Stdlib Require Export ZArith Lia Bool String Ascii List.
From stdpp Require Export base tactics option list strings.
Export ListNotations.

#[global] Open Scope Z_scope.

(** ** Hint database and tactics *)

Create HintDb fx discriminated.
Create Rewrite HintDb fx_rw.

(** [case_if] splits on the first [if], boolean connective or comparison it
    finds, turning boolean tests into the propositions [lia] reads. *)
Ltac bool_to_prop :=
  repeat match goal with
  | H : (_ && _)%bool = true |- _ => apply andb_true_iff in H; destruct H
  | H : (_ || _)%bool = false |- _ => apply orb_false_iff in H; destruct H
  | H : negb _ = true |- _ => apply negb_true_iff in H
  | H : negb _ = false |- _ => apply negb_false_iff in H
  | H : (_ <? _) = true |- _ => apply Z.ltb_lt in H
  | H : (_ <? _) = false |- _ => apply Z.ltb_ge in H
  | H : (_ <=? _) = true |- _ => apply Z.leb_le in H
  | H : (_ <=? _) = false |- _ => apply Z.leb_gt in H
  | H : (_ >=? _) = true |- _ => rewrite Z.geb_leb in H
  | H : (_ >=? _) = false |- _ => rewrite Z.geb_leb in H
  | H : (_ =? _) = true |- _ => apply Z.eqb_eq in H
  | H : (_ =? _) = false |- _ => apply Z.eqb_neq in H
  end.

Ltac case_if :=
  match goal with
  | |- context [if ?b then _ else _] => destruct b eqn:?
  | H : context [if ?b then _ else _] |- _ => destruct b eqn:?
  end.

Ltac bool_lia := repeat case_if; bool_to_prop; try (simpl in *; congruence); try lia.

(** ** Record field updates

    [s <| field := v |>] sets a field and [s <| field ::= f |>] applies [f]
    to it; a record declares one [Setter] instance per field. *)

Class Setter {R E : Type} (getter : R -> E) := set : (E -> E) -> R -> R.
Arguments set {R E} getter {Setter} f r /.

Declare Scope record_scope.
Notation "s <| g := v |>" := (set g (fun _ => v) s)
  (at level 8, g at level 1, v at level 99, left associativity,
   format "s <| g  :=  v |>") : record_scope.
Notation "s <| g ::= f |>" := (set g f s)
  (at level 8, g at level 1, f at level 99, left associativity,
   format "s <| g  ::=  f |>") : record_scope.
#[global] Open Scope record_scope.

(** ** JavaScript truthiness

    [!x] on a [bigint | undefined] is true for [undefined] and for [0n];
    on a [string] it is true for the empty string only. *)

Definition truthy_bigint (x : option Z) : bool :=
  match x with
  | Some v => negb (v =? 0)
  | None => false
  end.

Definition truthy_string (s : string) : bool :=
  match s with
  | EmptyString => false
  | String _ _ => true
  end.

Lemma truthy_bigint_Some (x : option Z) :
  truthy_bigint x = true <-> exists v, x = Some v /\ v <> 0.
Proof.
  destruct x as [v|]; simpl; split.
  - intros H. exists v. split; [done|]. bool_to_prop. done.
  - intros (w & [= ->] & Hw). apply negb_true_iff, Z.eqb_neq. done.
  - done.
  - intros (w & ? & _). done.
Qed.

Lemma truthy_string_nonempty (s : string) :
  truthy_string s = true <-> s <> EmptyString.
Proof. destruct s; simpl; split; congruence. Qed.


(** ** Runs of a labelled step function

    A component of the program is a total step function over labels; the
    environment chooses the labels.  [run] folds a list of labels, and
    [reachable] is the set of states some label sequence leads to. *)

Section Runs.
Context {S L : Type}.
Variable step : S -> L -> S.

Fixpoint run (s : S) (ls : list L) : S :=
  match ls with
  | [] => s
  | l :: ls' => run (step s l) ls'
  end.

Inductive reachable (s0 : S) : S -> Prop :=
| reach_init : reachable s0 s0
| reach_step s l : reachable s0 s -> reachable s0 (step s l).

Lemma run_app (s : S) (ls1 ls2 : list L) :
  run s (ls1 ++ ls2) = run (run s ls1) ls2.
Proof. revert s. induction ls1 as [|l ls1 IH]; intros s; simpl; [done|apply IH]. Qed.

Lemma run_snoc (s : S) (ls : list L) (l : L) :
  run s (ls ++ [l]) = step (run s ls) l.
Proof. by rewrite run_app. Qed.

Lemma reachable_run (s0 : S) (ls : list L) : reachable s0 (run s0 ls).
Proof.
  induction ls as [|l ls IH] using rev_ind; [constructor|].
  rewrite run_snoc. by constructor.
Qed.

Lemma reachable_is_run (s0 s : S) :
  reachable s0 s -> exists ls, s = run s0 ls.
Proof.
  induction 1 as [|s l _ [ls ->]]; [by exists []|].
  exists (ls ++ [l]). by rewrite run_snoc.
Qed.

(** Invariants are proved once, by induction on reachability. *)
Lemma reachable_invariant (P : S -> Prop) (s0 : S) :
  P s0 -> (forall s l, P s -> P (step s l)) ->
  forall s, reachable s0 s -> P s.
Proof. intros H0 Hstep s. induction 1; eauto. Qed.

End Runs.

Arguments run {S L} step s ls.
Arguments reachable {S L} step s0 _.
