(* ===== verification/Digits.v ===== *)
(** * Decimal digit strings

    Everything the formatters and parsers of the program share: reading a
    run of decimal digits as a number (JavaScript's [BigInt(string)] on an
    unsigned digit string, the empty string included), printing a number
    (stdpp's [pretty], which prints as JavaScript's [toString] does),
    [padStart]/[padEnd], the thousands grouping of [toLocaleString("en-US")]
    and its inverse [replace(/,/g, "")]. *)

From stdpp Require Import pretty.
From S2P Require Import Prelude.

#[local] Open Scope N_scope.

(** ** Characters *)

(** The value of a decimal digit, from its character code. *)
Definition digit_of_char (c : ascii) : option N :=
  let code := N_of_ascii c in
  if ((48 <=? code) && (code <=? 57))%N then Some (code - 48)%N else None.

Definition is_digit (c : ascii) : bool :=
  match digit_of_char c with Some _ => true | None => false end.

Definition comma : ascii := ","%char.

(** A predicate on every character of a string, as a boolean. *)
Fixpoint string_forallb (p : ascii -> bool) (s : string) : bool :=
  match s with
  | EmptyString => true
  | String c s' => p c && string_forallb p s'
  end.

Definition all_digits (s : string) : bool := string_forallb is_digit s.

(** ** Reading *)

Fixpoint read_digits_from (acc : N) (s : string) : option N :=
  match s with
  | EmptyString => Some acc
  | String c s' =>
      match digit_of_char c with
      | Some d => read_digits_from (acc * 10 + d) s'
      | None => None
      end
  end.

Definition read_digits (s : string) : option N := read_digits_from 0 s.

(** ** Padding *)

Fixpoint repeat_char (n : nat) (c : ascii) : string :=
  match n with
  | O => EmptyString
  | S n' => String c (repeat_char n' c)
  end.

(** [s.padStart(len, c)] and [s.padEnd(len, c)] for a one-character pad. *)
Definition pad_start (len : nat) (c : ascii) (s : string) : string :=
  repeat_char (len - String.length s) c +:+ s.

Definition pad_end (len : nat) (c : ascii) (s : string) : string :=
  s +:+ repeat_char (len - String.length s) c.

(** ** Grouping *)

(** Thousands separators: a comma after every digit that is followed by a
    positive multiple of three digits. *)
Fixpoint group3 (s : string) : string :=
  match s with
  | EmptyString => EmptyString
  | String c s' =>
      String c
        (if (0 <? String.length s')%nat && (String.length s' mod 3 =? 0)%nat
         then String comma (group3 s')
         else group3 s')
  end.

(** [s.replace(/,/g, "")] *)
Fixpoint strip_commas (s : string) : string :=
  match s with
  | EmptyString => EmptyString
  | String c s' =>
      if Ascii.eqb c comma then strip_commas s' else String c (strip_commas s')
  end.

(** ** Lemmas on strings *)

Lemma string_app_nil_r (s : string) : s +:+ "" = s.
Proof. induction s; simpl; [done|]. unfold String.app in *. simpl. by f_equal. Qed.

Lemma string_app_assoc (s1 s2 s3 : string) : (s1 +:+ s2) +:+ s3 = s1 +:+ (s2 +:+ s3).
Proof. induction s1; [done|]. unfold String.app in *. simpl. by f_equal. Qed.

Lemma string_app_cons (c : ascii) (s1 s2 : string) :
  String c s1 +:+ s2 = String c (s1 +:+ s2).
Proof. done. Qed.

Lemma string_length_app (s1 s2 : string) :
  String.length (s1 +:+ s2) = (String.length s1 + String.length s2)%nat.
Proof. induction s1; [done|]. rewrite string_app_cons. simpl. by f_equal. Qed.

Lemma repeat_char_length (n : nat) (c : ascii) : String.length (repeat_char n c) = n.
Proof. induction n; simpl; by f_equal. Qed.

Lemma string_forallb_app (p : ascii -> bool) (s1 s2 : string) :
  string_forallb p (s1 +:+ s2) = string_forallb p s1 && string_forallb p s2.
Proof.
  induction s1; [done|]. rewrite string_app_cons. simpl.
  by rewrite IHs1, andb_assoc.
Qed.

Lemma string_forallb_repeat (p : ascii -> bool) (n : nat) (c : ascii) :
  p c = true -> string_forallb p (repeat_char n c) = true.
Proof. intros Hc. induction n; simpl; [done|]. by rewrite Hc. Qed.

#[export] Hint Rewrite string_app_nil_r string_app_assoc string_length_app
  repeat_char_length string_forallb_app : fx_rw.

(** ** Padding *)

Lemma pad_start_length (len : nat) (c : ascii) (s : string) :
  String.length (pad_start len c s) = Nat.max len (String.length s).
Proof. unfold pad_start. rewrite string_length_app, repeat_char_length. lia. Qed.

Lemma pad_end_length (len : nat) (c : ascii) (s : string) :
  String.length (pad_end len c s) = Nat.max len (String.length s).
Proof. unfold pad_end. rewrite string_length_app, repeat_char_length. lia. Qed.

Lemma pad_start_long (len : nat) (c : ascii) (s : string) :
  (len <= String.length s)%nat -> pad_start len c s = s.
Proof. intros H. unfold pad_start. by replace (len - String.length s)%nat with O by lia. Qed.

Lemma pad_end_long (len : nat) (c : ascii) (s : string) :
  (len <= String.length s)%nat -> pad_end len c s = s.
Proof.
  intros H. unfold pad_end. replace (len - String.length s)%nat with O by lia.
  apply string_app_nil_r.
Qed.

(** ** Reading *)

Lemma digit_of_char_bound (c : ascii) (d : N) : digit_of_char c = Some d -> d < 10.
Proof.
  unfold digit_of_char. destruct (_ && _)%bool eqn:E; [|done]. intros [= <-].
  apply andb_true_iff in E as [E1%N.leb_le E2%N.leb_le]. lia.
Qed.

Lemma is_digit_inv (c : ascii) :
  is_digit c = true ->
  In c ["0"; "1"; "2"; "3"; "4"; "5"; "6"; "7"; "8"; "9"]%char.
Proof.
  destruct c as [[] [] [] [] [] [] [] []]; vm_compute; intros H; try discriminate H;
    tauto.
Qed.

Lemma read_digits_from_app (acc : N) (s1 s2 : string) :
  read_digits_from acc (s1 +:+ s2) =
  match read_digits_from acc s1 with
  | Some m => read_digits_from m s2
  | None => None
  end.
Proof.
  revert acc. induction s1 as [|c s1 IH]; intros acc; [done|].
  rewrite string_app_cons. simpl. destruct (digit_of_char c); [apply IH|done].
Qed.

(** Reading is positional: the accumulator is shifted by the number of
    digits read. *)
Lemma read_digits_from_shift (acc : N) (s : string) :
  read_digits_from acc s =
  match read_digits s with
  | Some n => Some (acc * 10 ^ N.of_nat (String.length s) + n)
  | None => None
  end.
Proof.
  unfold read_digits. revert acc.
  induction s as [|c s IH]; intros acc; simpl read_digits_from.
  - f_equal. simpl. lia.
  - destruct (digit_of_char c) as [d|]; [|done].
    rewrite (IH (acc * 10 + d)), (IH (0 * 10 + d)).
    destruct (read_digits_from 0 s) as [n|]; [|done]. f_equal.
    replace (N.of_nat (String.length (String c s))) with (N.succ (N.of_nat (String.length s)))
      by (simpl; lia).
    rewrite N.pow_succ_r'. lia.
Qed.

Lemma read_digits_app (s1 s2 : string) :
  read_digits (s1 +:+ s2) =
  match read_digits s1, read_digits s2 with
  | Some a, Some b => Some (a * 10 ^ N.of_nat (String.length s2) + b)
  | _, _ => None
  end.
Proof.
  unfold read_digits at 1. rewrite read_digits_from_app. fold (read_digits s1).
  destruct (read_digits s1) as [a|]; [|done]. apply read_digits_from_shift.
Qed.

Lemma read_digits_all_digits (s : string) :
  all_digits s = true <-> is_Some (read_digits s).
Proof.
  unfold read_digits, all_digits. generalize 0. induction s as [|c s IH]; intros acc; simpl.
  - split; eauto.
  - unfold is_digit. destruct (digit_of_char c); simpl; [apply IH|].
    split; [done|]. by intros [].
Qed.

Lemma read_digits_zeros (n : nat) : read_digits (repeat_char n "0") = Some 0.
Proof.
  unfold read_digits. induction n; [done|]. simpl. exact IHn.
Qed.

(** Leading zeros do not change the value read. *)
Lemma read_digits_pad_start (len : nat) (s : string) :
  read_digits (pad_start len "0" s) = read_digits s.
Proof.
  unfold pad_start. rewrite read_digits_app, read_digits_zeros.
  destruct (read_digits s); [|done]. f_equal; lia.
Qed.

(** Trailing zeros multiply by a power of ten. *)
Lemma read_digits_pad_end (len : nat) (s : string) :
  read_digits (pad_end len "0" s) =
  match read_digits s with
  | Some n => Some (n * 10 ^ N.of_nat (len - String.length s))
  | None => None
  end.
Proof.
  unfold pad_end. rewrite read_digits_app, read_digits_zeros, repeat_char_length.
  destruct (read_digits s); [|done]. f_equal. lia.
Qed.

(** ** Printing *)

Lemma digit_of_pretty_char (d : N) : d < 10 -> digit_of_char (pretty_N_char d) = Some d.
Proof.
  intros H.
  assert (Hd : In d [0; 1; 2; 3; 4; 5; 6; 7; 8; 9]) by (simpl; lia).
  simpl in Hd. by repeat destruct Hd as [<-|Hd].
Qed.

Lemma pretty_N_go_app (x : N) (s : string) : pretty_N_go x s = pretty_N_go x "" +:+ s.
Proof.
  revert s. induction (N.lt_wf_0 x) as [x _ IH]; intros s.
  destruct (N.eq_dec x 0) as [->|Hx]; [done|].
  assert (Hlt : x / 10 < x) by (apply N.div_lt; lia).
  rewrite !(pretty_N_go_step x) by lia.
  rewrite (IH _ Hlt (String _ s)), (IH _ Hlt (String _ "")).
  by rewrite string_app_assoc.
Qed.

Lemma read_pretty_go (x : N) : read_digits (pretty_N_go x "") = Some x.
Proof.
  induction (N.lt_wf_0 x) as [x _ IH].
  destruct (N.eq_dec x 0) as [->|Hx]; [done|].
  rewrite pretty_N_go_step, pretty_N_go_app, read_digits_app by lia.
  rewrite IH by (apply N.div_lt; lia).
  unfold read_digits at 1. simpl read_digits_from.
  rewrite digit_of_pretty_char by (apply N.mod_lt; lia).
  f_equal. simpl String.length. pose proof (N.div_mod x 10). lia.
Qed.

(** Printing then reading gives the number back. *)
Lemma read_pretty (n : N) : read_digits (pretty n) = Some n.
Proof.
  unfold pretty, pretty_N. case_decide as H; [by subst|]. apply read_pretty_go.
Qed.

Lemma pretty_all_digits (n : N) : all_digits (pretty n) = true.
Proof. apply read_digits_all_digits. rewrite read_pretty. eauto. Qed.

Lemma pretty_nonempty (n : N) : pretty n <> "".
Proof.
  unfold pretty, pretty_N. case_decide as H; [done|].
  rewrite pretty_N_go_step by lia. rewrite pretty_N_go_app.
  destruct (pretty_N_go (n / 10) ""); done.
Qed.

(** ** Grouping *)

Lemma is_digit_not_comma (c : ascii) : is_digit c = true -> Ascii.eqb c comma = false.
Proof.
  unfold is_digit, digit_of_char, comma. intros H. apply Ascii.eqb_neq. intros ->. done.
Qed.

(** Removing the commas undoes the grouping of a digit string. *)
Lemma strip_commas_group3 (s : string) :
  all_digits s = true -> strip_commas (group3 s) = s.
Proof.
  unfold all_digits. induction s as [|c s IH]; [done|]. simpl.
  intros [Hc Hs]%andb_true_iff. rewrite (is_digit_not_comma c Hc).
  f_equal. case_if; simpl; auto.
Qed.

Lemma strip_commas_app (s1 s2 : string) :
  strip_commas (s1 +:+ s2) = strip_commas s1 +:+ strip_commas s2.
Proof.
  induction s1 as [|c s1 IH]; [done|]. rewrite string_app_cons. simpl.
  destruct (Ascii.eqb c comma); [done|]. by rewrite string_app_cons, IH.
Qed.

Lemma strip_commas_digits (s : string) : all_digits s = true -> strip_commas s = s.
Proof.
  unfold all_digits. induction s as [|c s IH]; [done|]. simpl.
  intros [Hc Hs]%andb_true_iff. rewrite (is_digit_not_comma c Hc). f_equal. auto.
Qed.
