(* ===== verification/JsNumber.v ===== *)
(** * The part of JavaScript's [Number] the program relies on

    [parseFloat] as ECMAScript defines it: leading white space is skipped,
    the longest prefix that is a [StrDecimalLiteral] is read, and the result
    is [NaN] when there is none.  The value read is kept as an exact decimal
    [(-1)^neg * mant * 10^exp10]; the tests the code makes on it ([<= 0],
    [isNaN]) are decided as IEEE-754 binary64 decides them, which differs
    from the exact value only where a positive decimal underflows to zero.

    [to_double] is the correctly rounded conversion to binary64, computed
    with the standard library's [SpecFloat] (precision 53, [emax] 1024), and
    [Math_round] is [Math.round] on its result.  Strings are sequences of
    ASCII characters: the non-ASCII white space of ECMAScript is outside the
    model. *)

From Stdlib Require Import SpecFloat.
From stdpp Require Import pretty.
From S2P Require Import Prelude Digits.

(** ** Values *)

Inductive JsNum :=
| NaN
| Inf (neg : bool)
| Dec (neg : bool) (mant : N) (exp10 : Z).

#[export] Instance JsNum_eq_dec : EqDecision JsNum.
Proof. solve_decision. Defined.

(** ** Lexing *)

(** [StrWhiteSpaceChar] within ASCII: TAB, LF, VT, FF, CR and space. *)
Definition is_js_space (c : ascii) : bool :=
  match c with
  | "009" | "010" | "011" | "012" | "013" | " " => true
  | _ => false
  end%char.

Fixpoint trim_start (s : string) : string :=
  match s with
  | String c s' => if is_js_space c then trim_start s' else s
  | EmptyString => EmptyString
  end.

(** The longest prefix of decimal digits, and what follows it. *)
Fixpoint span_digits (s : string) : string * string :=
  match s with
  | String c s' =>
      if is_digit c then let '(ds, r) := span_digits s' in (String c ds, r)
      else (EmptyString, s)
  | EmptyString => (EmptyString, EmptyString)
  end.

(** The value of a digit string ([0] for the empty one). *)
Definition digits_value (s : string) : N := default 0%N (read_digits s).

(** [ExponentPart], when one follows: [e] or [E], an optional sign and at
    least one digit.  Anything else is not part of the literal. *)
Definition parse_exponent (s : string) : Z :=
  match s with
  | String c s' =>
      if Ascii.eqb c "e" || Ascii.eqb c "E" then
        let '(neg, s'') :=
          match s' with
          | String "+" r => (false, r)
          | String "-" r => (true, r)
          | _ => (false, s')
          end in
        let '(ds, _) := span_digits s'' in
        match ds with
        | EmptyString => 0
        | _ => if neg then - Z.of_N (digits_value ds) else Z.of_N (digits_value ds)
        end
      else 0
  | EmptyString => 0
  end.

(** [StrUnsignedDecimalLiteral]. *)
Definition parse_unsigned (neg : bool) (s : string) : JsNum :=
  if String.prefix "Infinity" s then Inf neg
  else
    let '(ip, r1) := span_digits s in
    match r1 with
    | String "." r2 =>
        let '(fp, r3) := span_digits r2 in
        match ip, fp with
        | EmptyString, EmptyString => NaN
        | _, _ =>
            Dec neg (digits_value (ip +:+ fp))
                (parse_exponent r3 - Z.of_nat (String.length fp))
        end
    | _ =>
        match ip with
        | EmptyString => NaN
        | _ => Dec neg (digits_value ip) (parse_exponent r1)
        end
    end.

Definition parseFloat (s : string) : JsNum :=
  match trim_start s with
  | String "+" r => parse_unsigned false r
  | String "-" r => parse_unsigned true r
  | r => parse_unsigned false r
  end.

(** ** Tests on the value *)

Definition isNaN (x : JsNum) : bool :=
  match x with NaN => true | _ => false end.

(** A positive decimal becomes the double [+0] exactly when it is at most
    [2^-1075], half of the least subnormal (the tie goes to the even
    mantissa, which is zero). *)
Definition rounds_to_zero (mant : N) (exp10 : Z) : bool :=
  (mant =? 0)%N ||
  ((exp10 <? 0) && (Z.of_N mant * 2 ^ 1075 <=? 10 ^ (- exp10))).

(** [x <= 0] *)
Definition num_le_zero (x : JsNum) : bool :=
  match x with
  | NaN => false
  | Inf neg => neg
  | Dec neg m e => neg || rounds_to_zero m e
  end.

(** ** Conversion to binary64 *)

Definition prec : Z := 53.
Definition emax : Z := 1024.

(** [Number(n)] for a [bigint]. *)
Definition number_of_bigint (n : Z) : spec_float := binary_normalize prec emax n 0 false.

(** The double nearest to the decimal (ties to even). *)
Definition to_double (x : JsNum) : spec_float :=
  match x with
  | NaN => S754_nan
  | Inf neg => S754_infinity neg
  | Dec neg N0 _ => S754_zero neg
  | Dec neg (Npos m) e =>
      if 0 <=? e then binary_round prec emax neg (m * Z.to_pos (10 ^ e)) 0
      else
        let '(q, e', l) := SFdiv_core_binary prec emax (Zpos m) 0 (10 ^ (- e)) 0 in
        binary_round_aux prec emax neg q e' l
  end.

(** [x <= 0] on doubles. *)
Definition double_le_zero (x : spec_float) : bool := SFleb x (S754_zero false).

(** [Math.round]: the nearest integer, ties toward plus infinity.  [None]
    for [NaN] and the infinities, which [Math.round] returns unchanged. *)
Definition Math_round (x : spec_float) : option Z :=
  match x with
  | S754_zero _ => Some 0
  | S754_finite s m e =>
      let v := if s then Zneg m else Zpos m in
      if 0 <=? e then Some (v * 2 ^ e)
      else Some ((2 * v + 2 ^ (- e)) / (2 * 2 ^ (- e)))
  | _ => None
  end.

(** ** Lexing lemmas *)

Lemma span_digits_all (ds r : string) :
  all_digits ds = true ->
  (match r with String c _ => is_digit c = false | EmptyString => True end) ->
  span_digits (ds +:+ r) = (ds, r).
Proof.
  unfold all_digits. intros Hds Hr. induction ds as [|c ds IH].
  - destruct r as [|c r]; [done|]. simpl. change ("" +:+ String c r) with (String c r).
    simpl. by rewrite Hr.
  - simpl in Hds. apply andb_true_iff in Hds as [Hc Hds].
    rewrite string_app_cons. simpl. rewrite Hc, (IH Hds). done.
Qed.

Lemma span_digits_digits (ds : string) :
  all_digits ds = true -> span_digits ds = (ds, "").
Proof.
  intros H. rewrite <- (string_app_nil_r ds) at 1. by apply span_digits_all.
Qed.

Lemma digits_value_pretty (n : N) : digits_value (pretty n) = n.
Proof. unfold digits_value. by rewrite read_pretty. Qed.

Lemma is_digit_not_space (c : ascii) : is_digit c = true -> is_js_space c = false.
Proof.
  intros H%is_digit_inv. simpl in H. by destruct_or!; subst.
Qed.

(** A non-empty digit string starts with a digit, which is neither white
    space nor a sign nor the [I] of [Infinity]. *)
Lemma digits_head (ds : string) :
  all_digits ds = true -> ds <> "" ->
  exists c ds', ds = String c ds' /\ is_digit c = true.
Proof.
  destruct ds as [|c ds']; [done|]. unfold all_digits. simpl.
  intros [Hc _]%andb_true_iff _. eauto.
Qed.

Lemma parseFloat_unsigned (ds r : string) :
  all_digits ds = true -> ds <> "" ->
  parseFloat (ds +:+ r) = parse_unsigned false (ds +:+ r).
Proof.
  intros Hds Hne. destruct (digits_head ds Hds Hne) as (c & ds' & -> & Hc).
  rewrite string_app_cons. unfold parseFloat. simpl.
  rewrite (is_digit_not_space c Hc).
  apply is_digit_inv in Hc. simpl in Hc. by destruct_or!; subst.
Qed.

Lemma prefix_Infinity_digit (c : ascii) (s : string) :
  is_digit c = true -> String.prefix "Infinity" (String c s) = false.
Proof.
  intros Hc. destruct c as [[] [] [] [] [] [] [] []]; done.
Qed.

(** [parseFloat] on a plain integer literal. *)
Lemma parseFloat_digits (ds : string) :
  all_digits ds = true -> ds <> "" ->
  parseFloat ds = Dec false (digits_value ds) 0.
Proof.
  intros Hds Hne. rewrite <- (string_app_nil_r ds) at 1.
  rewrite parseFloat_unsigned by done. rewrite string_app_nil_r.
  destruct (digits_head ds Hds Hne) as (c & ds' & -> & Hc).
  unfold parse_unsigned. rewrite prefix_Infinity_digit by done.
  by rewrite (span_digits_digits _ Hds).
Qed.

(** [parseFloat] on [integer.fraction]. *)
Lemma parseFloat_fixed (ip fp : string) :
  all_digits ip = true -> ip <> "" -> all_digits fp = true ->
  parseFloat (ip +:+ "." +:+ fp) =
  Dec false (digits_value (ip +:+ fp)) (- Z.of_nat (String.length fp)).
Proof.
  intros Hip Hne Hfp. rewrite parseFloat_unsigned by done.
  destruct (digits_head ip Hip Hne) as (c & ip' & -> & Hc).
  unfold parse_unsigned. rewrite string_app_cons, prefix_Infinity_digit by done.
  rewrite <- string_app_cons, (span_digits_all _ ("." +:+ fp)) by done.
  change ("." +:+ fp) with (String "." fp).
  cbn iota. by rewrite (span_digits_digits _ Hfp).
Qed.

(** ** The sign test *)

Lemma rounds_to_zero_false (m : N) (e : Z) :
  rounds_to_zero m e = false <->
  (0 < m)%N /\ (0 <= e \/ 10 ^ (- e) < Z.of_N m * 2 ^ 1075).
Proof.
  unfold rounds_to_zero. rewrite orb_false_iff, andb_false_iff.
  rewrite N.eqb_neq, Z.ltb_ge, Z.leb_gt. intuition lia.
Qed.

(** Down to 323 fraction digits no positive decimal underflows: every
    amount a user can type with at most that many decimals is positive
    as a double as soon as one of its digits is not zero. *)
Lemma rounds_to_zero_small_exp (m : N) (e : Z) :
  (0 < m)%N -> -323 <= e -> rounds_to_zero m e = false.
Proof.
  intros Hm He. apply rounds_to_zero_false. split; [done|].
  destruct (Z_le_gt_dec 0 e); [by left|right].
  assert (10 ^ (- e) <= 10 ^ 323) by (apply Z.pow_le_mono_r; lia).
  assert (10 ^ 323 < 2 ^ 1075) by (by vm_compute).
  nia.
Qed.

Lemma num_le_zero_Dec_pos (m : N) (e : Z) :
  (0 < m)%N -> -323 <= e -> num_le_zero (Dec false m e) = false.
Proof. intros. simpl. by apply rounds_to_zero_small_exp. Qed.

(** ** The arithmetic sign test agrees with the binary64 conversion at the
    underflow boundary *)

Example underflow_boundary :
  let below := parseFloat "2.4703282292062327e-324" in
  let above := parseFloat "2.4703282292062328e-324" in
  (num_le_zero below, double_le_zero (to_double below)) = (true, true) /\
  (num_le_zero above, double_le_zero (to_double above)) = (false, false).
Proof. by vm_compute. Qed.

Example to_double_examples :
  to_double (parseFloat "0.5") = S754_finite false 4503599627370496 (-53) /\
  to_double (parseFloat "1e21") = number_of_bigint (10 ^ 21) /\
  to_double (parseFloat "-0") = S754_zero true /\
  to_double (parseFloat "1e400") = S754_infinity false /\
  Math_round (to_double (parseFloat "4.5")) = Some 5 /\
  Math_round (to_double (parseFloat "4.49999999999999999999")) = Some 5 /\
  Math_round (to_double (parseFloat "4.4999")) = Some 4 /\
  Math_round (to_double (parseFloat "-2.5")) = Some (-2).
Proof. by vm_compute. Qed.

Example parseFloat_examples :
  parseFloat "100" = Dec false 100 0 /\
  parseFloat "  12.50abc" = Dec false 1250 (-2) /\
  parseFloat ".5" = Dec false 5 (-1) /\
  parseFloat "5." = Dec false 5 0 /\
  parseFloat "1e5" = Dec false 1 5 /\
  parseFloat "1e" = Dec false 1 0 /\
  parseFloat "-Infinity" = Inf true /\
  parseFloat "abc" = NaN /\
  parseFloat "" = NaN /\
  parseFloat "." = NaN /\
  parseFloat "1,234.50" = Dec false 1 0.
Proof. by vm_compute. Qed.
