(* ===== verification/Viem.v ===== *)
(** * viem's unit conversions

    [parseUnits(value, decimals)] turns a decimal string into a fixed-point
    [bigint] and throws on anything that is not [-?digits*.?digits*];
    [formatUnits(value, decimals)] prints a fixed-point [bigint] as the
    shortest decimal string; [maxUint256] is the amount every approval
    requests.  The library is not part of the repository: the definitions
    follow its published behaviour, operation by operation for
    [parseUnits], whose rounding of excess fraction digits goes through
    [Math.round(Number(...))] and is computed here with the binary64
    conversion of [JsNumber]. *)

From stdpp Require Import pretty.
From S2P Require Import Prelude Digits JsNumber.

Definition maxUint256 : Z := 2 ^ 256 - 1.

(** ** String helpers *)

(** [s.slice(0, n)] and [s.slice(n)] for [0 <= n]. *)
Fixpoint take_chars (n : nat) (s : string) : string :=
  match n, s with
  | S n', String c s' => String c (take_chars n' s')
  | _, _ => EmptyString
  end.

Fixpoint drop_chars (n : nat) (s : string) : string :=
  match n, s with
  | S n', String _ s' => drop_chars n' s'
  | _, _ => s
  end.

(** [s.replace(/(0+)$/, "")] *)
Fixpoint strip_trailing_zeros (s : string) : string :=
  match s with
  | EmptyString => EmptyString
  | String c s' =>
      match strip_trailing_zeros s' with
      | EmptyString => if Ascii.eqb c "0" then EmptyString else String c EmptyString
      | r => String c r
      end
  end.

(** ** parseUnits *)

(** The regular-expression test (an optional minus sign, digits, an
    optional point, digits, and nothing else) together with
    [value.split(".")] and the removal of the sign: the sign, the integer
    digits and the fraction digits ([None] when the string has no point). *)
Definition strip_sign (value : string) : bool * string :=
  match value with
  | String "-" r => (true, r)
  | _ => (false, value)
  end.

Definition split_decimal (value : string) : option (bool * string * option string) :=
  let '(negative, body) := strip_sign value in
  let '(integer, rest) := span_digits body in
  match rest with
  | EmptyString => Some (negative, integer, None)
  | String "." r =>
      let '(fraction, rest') := span_digits r in
      match rest' with
      | EmptyString => Some (negative, integer, Some fraction)
      | _ => None
      end
  | _ => None
  end.

(** [`${BigInt(s) + 1n}`] on a digit string. *)
Definition succ_digits (s : string) : string := pretty (digits_value s + 1)%N.

(** The branch taken when the fraction has more digits than [decimals]:
    the digit at position [decimals] is rounded with
    [Math.round(Number(`${unit}.${right}`))] and a carry is propagated into
    the kept digits and, past them, into the integer part. *)
Definition round_fraction (decimals : nat) (integer fraction : string) : string * string :=
  let left := take_chars (decimals - 1) fraction in
  let unit := take_chars 1 (drop_chars (decimals - 1) fraction) in
  let right := drop_chars decimals fraction in
  let rounded :=
    default 0 (Math_round (to_double
      (Dec false (digits_value (unit +:+ right)) (- Z.of_nat (String.length right))))) in
  let fraction1 :=
    if 9 <? rounded
    then pad_start (String.length left + 1) "0" (succ_digits left +:+ "0")
    else left +:+ pretty (Z.to_N rounded) in
  let '(integer2, fraction2) :=
    if (decimals <? String.length fraction1)%nat
    then (succ_digits integer, drop_chars 1 fraction1)
    else (integer, fraction1) in
  (integer2, take_chars decimals fraction2).

(** [BigInt(`${negative ? "-" : ""}${digits}`)]: a lone sign is a syntax
    error, an empty string is zero. *)
Definition bigint_of_signed_digits (negative : bool) (digits : string) : option Z :=
  match negative, digits with
  | true, EmptyString => None
  | _, _ =>
      n ← read_digits digits;
      Some (if negative then - Z.of_N n else Z.of_N n)
  end.

Definition parseUnits (value : string) (decimals : nat) : option Z :=
  '(negative, integer, fraction_opt) ← split_decimal value;
  let fraction := strip_trailing_zeros (default "0" fraction_opt) in
  let '(integer', fraction') :=
    match decimals with
    | O =>
        let up := default 0 (Math_round (to_double
          (Dec false (digits_value fraction) (- Z.of_nat (String.length fraction))))) in
        (if up =? 1 then succ_digits integer else integer, EmptyString)
    | _ =>
        if (decimals <? String.length fraction)%nat
        then round_fraction decimals integer fraction
        else (integer, pad_end decimals "0" fraction)
    end in
  bigint_of_signed_digits negative (integer' +:+ fraction').

(** ** formatUnits *)

(** The value divided by [10^decimals], printed without trailing fraction
    zeros and without a point when the fraction is zero. *)
Definition formatUnits (value : Z) (decimals : nat) : string :=
  let m := Z.abs_N value in
  let scale := (10 ^ N.of_nat decimals)%N in
  let integer := pretty (m / scale)%N in
  let fraction := strip_trailing_zeros (pad_start decimals "0" (pretty (m mod scale)%N)) in
  (if value <? 0 then "-" else "") +:+ integer +:+
  match fraction with
  | EmptyString => EmptyString
  | _ => "." +:+ fraction
  end.

(** ** Lemmas *)

Lemma repeat_char_add (n m : nat) (c : ascii) :
  repeat_char (n + m) c = repeat_char n c +:+ repeat_char m c.
Proof. induction n; [done|]. simpl. rewrite string_app_cons. by f_equal. Qed.

(** What the regular expression removes is a run of zeros. *)
Lemma strip_trailing_zeros_spec (s : string) :
  exists k, s = strip_trailing_zeros s +:+ repeat_char k "0" /\
            String.length s = (String.length (strip_trailing_zeros s) + k)%nat.
Proof.
  induction s as [|c s (k & IH & Hlen)]; [by exists 0%nat|]. simpl.
  destruct (strip_trailing_zeros s) as [|c' r] eqn:E.
  - destruct (Ascii.eqb_spec c "0") as [->|_].
    + exists (S k). split; [by rewrite IH at 1|simpl in *; lia].
    + exists k. split; [by rewrite IH at 1|simpl in *; lia].
  - exists k. rewrite string_app_cons. split; [by rewrite IH at 1|simpl in *; lia].
Qed.

(** Padding to [len] digits restores the zeros that were removed. *)
Lemma pad_end_strip_trailing_zeros (len : nat) (s : string) :
  (String.length s <= len)%nat ->
  pad_end len "0" (strip_trailing_zeros s) = pad_end len "0" s.
Proof.
  intros Hlen. destruct (strip_trailing_zeros_spec s) as (k & Hs & Hk).
  unfold pad_end. rewrite Hs at 3. rewrite string_app_assoc, <- repeat_char_add.
  do 2 f_equal. lia.
Qed.

(** A string that starts with digits, or with the point, has no sign. *)
Lemma strip_sign_digit (c : ascii) (r : string) :
  is_digit c = true -> strip_sign (String c r) = (false, String c r).
Proof. intros Hc%is_digit_inv. simpl in Hc. by destruct_or!; subst. Qed.

Lemma digits_not_signed (ds r : string) :
  all_digits ds = true ->
  strip_sign (ds +:+ "." +:+ r) = (false, ds +:+ "." +:+ r).
Proof.
  destruct ds as [|c ds]; [done|]. unfold all_digits. simpl.
  intros [Hc _]%andb_true_iff. by apply strip_sign_digit.
Qed.

Lemma split_decimal_fixed (ip fp : string) :
  all_digits ip = true -> all_digits fp = true ->
  split_decimal (ip +:+ "." +:+ fp) = Some (false, ip, Some fp).
Proof.
  intros Hip Hfp. unfold split_decimal.
  rewrite (digits_not_signed ip fp Hip), span_digits_all by done.
  change ("." +:+ fp) with (String "." fp). cbv iota. by rewrite span_digits_digits.
Qed.

Lemma split_decimal_digits (ds : string) :
  all_digits ds = true -> ds <> "" -> split_decimal ds = Some (false, ds, None).
Proof.
  intros H Hne. destruct (digits_head ds H Hne) as (c & ds' & -> & Hc).
  unfold split_decimal. by rewrite strip_sign_digit, span_digits_digits.
Qed.

(** A fixed-point amount with at most [decimals] fraction digits is read
    exactly. *)
Lemma parseUnits_fixed (ip fp : string) (i f : N) (d : nat) :
  read_digits ip = Some i -> read_digits fp = Some f ->
  (String.length fp <= S d)%nat ->
  parseUnits (ip +:+ "." +:+ fp) (S d) =
    Some (Z.of_N (i * 10 ^ N.of_nat (S d) + f * 10 ^ N.of_nat (S d - String.length fp))).
Proof.
  intros Hi Hf Hlen. unfold parseUnits.
  rewrite split_decimal_fixed by (apply read_digits_all_digits; eauto).
  cbn [mbind option_bind default from_option id]. cbv zeta iota.
  destruct (strip_trailing_zeros_spec fp) as (k & _ & Hk).
  replace (S d <? _)%nat with false by (symmetry; apply Nat.ltb_ge; lia).
  rewrite pad_end_strip_trailing_zeros by done. unfold bigint_of_signed_digits.
  by rewrite read_digits_app, Hi, read_digits_pad_end, Hf, pad_end_length, Nat.max_l.
Qed.

(** A whole amount is multiplied by [10^decimals]. *)
Lemma parseUnits_whole (ds : string) (n : N) (d : nat) :
  read_digits ds = Some n -> ds <> "" ->
  parseUnits ds (S d) = Some (Z.of_N (n * 10 ^ N.of_nat (S d))).
Proof.
  intros Hn Hne. unfold parseUnits.
  rewrite split_decimal_digits by (done || apply read_digits_all_digits; eauto).
  cbn [mbind option_bind default]. change (strip_trailing_zeros "0") with "".
  cbv zeta iota. cbn [String.length Nat.ltb Nat.leb]. unfold bigint_of_signed_digits.
  rewrite read_digits_app, Hn, read_digits_pad_end, pad_end_length, Nat.max_l by (simpl; lia).
  cbn [mbind option_bind read_digits read_digits_from String.length]. do 3 f_equal. lia.
Qed.

(** ** Examples *)

Example parseUnits_examples :
  parseUnits "100" 6 = Some 100000000 /\
  parseUnits "12.5" 6 = Some 12500000 /\
  parseUnits "1234.50" 6 = Some 1234500000 /\
  parseUnits "0.000001" 6 = Some 1 /\
  parseUnits "0.0000005" 6 = Some 1 /\
  parseUnits "0.0000004" 6 = Some 0 /\
  parseUnits "0.9999995" 6 = Some 1000000 /\
  parseUnits "1.9999999" 6 = Some 2000000 /\
  parseUnits "-1.5" 6 = Some (-1500000) /\
  parseUnits "" 6 = Some 0 /\
  parseUnits "." 6 = Some 0 /\
  parseUnits "1e5" 6 = None /\
  parseUnits "1,234.50" 6 = None /\
  parseUnits "Infinity" 6 = None /\
  parseUnits " 1" 6 = None.
Proof. by vm_compute. Qed.

Example formatUnits_examples :
  formatUnits 1234500000 6 = "1234.5" /\
  formatUnits 1 6 = "0.000001" /\
  formatUnits 0 6 = "0" /\
  formatUnits (-500000) 6 = "-0.5" /\
  formatUnits 1000000 6 = "1".
Proof. by vm_compute. Qed.
