(* ===== verification/JsDouble.v ===== *)
(** * Arithmetic and printing of binary64 Numbers

    The pages compute with Numbers in three places: the percent buttons
    of the withdraw forms ([Number(userStake) / 1e6], a product with
    [parseInt(percent) / 100], [toString] and [toFixed(2)]) and the share
    of the clan total on the portfolio page ([toFixed(1)] of a quotient).
    The operations are those of IEEE-754 binary64 as the standard
    library's [SpecFloat] computes them; [toFixed] and [toString] follow
    ECMAScript's [Number.prototype.toFixed] and [Number::toString] on the
    exact value of the double, so that the model has no rounding
    assumption of its own. *)

From Stdlib Require Import SpecFloat.
From stdpp Require Import pretty.
From S2P Require Import Prelude Digits JsNumber Viem.

(** ** Arithmetic *)

Definition double_div (x y : spec_float) : spec_float := SFdiv prec emax x y.
Definition double_mul (x y : spec_float) : spec_float := SFmul prec emax x y.
Definition double_sub (x y : spec_float) : spec_float := SFsub prec emax x y.

(** The literals [1e6] and [100]. *)
Definition double_1e6 : spec_float := number_of_bigint 1000000.
Definition double_100 : spec_float := number_of_bigint 100.

(** ** parseInt *)

Definition hex_digit_of_char (c : ascii) : option N :=
  let code := N_of_ascii c in
  if ((48 <=? code) && (code <=? 57))%N then Some (code - 48)%N
  else if ((97 <=? code) && (code <=? 102))%N then Some (code - 87)%N
  else if ((65 <=? code) && (code <=? 70))%N then Some (code - 55)%N
  else None.

(** The longest prefix of digits of the radix, read as a number: [None]
    when there is no digit. *)
Fixpoint read_prefix (digit : ascii -> option N) (radix : N) (acc : option N) (s : string)
    : option N :=
  match s with
  | String c s' =>
      match digit c with
      | Some d => read_prefix digit radix (Some (default 0 acc * radix + d)%N) s'
      | None => acc
      end
  | EmptyString => acc
  end.

(** [parseInt(s)] without a radix: white space, a sign, [0x] for
    hexadecimal, then the longest prefix of digits. *)
Definition parseInt (s : string) : JsNum :=
  let '(neg, r) :=
    match trim_start s with
    | String "+" r => (false, r)
    | String "-" r => (true, r)
    | r => (false, r)
    end in
  let value :=
    match r with
    | String "0" (String "x" h) | String "0" (String "X" h) =>
        read_prefix hex_digit_of_char 16 None h
    | _ => read_prefix digit_of_char 10 None r
    end in
  match value with
  | Some n => Dec neg n 0
  | None => NaN
  end.

(** ** The exact value of a double *)

(** A positive finite double [m * 2^e] as a fraction. *)
Definition fraction_of (m : positive) (e : Z) : Z * Z :=
  if 0 <=? e then (Zpos m * 2 ^ e, 1) else (Zpos m, 2 ^ (- e)).

(** [10^k] times a fraction, for any integer [k]. *)
Definition scale10 (k : Z) (x : Z * Z) : Z * Z :=
  if 0 <=? k then (fst x * 10 ^ k, snd x) else (fst x, snd x * 10 ^ (- k)).

(** ** toFixed *)

(** The integer [n] for which [n / 10^f - x] is closest to zero, the
    larger one when there are two. *)
Definition round_scaled (f : nat) (m : positive) (e : Z) : Z :=
  let '(p, q) := scale10 (Z.of_nat f) (fraction_of m e) in
  (2 * p + q) / (2 * q).

(** The digits of [n] with a point before the last [f] of them. *)
Definition fixed_digits (f : nat) (n : Z) : string :=
  let m := pad_start (S f) "0" (pretty (Z.to_N n)) in
  match f with
  | O => m
  | _ =>
      take_chars (String.length m - f) m +:+ "." +:+ drop_chars (String.length m - f) m
  end.

(** ** toString *)

(** The position of the decimal point: the [n] with
    [10^(n-1) <= p/q < 10^n], searched downward from an upper bound. *)
Fixpoint point_position (fuel : nat) (n : Z) (x : Z * Z) : Z :=
  match fuel with
  | O => n
  | S fuel' =>
      let '(p, q) := scale10 (1 - n) x in
      if q <=? p then n else point_position fuel' (n - 1) x
  end.

(** The double the decimal [s * 10^q] reads as. *)
Definition reads_as (s q : Z) : spec_float := to_double (Dec false (Z.to_N s) q).

(** The least number of digits [k] for which a decimal [s * 10^(n-k)]
    reads as [x], with the [s] that is closest to [x]. *)
Fixpoint shortest_digits (fuel : nat) (k : Z) (n : Z) (x : spec_float) (v : Z * Z)
    : Z * Z :=
  let '(p, q) := scale10 (k - n) v in
  let lo := p / q in
  let hi := lo + 1 in
  match fuel with
  | O => (lo, n - k)
  | S fuel' =>
      let ok_lo := SFeqb (reads_as lo (n - k)) x in
      let ok_hi := SFeqb (reads_as hi (n - k)) x in
      if ok_lo && ok_hi then (if 2 * p <=? (lo + hi) * q then lo else hi, n - k)
      else if ok_lo then (lo, n - k)
      else if ok_hi then (hi, n - k)
      else shortest_digits fuel' (k + 1) n x v
  end.

(** The notation of [Number::toString] for the digits [ds] (without
    trailing zeros) of a number whose decimal point is after [n] digits. *)
Definition decimal_notation (ds : string) (n : Z) : string :=
  let k := Z.of_nat (String.length ds) in
  if (k <=? n) && (n <=? 21) then ds +:+ repeat_char (Z.to_nat (n - k)) "0"
  else if (0 <? n) && (n <=? 21)
  then take_chars (Z.to_nat n) ds +:+ "." +:+ drop_chars (Z.to_nat n) ds
  else if (-6 <? n) && (n <=? 0)
  then "0." +:+ repeat_char (Z.to_nat (- n)) "0" +:+ ds
  else
    let e := n - 1 in
    let exponent := (if e <? 0 then "e-" else "e+") +:+ pretty (Z.abs_N e) in
    if k =? 1 then ds +:+ exponent
    else take_chars 1 ds +:+ "." +:+ drop_chars 1 ds +:+ exponent.

Definition toString_double (x : spec_float) : string :=
  match x with
  | S754_nan => "NaN"
  | S754_infinity neg => if neg then "-Infinity" else "Infinity"
  | S754_zero _ => "0"
  | S754_finite neg m e =>
      let v := fraction_of m e in
      let n := point_position 700 310 v in
      let '(s, q) := shortest_digits 17 1 n (S754_finite false m e) v in
      let ds := pretty (Z.to_N s) in
      (if neg then "-" else "") +:+
      decimal_notation (strip_trailing_zeros ds) (Z.of_nat (String.length ds) + q)
  end.

(** [x.toFixed(f)] *)
Definition toFixed (f : nat) (x : spec_float) : string :=
  match x with
  | S754_finite neg m e =>
      let '(p, q) := fraction_of m e in
      if 10 ^ 21 * q <=? p then toString_double x
      else (if neg then "-" else "") +:+ fixed_digits f (round_scaled f m e)
  | S754_zero _ => fixed_digits f 0
  | _ => toString_double x
  end.

(** ** Examples *)

Example toString_examples :
  toString_double (number_of_bigint 100) = "100" /\
  toString_double (to_double (Dec false 15 (-1))) = "1.5" /\
  toString_double (to_double (Dec false 1 (-6))) = "0.000001" /\
  toString_double (to_double (Dec false 1 (-7))) = "1e-7" /\
  toString_double (to_double (Dec false 1 21)) = "1e+21" /\
  toString_double (to_double (Dec false 123456789012345678901 0)) = "123456789012345680000" /\
  toString_double (double_mul (to_double (Dec false 1 (-1))) (number_of_bigint 3))
    = "0.30000000000000004" /\
  toString_double (double_div (number_of_bigint 1) (number_of_bigint 3))
    = "0.3333333333333333" /\
  toString_double (to_double (Dec true 25 (-2))) = "-0.25" /\
  toString_double (to_double (Dec false 5 (-324))) = "5e-324" /\
  toString_double (double_div (number_of_bigint 1234567) double_1e6) = "1.234567".
Proof. by vm_compute. Qed.

Example toFixed_examples :
  toFixed 2 (to_double (Dec false 1005 (-3))) = "1.00" /\
  toFixed 1 (to_double (Dec false 145 (-2))) = "1.4" /\
  toFixed 0 (to_double (Dec false 25 (-1))) = "3" /\
  toFixed 2 (to_double (Dec false 8345 (-3))) = "8.35" /\
  toFixed 2 (to_double (Dec false 1 (-6))) = "0.00" /\
  toFixed 0 (to_double (Dec true 15 (-1))) = "-2" /\
  toFixed 2 (to_double (Dec true 1 (-3))) = "-0.00" /\
  toFixed 2 (number_of_bigint 1234) = "1234.00" /\
  toFixed 2 (to_double (Dec false 1 21)) = "1e+21" /\
  toFixed 1 S754_nan = "NaN".
Proof. by vm_compute. Qed.

Example parseInt_examples :
  parseInt "25%" = Dec false 25 0 /\ parseInt "MAX" = NaN /\
  parseInt " -12px" = Dec true 12 0 /\ parseInt "0x1F" = Dec false 31 0 /\
  parseInt "" = NaN /\ parseInt "075" = Dec false 75 0.
Proof. by vm_compute. Qed.
