(* ===== verification/Phase.v ===== *)
(** * The epoch phase model

    [isDepositPhase] ([src/hooks/useContract.ts]) and [canClearCanvas]
    ([src/app/arena/page.tsx]) are the two tests every stake, withdrawal and
    rollover is gated by.  Both read the wall clock; here the clock is the
    argument [clock_ms], the value of [Date.now()].  The second half of the
    file states the specification's three phases and proves that the two
    tests implement them. *)

From stdpp Require Import pretty.
From S2P Require Import Prelude Digits JsNumber.

(** ** The code *)

(** [BigInt(Math.floor(Date.now() / 1000))] *)
Definition now_seconds (clock_ms : Z) : Z := clock_ms / 1000.

Definition isDepositPhase (clock_ms : Z)
    (epochStartTime depositPhaseDuration : option Z) : bool :=
  if negb (truthy_bigint epochStartTime) || negb (truthy_bigint depositPhaseDuration)
  then false
  else
    match epochStartTime, depositPhaseDuration with
    | Some start, Some dur => now_seconds clock_ms <? start + dur
    | _, _ => false
    end.

Definition canClearCanvas (clock_ms : Z)
    (epochStartTime epochDuration : option Z) : bool :=
  if negb (truthy_bigint epochStartTime) || negb (truthy_bigint epochDuration)
  then false
  else
    match epochStartTime, epochDuration with
    | Some start, Some dur => now_seconds clock_ms >=? start + dur
    | _, _ => false
    end.

(** The phase badge of the arena header. *)
Definition phaseBadge (inDepositPhase : bool) : string :=
  if inDepositPhase then "DEPOSIT PHASE" else "LOCKED PHASE".

(** *** The time that remains

    [Math.floor(s / 86400)], [Math.floor((s % 86400) / 3600)] and
    [Math.floor((s % 3600) / 60)] of [formatTimeRemaining], for a positive
    [s = Number(seconds)].  Below 2^53 the conversion is exact and the
    quotient of Numbers is within 1/86400 of the rational one, so that each
    floor is the integer quotient. *)
Definition time_parts (s : Z) : Z * Z * Z :=
  (s / 86400, (s mod 86400) / 3600, (s mod 3600) / 60).

(** [`${n}d `] and the like. *)
Definition show_part (n : Z) (unit : string) : string := pretty (Z.to_N n) +:+ unit.

(** [formatTimeRemaining] of the arena page. *)
Definition formatTimeRemaining (seconds : option Z) : string :=
  if negb (truthy_bigint seconds) then "Loading..."
  else
    let s := default 0 seconds in
    if s <=? 0 then "Epoch Ended"
    else
      let '(days, hours, minutes) := time_parts s in
      if 0 <? days
      then show_part days "d " +:+ show_part hours "h " +:+ show_part minutes "m"
      else show_part hours "h " +:+ show_part minutes "m".

(** [formatTimeRemaining] of the portfolio page: other sentinels, and no
    minutes once there are days. *)
Definition formatTimeRemaining_portfolio (seconds : option Z) : string :=
  if negb (truthy_bigint seconds) then "..."
  else
    let s := default 0 seconds in
    if s <=? 0 then "Ended"
    else
      let '(days, hours, minutes) := time_parts s in
      if 0 <? days
      then show_part days "d " +:+ show_part hours "h"
      else show_part hours "h " +:+ show_part minutes "m".

(** ** The specification's phases *)

Inductive Phase := Deposit | Locked | RolloverEligible.

#[export] Instance Phase_eq_dec : EqDecision Phase.
Proof. solve_decision. Defined.

Record Epoch := mkEpoch {
  startTime : Z;
  depositDuration : Z;
  epochDuration : Z;
}.

(** The data model's invariant. *)
Definition epoch_wf (e : Epoch) : Prop := depositDuration e <= epochDuration e.

Definition spec_phase (e : Epoch) (now : Z) : Phase :=
  if now <? startTime e + depositDuration e then Deposit
  else if now <? startTime e + epochDuration e then Locked
  else RolloverEligible.

(** The code treats a zero as "not fetched yet". *)
Definition ready (e : Epoch) : Prop :=
  startTime e <> 0 /\ depositDuration e <> 0 /\ epochDuration e <> 0.

(** ** Characterisation of the two tests *)

Section Tests.
Variable clock_ms : Z.

Lemma gate_open (a b : option Z) :
  negb (truthy_bigint a) || negb (truthy_bigint b) = false <->
  exists x y, a = Some x /\ b = Some y /\ x <> 0 /\ y <> 0.
Proof.
  rewrite orb_false_iff, !negb_false_iff, !truthy_bigint_Some. split.
  - intros [(x & -> & ?) (y & -> & ?)]. by exists x, y.
  - intros (x & y & -> & -> & ? & ?). split; eexists; eauto.
Qed.

(** [isDepositPhase] answers true exactly when both timing values are
    fetched and non-zero and the clock, in whole seconds, is before
    [epochStartTime + depositPhaseDuration]. *)
Lemma deposit_test_iff (s d : option Z) :
  isDepositPhase clock_ms s d = true <->
  exists start dur, s = Some start /\ d = Some dur /\ start <> 0 /\ dur <> 0 /\
    now_seconds clock_ms < start + dur.
Proof.
  unfold isDepositPhase.
  destruct (negb (truthy_bigint s) || negb (truthy_bigint d)) eqn:G.
  - split; [done|]. intros (x & y & -> & -> & ? & ? & _).
    assert (G' : negb (truthy_bigint (Some x)) || negb (truthy_bigint (Some y)) = false)
      by (apply gate_open; by exists x, y).
    congruence.
  - apply gate_open in G as (x & y & -> & -> & ? & ?).
    rewrite Z.ltb_lt. split; [intros; by exists x, y|].
    by intros (? & ? & [= <-] & [= <-] & _ & _ & ?).
Qed.

(** [canClearCanvas] answers true exactly when both timing values are
    fetched and non-zero and the clock has reached
    [epochStartTime + epochDuration]. *)
Lemma clear_test_iff (s e : option Z) :
  canClearCanvas clock_ms s e = true <->
  exists start dur, s = Some start /\ e = Some dur /\ start <> 0 /\ dur <> 0 /\
    start + dur <= now_seconds clock_ms.
Proof.
  unfold canClearCanvas.
  destruct (negb (truthy_bigint s) || negb (truthy_bigint e)) eqn:G.
  - split; [done|]. intros (x & y & -> & -> & ? & ? & _).
    assert (G' : negb (truthy_bigint (Some x)) || negb (truthy_bigint (Some y)) = false)
      by (apply gate_open; by exists x, y).
    congruence.
  - apply gate_open in G as (x & y & -> & -> & ? & ?).
    rewrite Z.geb_le. split; [intros; by exists x, y|].
    by intros (? & ? & [= <-] & [= <-] & _ & _ & ?).
Qed.

End Tests.

(** The two phase tests, characterised: [isDepositPhase] is true
    exactly when both of its timing values are fetched and non-zero and the
    clock, in whole seconds, is before [epochStartTime +
    depositPhaseDuration]; [canClearCanvas] is true exactly when both of its
    values are fetched and non-zero and the clock has reached
    [epochStartTime + epochDuration]. *)
Theorem phase_tests_characterised (clock_ms : Z) (s d e : option Z) :
  (isDepositPhase clock_ms s d = true <->
   exists start dur, s = Some start /\ d = Some dur /\ start <> 0 /\ dur <> 0 /\
     clock_ms / 1000 < start + dur) /\
  (canClearCanvas clock_ms s e = true <->
   exists start dur, s = Some start /\ e = Some dur /\ start <> 0 /\ dur <> 0 /\
     start + dur <= clock_ms / 1000).
Proof. split; [apply deposit_test_iff|apply clear_test_iff]. Qed.

(** ** Refinement of the specification *)

Section Refinement.
Variable e : Epoch.
Variable clock_ms : Z.
Hypothesis Hready : ready e.

Let s := Some (startTime e).
Let d := Some (depositDuration e).
Let ed := Some (epochDuration e).

Lemma deposit_test_refines :
  isDepositPhase clock_ms s d = true <-> spec_phase e (now_seconds clock_ms) = Deposit.
Proof using Hready.
  destruct Hready as (? & ? & ?).
  rewrite deposit_test_iff. unfold spec_phase, s, d. split.
  - intros (? & ? & [= <-] & [= <-] & _ & _ & ?). bool_lia.
  - intros Hs. exists (startTime e), (depositDuration e). repeat split; try done.
    revert Hs. bool_lia.
Qed.

Lemma clear_test_refines :
  epoch_wf e ->
  canClearCanvas clock_ms s ed = true <->
  spec_phase e (now_seconds clock_ms) = RolloverEligible.
Proof using Hready.
  intros Hwf. red in Hwf. destruct Hready as (? & ? & ?).
  rewrite clear_test_iff. unfold spec_phase, s, ed. split.
  - intros (? & ? & [= <-] & [= <-] & _ & _ & ?). bool_lia.
  - intros Hs. exists (startTime e), (epochDuration e). repeat split; try done.
    revert Hs. bool_lia.
Qed.

End Refinement.

(** C17. Refinement: for a well-formed epoch whose three timing values are
    fetched and non-zero, the pair of tests computed by the code determines
    the specification's phase: deposit test true is [Deposit], clear test
    true is [RolloverEligible], both false is [Locked]. *)
Theorem phase_tests_refine_spec (e : Epoch) (clock_ms : Z) :
  epoch_wf e -> ready e ->
  spec_phase e (now_seconds clock_ms) =
    if isDepositPhase clock_ms (Some (startTime e)) (Some (depositDuration e))
    then Deposit
    else if canClearCanvas clock_ms (Some (startTime e)) (Some (epochDuration e))
    then RolloverEligible
    else Locked.
Proof.
  intros Hwf Hr.
  pose proof (deposit_test_refines e clock_ms Hr) as Hd.
  pose proof (clear_test_refines e clock_ms Hr Hwf) as Hc.
  destruct (isDepositPhase _ _ _); [by apply Hd|].
  destruct (canClearCanvas _ _ _); [by apply Hc|].
  destruct (spec_phase e (now_seconds clock_ms)); [|done|].
  - discriminate (proj2 Hd eq_refl).
  - discriminate (proj2 Hc eq_refl).
Qed.

Lemma phase_tests_refine_spec_witness :
  let e := mkEpoch 1700000000 172800 604800 in
  spec_phase e (now_seconds 1700500000123) =
    if isDepositPhase 1700500000123 (Some (startTime e)) (Some (depositDuration e))
    then Deposit
    else if canClearCanvas 1700500000123 (Some (startTime e)) (Some (epochDuration e))
    then RolloverEligible
    else Locked.
Proof.
  apply (phase_tests_refine_spec (mkEpoch 1700000000 172800 604800)).
  - unfold epoch_wf; simpl; lia.
  - unfold ready; simpl; lia.
Defined.

(** C28. The two tests are mutually exclusive when
    [depositPhaseDuration <= epochDuration]: no clock value is both in the
    deposit phase and rollover-eligible. *)
Theorem deposit_and_clear_exclusive (clock_ms start dep ep : Z) :
  dep <= ep ->
  isDepositPhase clock_ms (Some start) (Some dep) &&
  canClearCanvas clock_ms (Some start) (Some ep) = false.
Proof.
  intros Hle. apply not_true_is_false. rewrite andb_true_iff.
  rewrite deposit_test_iff, clear_test_iff.
  intros [(? & ? & [= <-] & [= <-] & _ & _ & ?) (? & ? & [= <-] & [= <-] & _ & _ & ?)].
  lia.
Qed.

Lemma deposit_and_clear_exclusive_witness :
  isDepositPhase 1700000100000 (Some 1700000000) (Some 172800) &&
  canClearCanvas 1700000100000 (Some 1700000000) (Some 604800) = false.
Proof. apply deposit_and_clear_exclusive. lia. Defined.

(** The data-model invariant is needed: with a deposit window longer
    than the epoch there are clock values at which the code shows the
    deposit phase as open and the epoch as ready to be cleared at once. *)
Theorem tests_overlap_without_invariant :
  exists clock_ms start dep ep,
    ep < dep /\
    isDepositPhase clock_ms (Some start) (Some dep) = true /\
    canClearCanvas clock_ms (Some start) (Some ep) = true.
Proof. exists 15000, 1, 20, 10. by vm_compute. Qed.

(** A zero [epochStartTime] is taken for a value that is not fetched
    yet: the deposit phase is reported closed although the clock is before
    [0 + depositPhaseDuration]. *)
Theorem zero_start_time_reads_as_unfetched (clock_ms dur : Z) :
  isDepositPhase clock_ms (Some 0) (Some dur) = false /\
  canClearCanvas clock_ms (Some 0) (Some dur) = false.
Proof. done. Qed.

(** C29. Time only moves the phase forward: once the deposit test fails it
    fails at every later clock value, and once the clear test succeeds it
    succeeds at every later clock value (for unchanged epoch data). *)
Theorem phase_is_monotone (t t' : Z) (s d e : option Z) :
  t <= t' ->
  (isDepositPhase t s d = false -> isDepositPhase t' s d = false) /\
  (canClearCanvas t s e = true -> canClearCanvas t' s e = true).
Proof.
  intros Hle.
  assert (now_seconds t <= now_seconds t') by (apply Z.div_le_mono; lia).
  split.
  - intros Hf. apply not_true_is_false. intros Ht. apply not_true_iff_false in Hf.
    apply Hf. apply deposit_test_iff.
    apply deposit_test_iff in Ht as (x & y & ? & ? & ? & ? & ?).
    exists x, y. repeat split; try done. lia.
  - rewrite !clear_test_iff.
    intros (x & y & ? & ? & ? & ? & ?). exists x, y. repeat split; try done. lia.
Qed.

Lemma phase_is_monotone_witness :
  (isDepositPhase 200000000 (Some 10) (Some 172800) (* t = 200000 s *) = false ->
   isDepositPhase 200000001 (Some 10) (Some 172800) = false) /\
  (canClearCanvas 200000000 (Some 10) (Some 100) = true ->
   canClearCanvas 200000001 (Some 10) (Some 100) = true).
Proof. apply phase_is_monotone. lia. Defined.

(** The specification's end-to-end scenario, for every start time [T]
    after the Unix epoch and every millisecond within the second: with a
    deposit window of 172800 s and an epoch of 604800 s, at [T + 100000]
    the phase is deposit; at [T + 500000] it is locked and not eligible; at
    [T + 700000] it is locked and rollover-eligible. *)
Theorem spec_scenario (T ms : Z) :
  0 < T -> 0 <= ms < 1000 ->
  let at_ (n : Z) := (T + n) * 1000 + ms in
  let dep t := isDepositPhase t (Some T) (Some 172800) in
  let clr t := canClearCanvas t (Some T) (Some 604800) in
  (dep (at_ 100000), clr (at_ 100000)) = (true, false) /\
  (dep (at_ 500000), clr (at_ 500000)) = (false, false) /\
  (dep (at_ 700000), clr (at_ 700000)) = (false, true).
Proof.
  intros HT Hms at_ dep clr.
  assert (Hnow : forall n, now_seconds (at_ n) = T + n).
  { intros n. unfold now_seconds, at_.
    rewrite Z.div_add_l by lia. rewrite Z.div_small by lia. lia. }
  assert (HT0 : (T =? 0) = false) by (apply Z.eqb_neq; lia).
  unfold dep, clr, isDepositPhase, canClearCanvas; simpl.
  rewrite HT0, !Hnow; simpl.
  repeat split; f_equal; bool_lia.
Qed.

Lemma spec_scenario_witness :
  let at_ (n : Z) := (1700000000 + n) * 1000 + 250 in
  let dep t := isDepositPhase t (Some 1700000000) (Some 172800) in
  let clr t := canClearCanvas t (Some 1700000000) (Some 604800) in
  (dep (at_ 100000), clr (at_ 100000)) = (true, false) /\
  (dep (at_ 500000), clr (at_ 500000)) = (false, false) /\
  (dep (at_ 700000), clr (at_ 700000)) = (false, true).
Proof. apply (spec_scenario 1700000000 250); lia. Defined.

(** ** The time that remains *)

(** A printed part starts with a digit. *)
Lemma show_part_head (n : Z) (unit rest : string) :
  exists c r, show_part n unit +:+ rest = String c r /\ is_digit c = true.
Proof.
  unfold show_part.
  destruct (digits_head (pretty (Z.to_N n)) (pretty_all_digits _) (pretty_nonempty _))
    as (c & ds & -> & Hc).
  exists c, ((ds +:+ unit) +:+ rest). by rewrite !string_app_cons.
Qed.

Lemma show_part_not_word (n : Z) (unit rest : string) (c : ascii) (r : string) :
  is_digit c = false -> show_part n unit +:+ rest <> String c r.
Proof.
  intros Hc. destruct (show_part_head n unit rest) as (c' & r' & -> & Hc').
  intros [= -> _]. congruence.
Qed.

(** C30. The parts [formatTimeRemaining] prints decompose the time: days,
    hours below 24 and minutes below 60 that add up to the seconds that
    remain, less than a minute short. *)
Theorem time_parts_decompose (s : Z) :
  0 <= s ->
  let '(days, hours, minutes) := time_parts s in
  0 <= days /\ 0 <= hours < 24 /\ 0 <= minutes < 60 /\
  days * 86400 + hours * 3600 + minutes * 60 <= s
    < days * 86400 + hours * 3600 + minutes * 60 + 60.
Proof. intros Hs. unfold time_parts. Z.div_mod_to_equations. lia. Qed.

Lemma time_parts_decompose_witness :
  let '(days, hours, minutes) := time_parts 90061 in
  0 <= days /\ 0 <= hours < 24 /\ 0 <= minutes < 60 /\
  days * 86400 + hours * 3600 + minutes * 60 <= 90061
    < days * 86400 + hours * 3600 + minutes * 60 + 60.
Proof. apply (time_parts_decompose 90061). lia. Defined.

(** The sentinel for an epoch that has ended is never shown: zero
    seconds are taken for a value that is not fetched, and a count that is
    not negative prints as a duration or as the loading text. *)
Theorem ended_is_never_shown (s : Z) :
  0 <= s ->
  formatTimeRemaining (Some s) <> "Epoch Ended" /\
  formatTimeRemaining_portfolio (Some s) <> "Ended" /\
  formatTimeRemaining (Some 0) = "Loading..." /\
  formatTimeRemaining_portfolio (Some 0) = "...".
Proof.
  intros Hs. split_and!; [| |done..];
    unfold formatTimeRemaining, formatTimeRemaining_portfolio, time_parts;
    cbn [truthy_bigint default from_option id];
    (destruct (Z.eqb_spec s 0) as [->|Hne]; [done|]); cbn [negb];
    (replace (s <=? 0) with false by (symmetry; apply Z.leb_gt; lia));
    destruct (0 <? s / 86400); by apply show_part_not_word.
Qed.

Lemma ended_is_never_shown_witness :
  formatTimeRemaining (Some 1) <> "Epoch Ended" /\
  formatTimeRemaining_portfolio (Some 1) <> "Ended" /\
  formatTimeRemaining (Some 0) = "Loading..." /\
  formatTimeRemaining_portfolio (Some 0) = "...".
Proof. apply (ended_is_never_shown 1). lia. Defined.

(** The units shown: the arena page prints three parts when there
    are days and the portfolio page two; both print a part that is zero. *)
Theorem time_remaining_units :
  formatTimeRemaining (Some 90061) = "1d 1h 1m" /\
  formatTimeRemaining_portfolio (Some 90061) = "1d 1h" /\
  formatTimeRemaining (Some 86400) = "1d 0h 0m" /\
  formatTimeRemaining (Some 300) = "0h 5m" /\
  formatTimeRemaining (Some 59) = "0h 0m" /\
  formatTimeRemaining None = "Loading...".
Proof. by vm_compute. Qed.
