(* ===== verification/Contract.v ===== *)
(** * [src/hooks/useContract.ts]

    The clan enumeration, the read hooks (each a description of the ledger
    call it makes and of when it is enabled), the write hooks (the request
    each one submits, and the status flags wagmi derives for it), the
    classification of a failed stake, and the two display formatters.

    A write hook pairs wagmi's [useWriteContract] with
    [useWaitForTransactionReceipt]: its state is one value of
    [WriteStatus], moved by the page (a call, a reset) and by the
    environment (the wallet's answer, the receipt). *)

From stdpp Require Import pretty.
From S2P Require Import Prelude Digits JsNumber Viem.

(** ** Clans *)

Inductive Clan := NONE | SHADOW | BLADE | SPIRIT | PILLAR | WIND.

#[export] Instance Clan_eq_dec : EqDecision Clan.
Proof. solve_decision. Defined.

(** The numeric value of an enumeration member. *)
Definition clan_number (c : Clan) : Z :=
  match c with
  | NONE => 0 | SHADOW => 1 | BLADE => 2 | SPIRIT => 3 | PILLAR => 4 | WIND => 5
  end.

Definition CLAN_NAMES (c : Clan) : string :=
  match c with
  | NONE => "None"
  | SHADOW => "SHADOW"
  | BLADE => "BLADE"
  | SPIRIT => "SPIRIT"
  | PILLAR => "PILLAR"
  | WIND => "WIND"
  end.

Definition all_clans : list Clan := [NONE; SHADOW; BLADE; SPIRIT; PILLAR; WIND].

(** ** Ledger calls *)

(** The two contracts, by the names of their address constants. *)
Inductive ContractId := FIVE_FACTION_ADDRESS | MOCK_USDC_ADDRESS.

#[export] Instance ContractId_eq_dec : EqDecision ContractId.
Proof. solve_decision. Defined.

Definition Address := string.

Inductive Arg :=
| ArgContract (c : ContractId)
| ArgAddress (a : Address)
| ArgUint (n : Z).

#[export] Instance Arg_eq_dec : EqDecision Arg.
Proof. solve_decision. Defined.

(** What [useReadContract] is given: the contract, the function, the
    arguments ([None] for [undefined]) and whether the query is enabled. *)
Record ReadCall := mkRead {
  rc_address : ContractId;
  rc_functionName : string;
  rc_args : option (list Arg);
  rc_enabled : bool;
}.

Definition read_noargs (c : ContractId) (f : string) : ReadCall :=
  mkRead c f None true.

(** A read about one account: no arguments and disabled until the wallet
    address is known. *)
Definition read_for (c : ContractId) (f : string) (address : option Address)
    (args : Address -> list Arg) : ReadCall :=
  mkRead c f
    (match address with
     | Some a => if truthy_string a then Some (args a) else None
     | None => None
     end)
    (match address with Some a => truthy_string a | None => false end).

Definition useCurrentEpoch : ReadCall := read_noargs FIVE_FACTION_ADDRESS "currentEpoch".
Definition useEpochDuration : ReadCall := read_noargs FIVE_FACTION_ADDRESS "epochDuration".
Definition useEpochStartTime : ReadCall := read_noargs FIVE_FACTION_ADDRESS "epochStartTime".
Definition useDepositPhaseDuration : ReadCall :=
  read_noargs FIVE_FACTION_ADDRESS "DEPOSIT_PHASE_DURATION".
Definition useTimeUntilCanvasClears : ReadCall :=
  read_noargs FIVE_FACTION_ADDRESS "getTimeUntilCanvasClears".
Definition useAllClanTVLs : ReadCall := read_noargs FIVE_FACTION_ADDRESS "getAllClanTVLs".
Definition useAllScores : ReadCall := read_noargs FIVE_FACTION_ADDRESS "getAllScores".
Definition useTotalTVL : ReadCall := read_noargs FIVE_FACTION_ADDRESS "getTotalTVL".
Definition useRolloverInk : ReadCall := read_noargs FIVE_FACTION_ADDRESS "rolloverInk".

Definition useWarriorInfo (address : option Address) : ReadCall :=
  read_for FIVE_FACTION_ADDRESS "getWarriorInfo" address (fun a => [ArgAddress a]).

Definition useUSDCBalance (address : option Address) : ReadCall :=
  read_for MOCK_USDC_ADDRESS "balanceOf" address (fun a => [ArgAddress a]).

Definition useUSDCAllowance (owner : option Address) : ReadCall :=
  read_for MOCK_USDC_ADDRESS "allowance" owner
    (fun a => [ArgAddress a; ArgContract FIVE_FACTION_ADDRESS]).

(** ** Write hooks *)

(** What [writeContract] is given. *)
Record WriteRequest := mkWrite {
  wr_address : ContractId;
  wr_functionName : string;
  wr_args : list Arg;
  wr_gas : option Z;
}.

#[export] Instance WriteRequest_eq_dec : EqDecision WriteRequest.
Proof. solve_decision. Defined.

Definition Hash := string.

(** The status of one write hook. *)
Inductive WriteStatus :=
| WIdle                          (* nothing submitted, or reset *)
| WPending                       (* [writeContract] called, wallet not answered *)
| WError (message : string)      (* the submission was refused or failed *)
| WConfirming (hash : Hash)      (* submitted, receipt awaited *)
| WConfirmed (hash : Hash)       (* receipt obtained *)
| WReceiptError (hash : Hash).   (* waiting for the receipt failed *)

#[export] Instance WriteStatus_eq_dec : EqDecision WriteStatus.
Proof. solve_decision. Defined.

(** The fields every write hook returns. *)
Definition isPending (s : WriteStatus) : bool :=
  match s with WPending => true | _ => false end.

Definition isConfirming (s : WriteStatus) : bool :=
  match s with WConfirming _ => true | _ => false end.

Definition isSuccess (s : WriteStatus) : bool :=
  match s with WConfirmed _ => true | _ => false end.

Definition hook_error (s : WriteStatus) : option string :=
  match s with WError m => Some m | _ => None end.

Definition hook_hash (s : WriteStatus) : option Hash :=
  match s with
  | WConfirming h | WConfirmed h | WReceiptError h => Some h
  | _ => None
  end.

(** The moves of a hook.  A call starts a fresh submission whatever the
    state; [reset] returns to idle; an answer for a submission that is no
    longer the current one is dropped. *)
Definition hook_call (s : WriteStatus) : WriteStatus := WPending.

Definition hook_reset (s : WriteStatus) : WriteStatus := WIdle.

Definition hook_submitted (h : Hash) (s : WriteStatus) : WriteStatus :=
  match s with WPending => WConfirming h | _ => s end.

Definition hook_rejected (message : string) (s : WriteStatus) : WriteStatus :=
  match s with WPending => WError message | _ => s end.

Definition hook_receipt (s : WriteStatus) : WriteStatus :=
  match s with WConfirming h => WConfirmed h | _ => s end.

Definition hook_receipt_failed (s : WriteStatus) : WriteStatus :=
  match s with WConfirming h => WReceiptError h | _ => s end.

(** The hook is busy: the button that starts it is disabled. *)
Definition hook_busy (s : WriteStatus) : bool := isPending s || isConfirming s.

(** *** The requests *)

(** [useApproveUSDC().approve]: always the maximum amount. *)
Definition approve : WriteRequest :=
  mkWrite MOCK_USDC_ADDRESS "approve"
    [ArgContract FIVE_FACTION_ADDRESS; ArgUint maxUint256] (Some 150000).

Definition joinClan (clan : Clan) : WriteRequest :=
  mkWrite FIVE_FACTION_ADDRESS "joinClan" [ArgUint (clan_number clan)] None.

(** [stakeInk], [withdrawInk] and [mint] parse the amount first: when
    [parseUnits] throws, no request is made. *)
Definition stakeInk (amount : string) : option WriteRequest :=
  parsedAmount ← parseUnits amount 6;
  Some (mkWrite FIVE_FACTION_ADDRESS "stakeInk" [ArgUint parsedAmount] (Some 500000)).

Definition withdrawInk (amount : string) : option WriteRequest :=
  parsedAmount ← parseUnits amount 6;
  Some (mkWrite FIVE_FACTION_ADDRESS "withdrawInk" [ArgUint parsedAmount] None).

Definition clearCanvas : WriteRequest :=
  mkWrite FIVE_FACTION_ADDRESS "clearCanvas" [] None.

Definition mint (to : Address) (amount : string) : option WriteRequest :=
  parsedAmount ← parseUnits amount 6;
  Some (mkWrite MOCK_USDC_ADDRESS "mint" [ArgAddress to; ArgUint parsedAmount] None).

(** *** Classification of a failed stake *)

(** [haystack.includes(needle)] *)
Fixpoint includes (needle haystack : string) : bool :=
  String.prefix needle haystack ||
  match haystack with
  | String _ rest => includes needle rest
  | EmptyString => false
  end.

Inductive StakeRejection :=
| DepositPhaseClosed
| JoinClanFirst
| AmountZero
| InsufficientAllowance
| InsufficientBalance.

#[export] Instance StakeRejection_eq_dec : EqDecision StakeRejection.
Proof. solve_decision. Defined.

(** The chain of tests in [stakeInk]'s [onError]. *)
Definition classify_stake_error (errorMessage : string) : option StakeRejection :=
  if includes "DepositPhaseClosed" errorMessage then Some DepositPhaseClosed
  else if includes "JoinClanFirst" errorMessage then Some JoinClanFirst
  else if includes "AmountZero" errorMessage then Some AmountZero
  else if includes "ERC20InsufficientAllowance" errorMessage
          || includes "0xfb8f41b2" errorMessage then Some InsufficientAllowance
  else if includes "ERC20InsufficientBalance" errorMessage then Some InsufficientBalance
  else None.

(** The line written to the console for each reason. *)
Definition rejection_reason (r : StakeRejection) : string :=
  match r with
  | DepositPhaseClosed =>
      "[stakeInk] Reason: Deposit phase is closed. Wait for next epoch."
  | JoinClanFirst => "[stakeInk] Reason: You must join a clan first."
  | AmountZero => "[stakeInk] Reason: Amount cannot be zero."
  | InsufficientAllowance =>
      "[stakeInk] Reason: Insufficient token allowance. Need to approve FiveFaction first."
  | InsufficientBalance => "[stakeInk] Reason: Insufficient USDC balance."
  end.

(** ** Formatters *)

(** [Number(value) / 1e6] and [parseFloat(formatUnits(value, 6))] as a
    decimal: the amount in whole tokens. *)
Definition micro_to_number (value : Z) : JsNum := Dec (value <? 0) (Z.abs_N value) (-6).

(** [num >= 0] *)
Definition num_ge_zero (x : JsNum) : bool :=
  match x with
  | NaN => false
  | Inf neg => negb neg
  | Dec neg m e => negb neg || rounds_to_zero m e
  end.

(** The magnitude in hundredths, rounded half away from zero. *)
Definition round_to_cents (mant : N) (exp10 : Z) : N :=
  if -2 <=? exp10 then (mant * 10 ^ Z.to_N (exp10 + 2))%N
  else ((mant + 5 * 10 ^ Z.to_N (- exp10 - 3)) / 10 ^ Z.to_N (- exp10 - 2))%N.

Definition infinity_sign : string := String "226" (String "136" (String "158" "")).

(** [num.toLocaleString("en-US", { minimumFractionDigits: 2,
    maximumFractionDigits: 2 })] *)
Definition toLocaleString_en_US_2 (x : JsNum) : string :=
  match x with
  | NaN => "NaN"
  | Inf neg => (if neg then "-" else "") +:+ infinity_sign
  | Dec neg m e =>
      let cents := round_to_cents m e in
      (if neg then "-" else "") +:+ group3 (pretty (cents / 100)%N) +:+ "." +:+
      pad_start 2 "0" (pretty (cents mod 100)%N)
  end.

Definition formatUSDC (value : option Z) : string :=
  match value with
  | None => "0.00"
  | Some v => toLocaleString_en_US_2 (parseFloat (formatUnits v 6))
  end.

Definition formatScore (value : option Z) : string :=
  match value with
  | None => "0"
  | Some v =>
      let num := micro_to_number v in
      let prefix := if num_ge_zero num then "+" else "" in
      prefix +:+ toLocaleString_en_US_2 num
  end.

(** ** The hooks of a page

    A page instantiates each read hook once and each write hook once.  The
    data of the read hooks is the query cache, keyed by hook; the states of
    the write hooks are a record. *)

Inductive QueryId :=
| QCurrentEpoch | QEpochDuration | QEpochStartTime | QDepositPhaseDuration
| QTimeUntilCanvasClears | QAllClanTVLs | QAllScores | QTotalTVL | QRolloverInk
| QWarriorInfo | QUSDCBalance | QUSDCAllowance.

#[export] Instance QueryId_eq_dec : EqDecision QueryId.
Proof. solve_decision. Defined.

Definition all_queries : list QueryId :=
  [QCurrentEpoch; QEpochDuration; QEpochStartTime; QDepositPhaseDuration;
   QTimeUntilCanvasClears; QAllClanTVLs; QAllScores; QTotalTVL; QRolloverInk;
   QWarriorInfo; QUSDCBalance; QUSDCAllowance].

(** The call each query makes. *)
Definition query_call (q : QueryId) (address : option Address) : ReadCall :=
  match q with
  | QCurrentEpoch => useCurrentEpoch
  | QEpochDuration => useEpochDuration
  | QEpochStartTime => useEpochStartTime
  | QDepositPhaseDuration => useDepositPhaseDuration
  | QTimeUntilCanvasClears => useTimeUntilCanvasClears
  | QAllClanTVLs => useAllClanTVLs
  | QAllScores => useAllScores
  | QTotalTVL => useTotalTVL
  | QRolloverInk => useRolloverInk
  | QWarriorInfo => useWarriorInfo address
  | QUSDCBalance => useUSDCBalance address
  | QUSDCAllowance => useUSDCAllowance address
  end.

(** The queries about the connected account. *)
Definition account_query (q : QueryId) : bool :=
  match q with
  | QWarriorInfo | QUSDCBalance | QUSDCAllowance => true
  | _ => false
  end.

(** What a read returns: a [bigint], an array of them, or the tuple of
    [getWarriorInfo] (stake, clan, epoch joined, score). *)
Inductive QData :=
| DInt (v : Z)
| DList (l : list Z)
| DWarrior (stake clan joinedEpoch score : Z).

#[export] Instance QData_eq_dec : EqDecision QData.
Proof. solve_decision. Defined.

(** The cache as an association from query to data: a query that never
    answered has no entry ([data] is [undefined]). *)
Definition Cache := QueryId -> option QData.

Definition cache_empty : Cache := fun _ => None.

Definition cache_set (q : QueryId) (d : QData) (c : Cache) : Cache :=
  fun q' => if decide (q' = q) then Some d else c q'.

Definition cache_drop (p : QueryId -> bool) (c : Cache) : Cache :=
  fun q => if p q then None else c q.

Definition data_int (c : Cache) (q : QueryId) : option Z :=
  match c q with Some (DInt v) => Some v | _ => None end.

Definition data_list (c : Cache) (q : QueryId) : option (list Z) :=
  match c q with Some (DList l) => Some l | _ => None end.

(** The outcome of an awaited [refetch()]: the promise resolves in both
    cases, and after a failed read its [data] is what the cache held. *)
Inductive RefetchResult :=
| Fetched (d : QData)
| FetchFailed.

Definition refetch_apply (q : QueryId) (r : RefetchResult) (c : Cache) : Cache :=
  match r with
  | Fetched d => cache_set q d c
  | FetchFailed => c
  end.

Inductive HookId := HApprove | HJoin | HStake | HWithdraw | HMint | HClear.

#[export] Instance HookId_eq_dec : EqDecision HookId.
Proof. solve_decision. Defined.

Record Hooks := mkHooks {
  approveH : WriteStatus;
  joinH : WriteStatus;
  stakeH : WriteStatus;
  withdrawH : WriteStatus;
  mintH : WriteStatus;
  clearH : WriteStatus;
}.

Definition hooks_idle : Hooks := mkHooks WIdle WIdle WIdle WIdle WIdle WIdle.

Definition hook (w : HookId) (h : Hooks) : WriteStatus :=
  match w with
  | HApprove => approveH h | HJoin => joinH h | HStake => stakeH h
  | HWithdraw => withdrawH h | HMint => mintH h | HClear => clearH h
  end.

Definition hook_update (w : HookId) (f : WriteStatus -> WriteStatus) (h : Hooks) : Hooks :=
  match w with
  | HApprove => mkHooks (f (approveH h)) (joinH h) (stakeH h) (withdrawH h) (mintH h) (clearH h)
  | HJoin => mkHooks (approveH h) (f (joinH h)) (stakeH h) (withdrawH h) (mintH h) (clearH h)
  | HStake => mkHooks (approveH h) (joinH h) (f (stakeH h)) (withdrawH h) (mintH h) (clearH h)
  | HWithdraw => mkHooks (approveH h) (joinH h) (stakeH h) (f (withdrawH h)) (mintH h) (clearH h)
  | HMint => mkHooks (approveH h) (joinH h) (stakeH h) (withdrawH h) (f (mintH h)) (clearH h)
  | HClear => mkHooks (approveH h) (joinH h) (stakeH h) (withdrawH h) (mintH h) (f (clearH h))
  end.

(** ** Lemmas *)

Lemma hook_update_same (w : HookId) (f : WriteStatus -> WriteStatus) (h : Hooks) :
  hook w (hook_update w f h) = f (hook w h).
Proof. by destruct w. Qed.

Lemma hook_update_other (w w' : HookId) (f : WriteStatus -> WriteStatus) (h : Hooks) :
  w <> w' -> hook w' (hook_update w f h) = hook w' h.
Proof. by destruct w, w'. Qed.

Lemma cache_set_same (q : QueryId) (d : QData) (c : Cache) : cache_set q d c q = Some d.
Proof. unfold cache_set. by rewrite decide_True. Qed.

Lemma cache_set_other (q q' : QueryId) (d : QData) (c : Cache) :
  q' <> q -> cache_set q d c q' = c q'.
Proof. intros. unfold cache_set. by rewrite decide_False. Qed.

(** The status flags of a hook exclude one another, and a hook is idle
    exactly when none of them is set and it holds neither an error nor a
    hash. *)
Lemma hook_flags_exclusive (s : WriteStatus) :
  match isPending s, isConfirming s, isSuccess s with
  | true, false, false | false, true, false | false, false, true => True
  | false, false, false => True
  | _, _, _ => False
  end.
Proof. by destruct s. Qed.

Lemma isSuccess_only_by_receipt (s : WriteStatus) (f : WriteStatus -> WriteStatus) :
  In f [hook_call; hook_reset; hook_rejected ""; hook_receipt_failed] ->
  isSuccess s = false -> isSuccess (f s) = false.
Proof.
  simpl. intros [<-|[<-|[<-|[<-|[]]]]] H; destruct s; done.
Qed.

(** ** The classifier *)

(** C27. The classifier reports the first reason of its chain whose
    marker occurs in the message: a reason is reported only when its
    marker occurs and no marker of an earlier reason does, and none is
    reported only when no marker occurs at all. *)
Theorem classify_stake_error_first_match (errorMessage : string) :
  let has needle := includes needle errorMessage in
  match classify_stake_error errorMessage with
  | Some DepositPhaseClosed => has "DepositPhaseClosed" = true
  | Some JoinClanFirst =>
      has "JoinClanFirst" = true /\ has "DepositPhaseClosed" = false
  | Some AmountZero =>
      has "AmountZero" = true /\ has "DepositPhaseClosed" = false /\
      has "JoinClanFirst" = false
  | Some InsufficientAllowance =>
      (has "ERC20InsufficientAllowance" = true \/ has "0xfb8f41b2" = true) /\
      has "DepositPhaseClosed" = false /\ has "JoinClanFirst" = false /\
      has "AmountZero" = false
  | Some InsufficientBalance =>
      has "ERC20InsufficientBalance" = true /\ has "DepositPhaseClosed" = false /\
      has "JoinClanFirst" = false /\ has "AmountZero" = false /\
      has "ERC20InsufficientAllowance" = false /\ has "0xfb8f41b2" = false
  | None =>
      has "DepositPhaseClosed" = false /\ has "JoinClanFirst" = false /\
      has "AmountZero" = false /\ has "ERC20InsufficientAllowance" = false /\
      has "0xfb8f41b2" = false /\ has "ERC20InsufficientBalance" = false
  end.
Proof.
  cbv zeta. unfold classify_stake_error.
  destruct (includes "DepositPhaseClosed" _); [done|].
  destruct (includes "JoinClanFirst" _); [done|].
  destruct (includes "AmountZero" _); [done|].
  destruct (includes "ERC20InsufficientAllowance" _); [simpl; by auto|].
  destruct (includes "0xfb8f41b2" _); [simpl; by auto|].
  by destruct (includes "ERC20InsufficientBalance" _).
Qed.

(** ** Amounts *)

(** A fixed-point amount with at most six fraction digits is staked
    and withdrawn exactly: [stakeInk] and [withdrawInk] submit the integer
    part times 10^6 plus the fraction digits scaled to micro-units, with a
    gas limit on the stake only. *)
Theorem fixed_point_amount_is_exact (ip fp : string) (i f : N) :
  read_digits ip = Some i -> read_digits fp = Some f ->
  (String.length fp <= 6)%nat ->
  let micro := Z.of_N i * 1000000 + Z.of_N f * 10 ^ Z.of_nat (6 - String.length fp) in
  stakeInk (ip +:+ "." +:+ fp) =
    Some (mkWrite FIVE_FACTION_ADDRESS "stakeInk" [ArgUint micro] (Some 500000)) /\
  withdrawInk (ip +:+ "." +:+ fp) =
    Some (mkWrite FIVE_FACTION_ADDRESS "withdrawInk" [ArgUint micro] None).
Proof.
  intros Hi Hf Hlen micro. unfold stakeInk, withdrawInk.
  rewrite (parseUnits_fixed ip fp i f 5 Hi Hf Hlen). cbn [mbind option_bind].
  replace (Z.of_N _) with micro; [done|]. unfold micro.
  rewrite N2Z.inj_add, !N2Z.inj_mul, !N2Z.inj_pow, !nat_N_Z. done.
Qed.

Lemma fixed_point_amount_is_exact_witness :
  stakeInk "12.5" =
    Some (mkWrite FIVE_FACTION_ADDRESS "stakeInk" [ArgUint 12500000] (Some 500000)) /\
  withdrawInk "12.5" =
    Some (mkWrite FIVE_FACTION_ADDRESS "withdrawInk" [ArgUint 12500000] None).
Proof.
  exact (fixed_point_amount_is_exact "12" "5" 12 5 eq_refl eq_refl ltac:(simpl; lia)).
Defined.

(** A whole amount, as the quick-amount buttons type it, is staked
    as that many units of 10^6 micro-units. *)
Theorem whole_amount_is_exact (n : N) :
  stakeInk (pretty n) =
    Some (mkWrite FIVE_FACTION_ADDRESS "stakeInk" [ArgUint (Z.of_N n * 1000000)] (Some 500000)).
Proof.
  unfold stakeInk.
  rewrite (parseUnits_whole (pretty n) n 5 (read_pretty n) (pretty_nonempty n)).
  cbn [mbind option_bind]. by rewrite N2Z.inj_mul.
Qed.

(** ** The formatters on the amounts of the specification *)

(** The amounts the specification names: 1234500000 micro-units are
    shown as 1,234.50, a score of -500000 as -0.50, a score of zero with a
    plus sign, an amount that is not fetched as 0.00, and half a cent is
    rounded up. *)
Theorem format_examples :
  formatUSDC (Some 1234500000) = "1,234.50" /\
  formatScore (Some (-500000)) = "-0.50" /\
  formatScore (Some 0) = "+0.00" /\
  formatScore (Some 1234567890) = "+1,234.57" /\
  formatUSDC None = "0.00" /\
  formatUSDC (Some 1005000) = "1.01" /\
  formatUSDC (Some 999999999999) = "1,000,000.00".
Proof. by vm_compute. Qed.

(** A score that is not fetched is shown as a bare 0, without a
    sign and without decimals, and a negative score of less than half a
    cent as a negative zero. *)
Theorem formatScore_unfetched_has_no_decimals :
  formatScore None = "0" /\ formatScore (Some (-1)) = "-0.00".
Proof. by vm_compute. Qed.
