(* ===== verification/Arena.v ===== *)
(** * The arena page ([src/app/arena/page.tsx])

    The page as a labelled transition system.  [State] holds the
    [useState] cells, the six write hooks, the query cache, the
    asynchronous continuations that are suspended at an [await], the clock,
    and three logs of what the page has asked of the outside world: the
    writes submitted, the refetches issued and the lines written with
    [console.error].

    One definition per handler and per effect, named as in the source.
    [handleAction] stops at its [await refetchAllowance()] and leaves a
    task holding the [depositAmount] its closure captured; [resumeAction]
    is the rest of the handler.  The [approveSuccess] effect starts
    [performStakeAfterApproval], which waits for a 2500 ms timer
    ([resumeSettle] runs when it fires) and then for a second refetch
    ([resumeVerify]).  [step] applies one event and then runs the effects.

    A button acts only when it is rendered and enabled: the conditions are
    those of the JSX, evaluated on the state as last rendered (the clock
    value of the last render decides the phase shown). *)

From stdpp Require Import pretty.
From S2P Require Import Prelude Digits JsNumber Viem JsDouble Phase Contract.

(** ** State *)

(** ["idle" | "joining" | "approving" | "staking" | "withdrawing"] *)
Inductive ActionStep := idle | joining | approving | staking | withdrawing.

#[export] Instance ActionStep_eq_dec : EqDecision ActionStep.
Proof. solve_decision. Defined.

(** A continuation suspended at an [await]. *)
Inductive Task :=
| AwaitFreshAllowance (depositAmount : string)
    (* [handleAction] at [await refetchAllowance()] *)
| AwaitSettle (due : Z) (pendingStakeAmount : string)
    (* [performStakeAfterApproval] at the 2500 ms timer *)
| AwaitVerify (pendingStakeAmount : string).
    (* [performStakeAfterApproval] at [await refetchAllowance()] *)

#[export] Instance Task_eq_dec : EqDecision Task.
Proof. solve_decision. Defined.

Record State := mkState {
  (* Privy *)
  authenticated : bool;
  walletAddress : option Address;
  (* useState *)
  selectedFaction : option Clan;
  depositAmount : string;
  withdrawAmount : string;
  isDepositing : bool;
  actionStep : ActionStep;
  pendingStakeAmount : option string;
  (* hooks *)
  hooks : Hooks;
  cache : Cache;
  (* the dependencies the approve effect last ran with *)
  approveDeps : bool * option string;
  (* the event loop *)
  tasks : list Task;
  clock : Z;
  rendered : Z;
  nextTick : Z;
  (* what the page asked for *)
  writes : list WriteRequest;
  refetches : list QueryId;
  console : list string;
  logins : nat;
}.

(** *** Field updates

    One setter per field, so that [s <| field := v |>] and
    [s <| field ::= f |>] read as the source's assignments. *)

#[export] Instance set_authenticated : Setter authenticated := fun f s =>
  mkState (f (authenticated s)) (walletAddress s) (selectedFaction s)
    (depositAmount s) (withdrawAmount s) (isDepositing s) (actionStep s)
    (pendingStakeAmount s) (hooks s) (cache s) (approveDeps s) (tasks s)
    (clock s) (rendered s) (nextTick s) (writes s) (refetches s) (console s)
    (logins s).

#[export] Instance set_walletAddress : Setter walletAddress := fun f s =>
  mkState (authenticated s) (f (walletAddress s)) (selectedFaction s)
    (depositAmount s) (withdrawAmount s) (isDepositing s) (actionStep s)
    (pendingStakeAmount s) (hooks s) (cache s) (approveDeps s) (tasks s)
    (clock s) (rendered s) (nextTick s) (writes s) (refetches s) (console s)
    (logins s).

#[export] Instance set_selectedFaction : Setter selectedFaction := fun f s =>
  mkState (authenticated s) (walletAddress s) (f (selectedFaction s))
    (depositAmount s) (withdrawAmount s) (isDepositing s) (actionStep s)
    (pendingStakeAmount s) (hooks s) (cache s) (approveDeps s) (tasks s)
    (clock s) (rendered s) (nextTick s) (writes s) (refetches s) (console s)
    (logins s).

#[export] Instance set_depositAmount : Setter depositAmount := fun f s =>
  mkState (authenticated s) (walletAddress s) (selectedFaction s)
    (f (depositAmount s)) (withdrawAmount s) (isDepositing s) (actionStep s)
    (pendingStakeAmount s) (hooks s) (cache s) (approveDeps s) (tasks s)
    (clock s) (rendered s) (nextTick s) (writes s) (refetches s) (console s)
    (logins s).

#[export] Instance set_withdrawAmount : Setter withdrawAmount := fun f s =>
  mkState (authenticated s) (walletAddress s) (selectedFaction s)
    (depositAmount s) (f (withdrawAmount s)) (isDepositing s) (actionStep s)
    (pendingStakeAmount s) (hooks s) (cache s) (approveDeps s) (tasks s)
    (clock s) (rendered s) (nextTick s) (writes s) (refetches s) (console s)
    (logins s).

#[export] Instance set_isDepositing : Setter isDepositing := fun f s =>
  mkState (authenticated s) (walletAddress s) (selectedFaction s)
    (depositAmount s) (withdrawAmount s) (f (isDepositing s)) (actionStep s)
    (pendingStakeAmount s) (hooks s) (cache s) (approveDeps s) (tasks s)
    (clock s) (rendered s) (nextTick s) (writes s) (refetches s) (console s)
    (logins s).

#[export] Instance set_actionStep : Setter actionStep := fun f s =>
  mkState (authenticated s) (walletAddress s) (selectedFaction s)
    (depositAmount s) (withdrawAmount s) (isDepositing s) (f (actionStep s))
    (pendingStakeAmount s) (hooks s) (cache s) (approveDeps s) (tasks s)
    (clock s) (rendered s) (nextTick s) (writes s) (refetches s) (console s)
    (logins s).

#[export] Instance set_pendingStakeAmount : Setter pendingStakeAmount := fun f s =>
  mkState (authenticated s) (walletAddress s) (selectedFaction s)
    (depositAmount s) (withdrawAmount s) (isDepositing s) (actionStep s)
    (f (pendingStakeAmount s)) (hooks s) (cache s) (approveDeps s) (tasks s)
    (clock s) (rendered s) (nextTick s) (writes s) (refetches s) (console s)
    (logins s).

#[export] Instance set_hooks : Setter hooks := fun f s =>
  mkState (authenticated s) (walletAddress s) (selectedFaction s)
    (depositAmount s) (withdrawAmount s) (isDepositing s) (actionStep s)
    (pendingStakeAmount s) (f (hooks s)) (cache s) (approveDeps s) (tasks s)
    (clock s) (rendered s) (nextTick s) (writes s) (refetches s) (console s)
    (logins s).

#[export] Instance set_cache : Setter cache := fun f s =>
  mkState (authenticated s) (walletAddress s) (selectedFaction s)
    (depositAmount s) (withdrawAmount s) (isDepositing s) (actionStep s)
    (pendingStakeAmount s) (hooks s) (f (cache s)) (approveDeps s) (tasks s)
    (clock s) (rendered s) (nextTick s) (writes s) (refetches s) (console s)
    (logins s).

#[export] Instance set_approveDeps : Setter approveDeps := fun f s =>
  mkState (authenticated s) (walletAddress s) (selectedFaction s)
    (depositAmount s) (withdrawAmount s) (isDepositing s) (actionStep s)
    (pendingStakeAmount s) (hooks s) (cache s) (f (approveDeps s)) (tasks s)
    (clock s) (rendered s) (nextTick s) (writes s) (refetches s) (console s)
    (logins s).

#[export] Instance set_tasks : Setter tasks := fun f s =>
  mkState (authenticated s) (walletAddress s) (selectedFaction s)
    (depositAmount s) (withdrawAmount s) (isDepositing s) (actionStep s)
    (pendingStakeAmount s) (hooks s) (cache s) (approveDeps s) (f (tasks s))
    (clock s) (rendered s) (nextTick s) (writes s) (refetches s) (console s)
    (logins s).

#[export] Instance set_clock : Setter clock := fun f s =>
  mkState (authenticated s) (walletAddress s) (selectedFaction s)
    (depositAmount s) (withdrawAmount s) (isDepositing s) (actionStep s)
    (pendingStakeAmount s) (hooks s) (cache s) (approveDeps s) (tasks s)
    (f (clock s)) (rendered s) (nextTick s) (writes s) (refetches s)
    (console s) (logins s).

#[export] Instance set_rendered : Setter rendered := fun f s =>
  mkState (authenticated s) (walletAddress s) (selectedFaction s)
    (depositAmount s) (withdrawAmount s) (isDepositing s) (actionStep s)
    (pendingStakeAmount s) (hooks s) (cache s) (approveDeps s) (tasks s)
    (clock s) (f (rendered s)) (nextTick s) (writes s) (refetches s)
    (console s) (logins s).

#[export] Instance set_nextTick : Setter nextTick := fun f s =>
  mkState (authenticated s) (walletAddress s) (selectedFaction s)
    (depositAmount s) (withdrawAmount s) (isDepositing s) (actionStep s)
    (pendingStakeAmount s) (hooks s) (cache s) (approveDeps s) (tasks s)
    (clock s) (rendered s) (f (nextTick s)) (writes s) (refetches s)
    (console s) (logins s).

#[export] Instance set_writes : Setter writes := fun f s =>
  mkState (authenticated s) (walletAddress s) (selectedFaction s)
    (depositAmount s) (withdrawAmount s) (isDepositing s) (actionStep s)
    (pendingStakeAmount s) (hooks s) (cache s) (approveDeps s) (tasks s)
    (clock s) (rendered s) (nextTick s) (f (writes s)) (refetches s)
    (console s) (logins s).

#[export] Instance set_refetches : Setter refetches := fun f s =>
  mkState (authenticated s) (walletAddress s) (selectedFaction s)
    (depositAmount s) (withdrawAmount s) (isDepositing s) (actionStep s)
    (pendingStakeAmount s) (hooks s) (cache s) (approveDeps s) (tasks s)
    (clock s) (rendered s) (nextTick s) (writes s) (f (refetches s))
    (console s) (logins s).

#[export] Instance set_console : Setter console := fun f s =>
  mkState (authenticated s) (walletAddress s) (selectedFaction s)
    (depositAmount s) (withdrawAmount s) (isDepositing s) (actionStep s)
    (pendingStakeAmount s) (hooks s) (cache s) (approveDeps s) (tasks s)
    (clock s) (rendered s) (nextTick s) (writes s) (refetches s)
    (f (console s)) (logins s).

#[export] Instance set_logins : Setter logins := fun f s =>
  mkState (authenticated s) (walletAddress s) (selectedFaction s)
    (depositAmount s) (withdrawAmount s) (isDepositing s) (actionStep s)
    (pendingStakeAmount s) (hooks s) (cache s) (approveDeps s) (tasks s)
    (clock s) (rendered s) (nextTick s) (writes s) (refetches s) (console s)
    (f (logins s)).

Definition SETTLE_DELAY : Z := 2500.
Definition POLL_INTERVAL : Z := 30000.

(** The page when it mounts at clock value [t]. *)
Definition initial (t : Z) : State := {|
  authenticated := false;
  walletAddress := None;
  selectedFaction := None;
  depositAmount := "";
  withdrawAmount := "";
  isDepositing := true;
  actionStep := idle;
  pendingStakeAmount := None;
  hooks := hooks_idle;
  cache := cache_empty;
  approveDeps := (false, None);
  tasks := [];
  clock := t;
  rendered := t;
  nextTick := t + POLL_INTERVAL;
  writes := [];
  refetches := [];
  console := [];
  logins := 0;
|}.

(** ** Primitive actions *)

(** [refetchX()]: the request is logged; the answer is an event. *)
Definition refetch (q : QueryId) (s : State) : State :=
  s <| refetches ::= fun l => l ++ [q] |>.

(** A write hook's function is called with the request it built, or threw
    while building it ([None]): only a built request reaches
    [writeContract]. *)
Definition call_write (w : HookId) (req : option WriteRequest) (s : State) : State :=
  match req with
  | Some r => s <| writes ::= fun l => l ++ [r] |> <| hooks ::= hook_update w hook_call |>
  | None => s
  end.

Definition reset (w : HookId) (s : State) : State :=
  s <| hooks ::= hook_update w hook_reset |>.

Definition console_error (line : string) (s : State) : State :=
  s <| console ::= fun l => l ++ [line] |>.

Definition spawn (t : Task) (s : State) : State :=
  s <| tasks ::= fun l => l ++ [t] |>.

(** Removing the first occurrence of a task. *)
Fixpoint remove_task (t : Task) (l : list Task) : list Task :=
  match l with
  | [] => []
  | t' :: l' => if decide (t' = t) then l' else t' :: remove_task t l'
  end.

Definition has_task (t : Task) (s : State) : bool := bool_decide (t ∈ tasks s).

(** ** Derived values of a render *)

Definition allowance (s : State) : option Z := data_int (cache s) QUSDCAllowance.
Definition usdcBalance (s : State) : option Z := data_int (cache s) QUSDCBalance.

Definition inDepositPhase (s : State) : bool :=
  isDepositPhase (rendered s)
    (data_int (cache s) QEpochStartTime) (data_int (cache s) QDepositPhaseDuration).

Definition canClear (s : State) : bool :=
  canClearCanvas (rendered s)
    (data_int (cache s) QEpochStartTime) (data_int (cache s) QEpochDuration).

(** [warriorInfo ? Number(warriorInfo[1]) as Clan : Clan.NONE] *)
Definition userClan (s : State) : Z :=
  match cache s QWarriorInfo with
  | Some (DWarrior _ clan _ _) => clan
  | _ => clan_number NONE
  end.

Definition userStake (s : State) : Z :=
  match cache s QWarriorInfo with
  | Some (DWarrior stake _ _ _) => stake
  | _ => 0
  end.

Definition userScore (s : State) : Z :=
  match cache s QWarriorInfo with
  | Some (DWarrior _ _ _ score) => score
  | _ => 0
  end.

(** [!selectedFaction]: true for [null] and for [Clan.NONE], which is [0]. *)
Definition no_faction (f : option Clan) : bool :=
  match f with
  | None | Some NONE => true
  | Some _ => false
  end.

(** [!amount || parseFloat(amount) <= 0] *)
Definition amount_missing (amount : string) : bool :=
  negb (truthy_string amount) || num_le_zero (parseFloat amount).

(** [freshAllowance && freshAllowance >= requiredAmount] *)
Definition allowance_covers (a : option Z) (requiredAmount : Z) : bool :=
  match a with
  | Some v => truthy_bigint a && (v >=? requiredAmount)
  | None => false
  end.

Definition hasAllowance (s : State) : bool :=
  if negb (truthy_bigint (allowance s)) || negb (truthy_string (depositAmount s)) then false
  else
    let amount := parseFloat (depositAmount s) in
    if isNaN amount || num_le_zero amount then false
    else
      match parseUnits (depositAmount s) 6 with
      | Some required => default 0 (allowance s) >=? required
      | None => false
      end.

Definition isButtonDisabled (s : State) : bool :=
  if negb (authenticated s) then false
  else if no_faction (selectedFaction s) then true
  else if userClan s =? clan_number NONE
  then hook_busy (joinH (hooks s))
  else if amount_missing (depositAmount s) then true
  else if negb (inDepositPhase s) then true
  else hook_busy (approveH (hooks s)) || hook_busy (stakeH (hooks s)).

Definition isLoading (s : State) : bool :=
  hook_busy (joinH (hooks s)) || hook_busy (approveH (hooks s)) || hook_busy (stakeH (hooks s)).

Definition getButtonText (s : State) : string :=
  if negb (authenticated s) then "CONNECT WALLET"
  else if no_faction (selectedFaction s) then "SELECT A FACTION"
  else if userClan s =? clan_number NONE then
    if hook_busy (joinH (hooks s)) then "JOINING CLAN..."
    else "JOIN " +:+ from_option CLAN_NAMES "" (selectedFaction s)
  else if amount_missing (depositAmount s) then "ENTER AMOUNT"
  else if negb (hasAllowance s) then
    if hook_busy (approveH (hooks s)) then "APPROVING..." else "APPROVE USDC"
  else if hook_busy (stakeH (hooks s)) then "STAKING..."
  else "STAKE " +:+ depositAmount s +:+ " USDC".

(** *** What is on the page *)

(** [selected]: a faction card of the list is selected. *)
Definition selected (s : State) : bool := negb (no_faction (selectedFaction s)).

(** The panel with the action button. *)
Definition shows_action (s : State) : bool :=
  selected s && (isDepositing s || (userClan s =? clan_number NONE)).

(** The stake amount field and its quick-pick buttons. *)
Definition shows_stake_form (s : State) : bool :=
  shows_action s && negb (userClan s =? clan_number NONE).

Definition shows_withdraw (s : State) : bool :=
  selected s && negb (isDepositing s || (userClan s =? clan_number NONE)).

Definition withdraw_disabled (s : State) : bool :=
  negb (inDepositPhase s) || hook_busy (withdrawH (hooks s)) ||
  amount_missing (withdrawAmount s).

(** ** Handlers *)

(** [handleAction] up to its [await]. *)
Definition handleAction (s : State) : State :=
  if negb (authenticated s) then s <| logins ::= S |>
  else
    match selectedFaction s with
    | None | Some NONE => s
    | Some faction =>
        if userClan s =? clan_number NONE
        then call_write HJoin (Some (joinClan faction)) (s <| actionStep := joining |>)
        else if amount_missing (depositAmount s) then s
        else spawn (AwaitFreshAllowance (depositAmount s)) (refetch QUSDCAllowance s)
    end.

(** The rest of [handleAction], once [refetchAllowance()] has resolved.
    [depositAmount] is the value captured when the button was clicked. *)
Definition resumeAction (depositAmount : string) (r : RefetchResult) (s : State) : State :=
  let s := s <| cache ::= refetch_apply QUSDCAllowance r |> in
  let freshAllowance := allowance s in
  match parseUnits depositAmount 6 with
  | None => s
  | Some requiredAmount =>
      if allowance_covers freshAllowance requiredAmount
      then call_write HStake (stakeInk depositAmount) (s <| actionStep := staking |>)
      else
        call_write HApprove (Some approve)
          (s <| actionStep := approving |> <| pendingStakeAmount := Some depositAmount |>)
  end.

(** [performStakeAfterApproval] after the timer: the allowance is read
    again. *)
Definition resumeSettle (pending : string) (s : State) : State :=
  spawn (AwaitVerify pending) (refetch QUSDCAllowance s).

(** [performStakeAfterApproval] after the second read. *)
Definition resumeVerify (pending : string) (r : RefetchResult) (s : State) : State :=
  let s := s <| cache ::= refetch_apply QUSDCAllowance r |> in
  let newAllowance := allowance s in
  match parseUnits pending 6 with
  | None => s
  | Some requiredAmount =>
      let s :=
        if allowance_covers newAllowance requiredAmount
        then call_write HStake (stakeInk pending) (reset HApprove s <| actionStep := staking |>)
        else
          (reset HApprove
             (console_error "Allowance verification failed after approval. Please try again." s))
          <| actionStep := idle |> in
      s <| pendingStakeAmount := None |>
  end.

Definition handleWithdraw (s : State) : State :=
  if amount_missing (withdrawAmount s) then s
  else call_write HWithdraw (withdrawInk (withdrawAmount s)) (s <| actionStep := withdrawing |>).

Definition handleMint (s : State) : State :=
  match walletAddress s with
  | Some a => if truthy_string a then call_write HMint (mint a "10000") s else s
  | None => s
  end.

(** The quick-pick buttons of the stake form. *)
Definition quickDeposit (amount : string) (s : State) : State :=
  if String.eqb amount "MAX" && truthy_bigint (usdcBalance s)
  then s <| depositAmount := strip_commas (formatUSDC (usdcBalance s)) |>
  else s <| depositAmount := amount |>.

(** The percent buttons of the withdraw form: the stake as a Number of
    tokens, printed in full for MAX and as a share rounded to cents
    otherwise. *)
Definition quickWithdraw (percent : string) (s : State) : State :=
  let stake := double_div (number_of_bigint (userStake s)) double_1e6 in
  if String.eqb percent "MAX"
  then s <| withdrawAmount := toString_double stake |>
  else
    let pct := double_div (to_double (parseInt percent)) double_100 in
    s <| withdrawAmount := toFixed 2 (double_mul stake pct) |>.

(** [stakeInk]'s [onError]. *)
Definition stake_onError (errorMessage : string) (s : State) : State :=
  let s := console_error ("[stakeInk] Transaction failed: " +:+ errorMessage) s in
  match classify_stake_error errorMessage with
  | Some r => console_error (rejection_reason r) s
  | None => s
  end.

(** ** Effects, in the order of the source *)

Definition effect_join (s : State) : State :=
  if isSuccess (joinH (hooks s))
  then (reset HJoin (refetch QWarriorInfo s)) <| actionStep := idle |>
  else s.

(** The effect on [approveSuccess, pendingStakeAmount]: the render
    records the two dependencies, and the body runs when one of them
    differs from the record of the render before. *)
Definition effect_approve (s : State) : State :=
  let deps := (isSuccess (approveH (hooks s)), pendingStakeAmount s) in
  let s' := s <| approveDeps := deps |> in
  if decide (deps = approveDeps s) then s'
  else
    match deps with
    | (true, Some pending) =>
        if truthy_string pending
        then spawn (AwaitSettle (clock s + SETTLE_DELAY) pending) s'
        else s'
    | _ => s'
    end.

Definition effect_stake (s : State) : State :=
  if isSuccess (stakeH (hooks s))
  then
    (reset HStake
      (refetch QUSDCAllowance (refetch QTotalTVL (refetch QAllScores
        (refetch QAllClanTVLs (refetch QWarriorInfo (refetch QUSDCBalance s)))))))
    <| depositAmount := "" |> <| actionStep := idle |>
  else s.

Definition effect_withdraw (s : State) : State :=
  if isSuccess (withdrawH (hooks s))
  then
    (reset HWithdraw
      (refetch QTotalTVL (refetch QAllScores
        (refetch QAllClanTVLs (refetch QWarriorInfo (refetch QUSDCBalance s))))))
    <| withdrawAmount := "" |> <| actionStep := idle |>
  else s.

Definition effect_mint (s : State) : State :=
  if isSuccess (mintH (hooks s)) then reset HMint (refetch QUSDCBalance s) else s.

Definition effect_clear (s : State) : State :=
  if isSuccess (clearH (hooks s))
  then
    reset HClear
      (refetch QAllScores (refetch QAllClanTVLs (refetch QTimeUntilCanvasClears
        (refetch QEpochStartTime (refetch QCurrentEpoch s)))))
  else s.

(** The body of the interval. *)
Definition poll (s : State) : State :=
  let s := refetch QAllScores (refetch QAllClanTVLs (refetch QTimeUntilCanvasClears s)) in
  match walletAddress s with
  | Some a => if truthy_string a then refetch QUSDCAllowance s else s
  | None => s
  end.

(** The effect on [walletAddress]. *)
Definition effect_wallet (s : State) : State :=
  match walletAddress s with
  | Some a =>
      if truthy_string a then refetch QUSDCBalance (refetch QUSDCAllowance s) else s
  | None => s
  end.

Definition effects (s : State) : State :=
  effect_clear (effect_mint (effect_withdraw (effect_stake (effect_approve (effect_join s))))).

(** ** Events *)

Inductive WalletOutcome :=
| Submitted (hash : Hash)
| Rejected (message : string).

Inductive Event :=
(* the user *)
| ClickFaction (c : Clan)
| TypeDeposit (v : string)
| TypeWithdraw (v : string)
| ClickQuickDeposit (amount : string)
| ClickQuickWithdraw (percent : string)
| ClickTab (deposit : bool)
| ClickAction
| ClickWithdraw
| ClickMint
| ClickClear
(* the session *)
| Connect (a : option Address)
(* the wallet and the chain *)
| Wallet (w : HookId) (o : WalletOutcome)
| Receipt (w : HookId) (ok : bool)
| Answer (q : QueryId) (d : QData)
(* the event loop *)
| Refetched (t : Task) (r : RefetchResult)
| Timer (t : Task)
| Tick
| Time (t : Z).

Definition quick_amounts : list string := ["100"; "500"; "1000"; "MAX"].
Definition quick_percents : list string := ["25%"; "50%"; "75%"; "MAX"].

(** One event, before the effects. *)
Definition handle (e : Event) (s : State) : State :=
  match e with
  | ClickFaction c =>
      if decide (c = NONE) then s else s <| selectedFaction := Some c |>
  | TypeDeposit v =>
      if shows_stake_form s && inDepositPhase s then s <| depositAmount := v |> else s
  | TypeWithdraw v =>
      if shows_withdraw s && inDepositPhase s && negb (userStake s =? 0)
      then s <| withdrawAmount := v |> else s
  | ClickQuickDeposit amount =>
      if shows_stake_form s && inDepositPhase s && bool_decide (amount ∈ quick_amounts)
      then quickDeposit amount s else s
  | ClickQuickWithdraw percent =>
      if shows_withdraw s && inDepositPhase s && negb (userStake s =? 0) &&
         bool_decide (percent ∈ quick_percents)
      then quickWithdraw percent s else s
  | ClickTab deposit =>
      if selected s && negb (userClan s =? clan_number NONE) &&
         (deposit || negb (userStake s =? 0))
      then s <| isDepositing := deposit |> else s
  | ClickAction =>
      if shows_action s && negb (isButtonDisabled s) then handleAction s else s
  | ClickWithdraw =>
      if shows_withdraw s && negb (withdraw_disabled s) then handleWithdraw s else s
  | ClickMint =>
      if authenticated s && negb (hook_busy (mintH (hooks s))) then handleMint s else s
  | ClickClear =>
      if canClear s && negb (hook_busy (clearH (hooks s)))
      then call_write HClear (Some clearCanvas) s else s
  | Connect a =>
      effect_wallet
        (s <| authenticated := bool_decide (is_Some a) |>
           <| walletAddress := a |>
           <| cache ::= cache_drop account_query |>
           <| nextTick := clock s + POLL_INTERVAL |>)
  | Wallet w (Submitted h) => s <| hooks ::= hook_update w (hook_submitted h) |>
  | Wallet w (Rejected m) =>
      let s' := s <| hooks ::= hook_update w (hook_rejected m) |> in
      if bool_decide (w = HStake) && isPending (stakeH (hooks s))
      then stake_onError m s' else s'
  | Receipt w ok =>
      s <| hooks ::= hook_update w (if ok then hook_receipt else hook_receipt_failed) |>
  | Answer q d => s <| cache ::= cache_set q d |>
  | Refetched t r =>
      if has_task t s then
        let s' := s <| tasks ::= remove_task t |> in
        match t with
        | AwaitFreshAllowance amount => resumeAction amount r s'
        | AwaitVerify pending => resumeVerify pending r s'
        | AwaitSettle _ _ => s
        end
      else s
  | Timer t =>
      match t with
      | AwaitSettle due pending =>
          if has_task t s && (due <=? clock s)
          then resumeSettle pending (s <| tasks ::= remove_task t |>)
          else s
      | _ => s
      end
  | Tick =>
      if nextTick s <=? clock s
      then poll (s <| nextTick := clock s + POLL_INTERVAL |>)
      else s
  | Time t => s <| clock := Z.max (clock s) t |>
  end.

(** A render evaluates [Date.now()] once: the phase tests of the page
    are those of the time of its last render. *)
Definition render (s : State) : State := s <| rendered := clock s |>.

Definition is_time (e : Event) : bool :=
  match e with Time _ => true | _ => false end.

(** An event, the effects it triggers, and the render that follows.  The
    passing of time alone renders nothing. *)
Definition step (s : State) (e : Event) : State :=
  if is_time e then handle e s else render (effects (handle e s)).
