(* ===== verification/ArenaInv.v ===== *)
(** * The arena page: frames and invariants

    What the effects of [Arena] leave alone, the invariant every render
    re-establishes ([settled]: no confirmed write is waiting for its
    effect, so that a second pass of the effects changes nothing), and
    the invariant of the reachable states that the orchestrator's
    properties rest on: an amount waiting for an approval has already
    been parsed once. *)

From S2P Require Import Prelude Digits JsNumber Viem JsDouble Phase Contract Arena.

(** ** Definitions used by the statements *)

(** The effect of hook [w] has run: its success flag is down. *)
Definition quiet (w : HookId) (s : State) : Prop :=
  isSuccess (hook w (hooks s)) = false.

(** The approve effect has seen the current values of its dependencies. *)
Definition deps_seen (s : State) : Prop :=
  approveDeps s = (isSuccess (approveH (hooks s)), pendingStakeAmount s).

(** Every effect has run. *)
Definition settled (s : State) : Prop :=
  (forall w, w <> HApprove -> quiet w s) /\ deps_seen s.

(** What no effect touches. *)
Definition effect_frame (s s' : State) : Prop :=
  authenticated s' = authenticated s /\ walletAddress s' = walletAddress s /\
  selectedFaction s' = selectedFaction s /\ isDepositing s' = isDepositing s /\
  pendingStakeAmount s' = pendingStakeAmount s /\ cache s' = cache s /\
  clock s' = clock s /\ rendered s' = rendered s /\ nextTick s' = nextTick s /\
  writes s' = writes s /\ console s' = console s /\ logins s' = logins s /\
  approveH (hooks s') = approveH (hooks s).

(** The amount parses as a fixed-point number of 6 decimals. *)
Definition parses (amount : string) : Prop := is_Some (parseUnits amount 6).

(** The amount a task carries into its continuation after an approval. *)
Definition task_pending (t : Task) : option string :=
  match t with
  | AwaitSettle _ pending | AwaitVerify pending => Some pending
  | AwaitFreshAllowance _ => None
  end.

(** Every amount that waits for an approval parses. *)
Definition pending_parses (s : State) : Prop :=
  (forall a, pendingStakeAmount s = Some a -> parses a) /\
  (forall t a, t ∈ tasks s -> task_pending t = Some a -> parses a).

(** The page after the answer [r] to a refetch of the allowance. *)
Definition answered (r : RefetchResult) (s : State) : State :=
  s <| cache ::= refetch_apply QUSDCAllowance r |>.

(** The effect that watches the success flag of a hook. *)
Definition effect_of (w : HookId) : State -> State :=
  match w with
  | HApprove => effect_approve | HJoin => effect_join | HStake => effect_stake
  | HWithdraw => effect_withdraw | HMint => effect_mint | HClear => effect_clear
  end.

(** *** A page to run the theorems on

    The page mounts at 1700000100 s, one hundred seconds into an epoch
    with a deposit phase of two days; a wallet of clan 2 with a stake of
    100 connects with no allowance, selects its clan and types 250. *)
Definition demo_events : list Event :=
  [Connect (Some "0xA11CE");
   Answer QEpochStartTime (DInt 1700000000);
   Answer QDepositPhaseDuration (DInt 172800);
   Answer QEpochDuration (DInt 604800);
   Answer QWarriorInfo (DWarrior 100000000 2 1 0);
   Answer QUSDCBalance (DInt 1000000000);
   Answer QUSDCAllowance (DInt 0);
   ClickFaction BLADE; TypeDeposit "250"].

Definition demo_ready : State := run step (initial 1700000100000) demo_events.

(** The same page after a click on the action button, and after the
    approval that follows it has been submitted. *)
Definition demo_awaiting : State := step demo_ready ClickAction.

Definition demo_approving : State :=
  run step (initial 1700000100000)
    (demo_events ++
     [ClickAction; Refetched (AwaitFreshAllowance "250") (Fetched (DInt 0))]).

(** ** Reading a field of an updated state *)

(** Unfolds the primitive actions and the field updates, and nothing
    else: the handlers and the effects stay folded. *)
Ltac state_simpl :=
  cbn [authenticated walletAddress selectedFaction depositAmount withdrawAmount
       isDepositing actionStep pendingStakeAmount hooks cache approveDeps tasks
       clock rendered nextTick writes refetches console logins
       set set_authenticated set_walletAddress set_selectedFaction
       set_depositAmount set_withdrawAmount set_isDepositing set_actionStep
       set_pendingStakeAmount set_hooks set_cache set_approveDeps set_tasks
       set_clock set_rendered set_nextTick set_writes set_refetches set_console
       set_logins refetch call_write reset console_error spawn render answered
       hook hook_update approveH joinH stakeH withdrawH mintH clearH
       hook_call hook_reset hook_submitted hook_rejected hook_receipt
       hook_receipt_failed isSuccess isPending isConfirming fst snd] in *.

(** ** The effects *)

#[export] Instance effect_frame_preorder : PreOrder effect_frame.
Proof.
  split; [by repeat split|]. unfold effect_frame. intros s1 s2 s3 H12 H23.
  destruct_and!. repeat split; congruence.
Qed.

Ltac frame_cases := intros; repeat case_match; by repeat split.

Lemma effect_join_frame s : effect_frame s (effect_join s).
Proof. unfold effect_join. frame_cases. Qed.

Lemma effect_approve_frame s : effect_frame s (effect_approve s).
Proof. unfold effect_approve. frame_cases. Qed.

Lemma effect_stake_frame s : effect_frame s (effect_stake s).
Proof. unfold effect_stake. frame_cases. Qed.

Lemma effect_withdraw_frame s : effect_frame s (effect_withdraw s).
Proof. unfold effect_withdraw. frame_cases. Qed.

Lemma effect_mint_frame s : effect_frame s (effect_mint s).
Proof. unfold effect_mint. frame_cases. Qed.

Lemma effect_clear_frame s : effect_frame s (effect_clear s).
Proof. unfold effect_clear. frame_cases. Qed.

Lemma effects_frame s : effect_frame s (effects s).
Proof.
  unfold effects.
  by rewrite <- effect_clear_frame, <- effect_mint_frame, <- effect_withdraw_frame,
    <- effect_stake_frame, <- effect_approve_frame, <- effect_join_frame.
Qed.

(** An effect lowers the flag of its own hook and raises none. *)
Ltac quiet_cases w :=
  unfold quiet; intros [->|]; repeat case_match; try done; by destruct w.

Lemma effect_join_quiet s w : w = HJoin \/ quiet w s -> quiet w (effect_join s).
Proof. unfold effect_join. quiet_cases w. Qed.

Lemma effect_approve_quiet s w : quiet w s -> quiet w (effect_approve s).
Proof. unfold effect_approve, quiet. intros. by repeat case_match. Qed.

Lemma effect_stake_quiet s w : w = HStake \/ quiet w s -> quiet w (effect_stake s).
Proof. unfold effect_stake. quiet_cases w. Qed.

Lemma effect_withdraw_quiet s w : w = HWithdraw \/ quiet w s -> quiet w (effect_withdraw s).
Proof. unfold effect_withdraw. quiet_cases w. Qed.

Lemma effect_mint_quiet s w : w = HMint \/ quiet w s -> quiet w (effect_mint s).
Proof. unfold effect_mint. quiet_cases w. Qed.

Lemma effect_clear_quiet s w : w = HClear \/ quiet w s -> quiet w (effect_clear s).
Proof. unfold effect_clear. quiet_cases w. Qed.

Lemma effects_quiet s w : w <> HApprove -> quiet w (effects s).
Proof.
  intros Hw. unfold effects.
  apply effect_clear_quiet. destruct (decide (w = HClear)); [by left|right].
  apply effect_mint_quiet. destruct (decide (w = HMint)); [by left|right].
  apply effect_withdraw_quiet. destruct (decide (w = HWithdraw)); [by left|right].
  apply effect_stake_quiet. destruct (decide (w = HStake)); [by left|right].
  apply effect_approve_quiet, effect_join_quiet. left. by destruct w.
Qed.

(** The approve effect records what it saw; the effects after it keep the
    record current. *)
Lemma effect_approve_seen s : deps_seen (effect_approve s).
Proof.
  unfold effect_approve, deps_seen. destruct (decide _) as [e|_]; [done|].
  destruct (isSuccess _) eqn:E, (pendingStakeAmount s) as [p|] eqn:Ep;
    try destruct (truthy_string p); simpl; by rewrite ?E, ?Ep.
Qed.

(** Recording the dependencies that are already on record changes
    nothing. *)
Lemma effect_approve_id s : deps_seen s -> effect_approve s = s.
Proof.
  unfold deps_seen, effect_approve. intros Hd. rewrite decide_True by done.
  rewrite <- Hd. by destruct s.
Qed.

(** When no other hook has succeeded, only the approve effect runs. *)
Lemma effects_approve_only s :
  (forall w, w <> HApprove -> quiet w s) -> effects s = effect_approve s.
Proof.
  intros Hq. unfold effects.
  assert (Hj := Hq HJoin). assert (Hs := Hq HStake). assert (Hw := Hq HWithdraw).
  assert (Hm := Hq HMint). assert (Hc := Hq HClear). unfold quiet in *.
  cbn [hook] in *. unfold effect_join. rewrite Hj by done.
  assert (Hf := effect_approve_frame s). destruct Hf as (_&_&_&_&_&_&_&_&_&_&_&_&Hf).
  assert (Hh : hooks (effect_approve s) = hooks s)
    by (unfold effect_approve; by repeat case_match).
  unfold effect_stake. rewrite Hh, Hs by done.
  unfold effect_withdraw. rewrite Hh, Hw by done.
  unfold effect_mint. rewrite Hh, Hm by done.
  unfold effect_clear. by rewrite Hh, Hc.
Qed.

Ltac seen_cases := unfold deps_seen; intros; by repeat case_match.

Lemma effect_stake_seen s : deps_seen s -> deps_seen (effect_stake s).
Proof. unfold effect_stake. seen_cases. Qed.

Lemma effect_withdraw_seen s : deps_seen s -> deps_seen (effect_withdraw s).
Proof. unfold effect_withdraw. seen_cases. Qed.

Lemma effect_mint_seen s : deps_seen s -> deps_seen (effect_mint s).
Proof. unfold effect_mint. seen_cases. Qed.

Lemma effect_clear_seen s : deps_seen s -> deps_seen (effect_clear s).
Proof. unfold effect_clear. seen_cases. Qed.

Lemma effects_settled s : settled (effects s).
Proof.
  split; [intros w; apply effects_quiet|]. unfold effects.
  apply effect_clear_seen, effect_mint_seen, effect_withdraw_seen, effect_stake_seen,
    effect_approve_seen.
Qed.

(** In a settled state no effect has anything to do. *)
Lemma effects_id s : settled s -> effects s = s.
Proof.
  intros [Hq Hd]. by rewrite effects_approve_only, effect_approve_id.
Qed.

Section EffectFrames.
Variable s : State.

Lemma effects_writes : writes (effects s) = writes s.
Proof. apply (effects_frame s). Qed.

Lemma effects_cache : cache (effects s) = cache s.
Proof. apply (effects_frame s). Qed.

Lemma effects_pending : pendingStakeAmount (effects s) = pendingStakeAmount s.
Proof. apply (effects_frame s). Qed.

Lemma effects_console : console (effects s) = console s.
Proof. apply (effects_frame s). Qed.

Lemma effects_clock : clock (effects s) = clock s.
Proof. apply (effects_frame s). Qed.

Lemma effects_approveH : approveH (hooks (effects s)) = approveH (hooks s).
Proof. apply (effects_frame s). Qed.

End EffectFrames.

#[export] Hint Rewrite effects_writes effects_cache effects_pending effects_console
  effects_clock effects_approveH : fx_rw.

(** ** Settledness is an invariant *)

Lemma render_settled (s : State) : settled s -> settled (render s).
Proof. done. Qed.

Lemma handle_time_settled (s : State) (e : Event) :
  is_time e = true -> settled s -> settled (handle e s).
Proof. by destruct e. Qed.

Lemma step_settled (s : State) (e : Event) : settled s -> settled (step s e).
Proof.
  intros Hs. unfold step. destruct (is_time e) eqn:He.
  - by apply handle_time_settled.
  - apply render_settled, effects_settled.
Qed.

Lemma initial_settled (t : Z) : settled (initial t).
Proof. split; [by intros []|done]. Qed.

Lemma reachable_settled (t : Z) (s : State) :
  reachable step (initial t) s -> settled s.
Proof.
  apply (reachable_invariant step settled); [apply initial_settled|].
  intros. by apply step_settled.
Qed.

(** C18. One pass of the effects is enough: after the effects have run
    once, no effect has anything left to do, whatever the state they
    started from.  The cascade of renders that a confirmed write starts
    ends after one round. *)
Theorem effects_idempotent (s : State) : effects (effects s) = effects s.
Proof. apply effects_id, effects_settled. Qed.

(** ** Amounts that wait for an approval parse *)

Lemma remove_task_subset (t t' : Task) (l : list Task) :
  t' ∈ remove_task t l -> t' ∈ l.
Proof.
  induction l as [|x l IH]; simpl; [done|]. rewrite elem_of_cons. case_decide.
  - by right.
  - rewrite elem_of_cons. intros [->|H']; [by left|right; by apply IH].
Qed.

Lemma pending_parses_frame (s s' : State) :
  pendingStakeAmount s' = pendingStakeAmount s -> tasks s' = tasks s ->
  pending_parses s -> pending_parses s'.
Proof. unfold pending_parses. by intros -> ->. Qed.

Lemma pending_parses_removed (s : State) (t : Task) :
  pending_parses s -> pending_parses (s <| tasks ::= remove_task t |>).
Proof.
  intros [Hp Ht]. split; [exact Hp|]. intros t' a Hin. apply Ht.
  exact (remove_task_subset t t' (tasks s) Hin).
Qed.

Lemma pending_parses_spawn (s : State) (t : Task) :
  (forall a, task_pending t = Some a -> parses a) ->
  pending_parses s -> pending_parses (spawn t s).
Proof.
  intros Hn [Hp Ht]. split; [exact Hp|].
  intros t' a [Hin| ->%list_elem_of_singleton]%elem_of_app; eauto.
Qed.

Lemma pending_parses_call_write (s : State) (w : HookId) (req : option WriteRequest) :
  pending_parses s -> pending_parses (call_write w req s).
Proof. by destruct req. Qed.

Lemma effect_approve_parses (s : State) :
  pending_parses s -> pending_parses (effect_approve s).
Proof.
  intros H. unfold effect_approve. repeat case_match; try done.
  apply pending_parses_spawn; [|done]. simpl. intros a [= <-]. by apply H.
Qed.

Lemma effects_parses (s : State) : pending_parses s -> pending_parses (effects s).
Proof.
  intros H. unfold effects.
  assert (Hj : pending_parses (effect_join s))
    by (unfold effect_join; by case_match).
  apply effect_approve_parses in Hj.
  unfold effect_clear, effect_mint, effect_withdraw, effect_stake.
  by repeat case_match.
Qed.

Lemma resumeAction_parses (amount : string) (r : RefetchResult) (s : State) :
  pending_parses s -> pending_parses (resumeAction amount r s).
Proof.
  intros [Hp Ht]. unfold resumeAction.
  destruct (parseUnits amount 6) as [n|] eqn:Hn; [|done].
  case_match; apply pending_parses_call_write; [done|].
  split; [|exact Ht]. intros a [= <-]. by exists n.
Qed.

Lemma resumeVerify_parses (pending : string) (r : RefetchResult) (s : State) :
  pending_parses s -> pending_parses (resumeVerify pending r s).
Proof.
  intros [Hp Ht]. unfold resumeVerify. case_match; [|done].
  split; [done|]. case_match; [|exact Ht].
  by apply (pending_parses_call_write _ HStake (stakeInk pending)).
Qed.

Lemma handle_parses (s : State) (e : Event) :
  pending_parses s -> pending_parses (handle e s).
Proof.
  intros H. destruct e; cbn beta iota delta [handle]; repeat case_match; try done.
  - unfold quickDeposit. by case_match.
  - unfold quickWithdraw. by case_match.
  - unfold handleAction. repeat case_match; try done;
      by first [apply pending_parses_call_write | apply pending_parses_spawn].
  - unfold handleWithdraw. case_match; [done|]. by apply pending_parses_call_write.
  - unfold handleMint. repeat case_match; try done; by apply pending_parses_call_write.
  - unfold effect_wallet. by repeat case_match.
  - unfold stake_onError. by case_match.
  - by apply resumeAction_parses, pending_parses_removed.
  - by apply resumeVerify_parses, pending_parses_removed.
  - apply pending_parses_spawn; [|by apply pending_parses_removed].
    simpl. intros a [= <-]. bool_to_prop.
    match goal with Ht : has_task _ _ = true |- _ =>
      apply bool_decide_eq_true in Ht; by apply (proj2 H _ _ Ht) end.
  - unfold poll. by repeat case_match.
Qed.

Lemma step_parses (s : State) (e : Event) :
  pending_parses s -> pending_parses (step s e).
Proof.
  intros H. unfold step. case_match; [by apply handle_parses|].
  by apply (effects_parses (handle e s)), handle_parses.
Qed.

(** C10. In every state the page can reach, the amount that waits for
    an approval and the amount carried by every continuation that runs
    after an approval have been parsed once already: the [parseUnits] of
    [performStakeAfterApproval] never throws. *)
Theorem pending_amount_parses (t : Z) (s : State) :
  reachable step (initial t) s -> pending_parses s.
Proof.
  apply (reachable_invariant step pending_parses); [|by intros; apply step_parses].
  split; [done|]. by intros ? ? ?%elem_of_nil.
Qed.

Lemma pending_amount_parses_witness : pending_parses demo_approving.
Proof. apply (pending_amount_parses 1700000100000), reachable_run. Defined.
