(* ===== verification/ArenaFlow.v ===== *)
(** * The arena page: what is submitted, and when

    The write log of [Arena] against a specification by guarded commands:
    [submits s e req] says that event [e] in state [s] calls for the
    ledger write [req].  Every step appends to the log exactly the write
    its event calls for, and nothing when it calls for none; the guards of
    the stake (a fresh allowance reading that covers the amount), of the
    withdrawal and of the rollover are read off the relation. *)

From S2P Require Import Prelude Digits JsNumber Viem JsDouble Phase Contract Arena ArenaInv.

(** ** Definitions used by the statements *)

(** The request [stakeInk] submits for a parsed amount. *)
Definition stake_request (n : Z) : WriteRequest :=
  mkWrite FIVE_FACTION_ADDRESS "stakeInk" [ArgUint n] (Some 500000).

Definition withdraw_request (n : Z) : WriteRequest :=
  mkWrite FIVE_FACTION_ADDRESS "withdrawInk" [ArgUint n] None.

Definition mint_request (to : Address) (n : Z) : WriteRequest :=
  mkWrite MOCK_USDC_ADDRESS "mint" [ArgAddress to; ArgUint n] None.

(** The allowance a continuation sees after its awaited read. *)
Definition allowance_after (r : RefetchResult) (s : State) : option Z :=
  data_int (refetch_apply QUSDCAllowance r (cache s)) QUSDCAllowance.

(** The action button is on the page and enabled. *)
Definition action_enabled (s : State) : Prop :=
  shows_action s = true /\ isButtonDisabled s = false.

(** The guarded commands: the event, in this state, calls for this
    write. *)
Inductive submits (s : State) : Event -> WriteRequest -> Prop :=
| submits_join faction :
    action_enabled s -> authenticated s = true ->
    selectedFaction s = Some faction -> userClan s = clan_number NONE ->
    submits s ClickAction (joinClan faction)
| submits_stake amount r n :
    has_task (AwaitFreshAllowance amount) s = true ->
    parseUnits amount 6 = Some n ->
    allowance_covers (allowance_after r s) n = true ->
    submits s (Refetched (AwaitFreshAllowance amount) r) (stake_request n)
| submits_approve amount r n :
    has_task (AwaitFreshAllowance amount) s = true ->
    parseUnits amount 6 = Some n ->
    allowance_covers (allowance_after r s) n = false ->
    submits s (Refetched (AwaitFreshAllowance amount) r) approve
| submits_verified_stake pending r n :
    has_task (AwaitVerify pending) s = true ->
    parseUnits pending 6 = Some n ->
    allowance_covers (allowance_after r s) n = true ->
    submits s (Refetched (AwaitVerify pending) r) (stake_request n)
| submits_withdraw n :
    shows_withdraw s = true -> withdraw_disabled s = false ->
    parseUnits (withdrawAmount s) 6 = Some n ->
    submits s ClickWithdraw (withdraw_request n)
| submits_mint a :
    authenticated s = true -> hook_busy (mintH (hooks s)) = false ->
    walletAddress s = Some a -> truthy_string a = true ->
    submits s ClickMint (mint_request a 10000000000)
| submits_clear :
    canClear s = true -> hook_busy (clearH (hooks s)) = false ->
    submits s ClickClear clearCanvas.

(** The log after a handler: unchanged, or longer by one request that the
    event calls for. *)
Definition logged (s : State) (e : Event) (s' : State) : Prop :=
  writes s' = writes s \/
  exists req, submits s e req /\ writes s' = writes s ++ [req].

(** ** Requests *)

Lemma stakeInk_request (amount : string) :
  stakeInk amount = stake_request <$> parseUnits amount 6.
Proof. unfold stakeInk. by destruct (parseUnits amount 6). Qed.

Lemma withdrawInk_request (amount : string) :
  withdrawInk amount = withdraw_request <$> parseUnits amount 6.
Proof. unfold withdrawInk. by destruct (parseUnits amount 6). Qed.

Lemma mint_faucet (a : Address) : mint a "10000" = Some (mint_request a 10000000000).
Proof. by vm_compute. Qed.

(** ** The write log of one step *)

Lemma step_writes_handle (s : State) (e : Event) : writes (step s e) = writes (handle e s).
Proof. unfold step. destruct (is_time e); [done|]. exact (effects_writes _). Qed.

Lemma logged_same (s : State) (e : Event) (s' : State) :
  writes s' = writes s -> logged s e s'.
Proof. by left. Qed.

Lemma logged_one (s : State) (e : Event) (s' : State) (req : WriteRequest) :
  submits s e req -> writes s' = writes s ++ [req] -> logged s e s'.
Proof. right. by exists req. Qed.

Lemma handleAction_logged (s : State) :
  action_enabled s -> logged s ClickAction (handleAction s).
Proof.
  intros He. unfold handleAction. repeat case_match; try by apply logged_same.
  all: eapply logged_one; [|done]; apply submits_join; try done.
  all: try by destruct (authenticated s). all: by apply Z.eqb_eq.
Qed.

Lemma resumeAction_logged (s : State) (amount : string) (r : RefetchResult) :
  has_task (AwaitFreshAllowance amount) s = true ->
  logged s (Refetched (AwaitFreshAllowance amount) r)
    (resumeAction amount r (s <| tasks ::= remove_task (AwaitFreshAllowance amount) |>)).
Proof.
  intros Ht. unfold resumeAction. rewrite stakeInk_request.
  destruct (parseUnits amount 6) as [n|] eqn:Hn; [|by apply logged_same].
  destruct (allowance_covers _ n) eqn:Hc; (eapply logged_one; [|done]).
  - by apply submits_stake.
  - by eapply submits_approve.
Qed.

Lemma resumeVerify_logged (s : State) (pending : string) (r : RefetchResult) :
  has_task (AwaitVerify pending) s = true ->
  logged s (Refetched (AwaitVerify pending) r)
    (resumeVerify pending r (s <| tasks ::= remove_task (AwaitVerify pending) |>)).
Proof.
  intros Ht. unfold resumeVerify. rewrite stakeInk_request.
  destruct (parseUnits pending 6) as [n|] eqn:Hn; [|by apply logged_same].
  destruct (allowance_covers _ n) eqn:Hc; [|by apply logged_same].
  eapply logged_one; [|done]. by apply submits_verified_stake.
Qed.

Lemma handleWithdraw_logged (s : State) :
  shows_withdraw s = true -> withdraw_disabled s = false ->
  logged s ClickWithdraw (handleWithdraw s).
Proof.
  intros Hs Hd. unfold handleWithdraw. rewrite withdrawInk_request.
  destruct (amount_missing _); [by apply logged_same|].
  destruct (parseUnits _ 6) as [n|] eqn:Hn; [|by apply logged_same].
  eapply logged_one; [|done]. by apply submits_withdraw.
Qed.

Lemma handleMint_logged (s : State) :
  authenticated s = true -> hook_busy (mintH (hooks s)) = false ->
  logged s ClickMint (handleMint s).
Proof.
  intros Ha Hb. unfold handleMint. rewrite ?mint_faucet.
  destruct (walletAddress s) as [a|] eqn:Hw; [|by apply logged_same].
  rewrite mint_faucet. destruct (truthy_string a) eqn:Hta; [|by apply logged_same].
  eapply logged_one; [|done]. by eapply submits_mint.
Qed.

Lemma stake_onError_writes (m : string) (s : State) :
  writes (stake_onError m s) = writes s.
Proof. unfold stake_onError. by destruct (classify_stake_error m). Qed.

Lemma poll_writes (s : State) : writes (poll s) = writes s.
Proof. unfold poll. by repeat case_match. Qed.

Lemma effect_wallet_writes (s : State) : writes (effect_wallet s) = writes s.
Proof. unfold effect_wallet. by repeat case_match. Qed.

Lemma quickDeposit_writes (amount : string) (s : State) :
  writes (quickDeposit amount s) = writes s.
Proof. unfold quickDeposit. by case_match. Qed.

Lemma quickWithdraw_writes (percent : string) (s : State) :
  writes (quickWithdraw percent s) = writes s.
Proof. unfold quickWithdraw. by case_match. Qed.

(** Every handler appends to the log the write its event calls for, and
    nothing else. *)
Lemma handle_logged (s : State) (e : Event) : logged s e (handle e s).
Proof.
  destruct e; cbn beta iota delta [handle].
  all: repeat case_match; try (by apply logged_same); bool_to_prop.
  - apply logged_same. by rewrite quickDeposit_writes.
  - apply logged_same. by rewrite quickWithdraw_writes.
  - by apply handleAction_logged.
  - by apply handleWithdraw_logged.
  - by apply handleMint_logged.
  - eapply logged_one; [|done]. by apply submits_clear.
  - apply logged_same. by rewrite effect_wallet_writes.
  - apply logged_same. by rewrite stake_onError_writes.
  - by apply resumeAction_logged.
  - by apply resumeVerify_logged.
  - apply logged_same. by rewrite poll_writes.
Qed.

Lemma step_logged (s : State) (e : Event) : logged s e (step s e).
Proof.
  destruct (handle_logged s e) as [H|(req & Hs & H)].
  - apply logged_same. by rewrite step_writes_handle.
  - eapply logged_one; [done|]. by rewrite step_writes_handle.
Qed.

(** C4. Every step of the page appends to the write log exactly the
    ledger write that its event calls for in the state before it
    ([submits]), and leaves the log alone when the event calls for none:
    the effects and the render submit nothing. *)
Theorem step_submits (s : State) (e : Event) :
  writes (step s e) = writes s \/
  exists req, submits s e req /\ writes (step s e) = writes s ++ [req].
Proof. apply step_logged. Qed.

Lemma submits_functionName (s : State) (e : Event) (req : WriteRequest) :
  submits s e req -> wr_functionName req = "stakeInk" ->
  exists amount r n,
    (e = Refetched (AwaitFreshAllowance amount) r \/ e = Refetched (AwaitVerify amount) r) /\
    parseUnits amount 6 = Some n /\ req = stake_request n /\
    allowance_covers (allowance_after r s) n = true.
Proof. destruct 1; try done; intros _; eexists _, _, _; eauto. Qed.

Lemma logged_inv (s : State) (e : Event) (s' : State) (req : WriteRequest) :
  logged s e s' -> writes s' = writes s ++ [req] -> submits s e req.
Proof.
  intros [H|(req' & Hs & H)] H'; rewrite H in H'.
  - rewrite <- (app_nil_r (writes s)) in H' at 1. by apply app_inv_head in H'.
  - apply app_inv_head in H'. by simplify_eq.
Qed.

(** C1. A stake is submitted only by the continuation of an awaited
    allowance read, for the amount that continuation parsed, and only
    when the allowance just read is non-zero and covers that amount: the
    cached allowance of the render never decides it. *)
Theorem stake_needs_fresh_allowance (s : State) (e : Event) (req : WriteRequest) :
  writes (step s e) = writes s ++ [req] ->
  wr_functionName req = "stakeInk" ->
  exists amount r n,
    (e = Refetched (AwaitFreshAllowance amount) r \/ e = Refetched (AwaitVerify amount) r) /\
    parseUnits amount 6 = Some n /\ req = stake_request n /\
    allowance_covers (allowance_after r s) n = true.
Proof.
  intros Hw. eapply submits_functionName, logged_inv; [apply step_logged|done].
Qed.

Lemma stake_needs_fresh_allowance_witness :
  exists amount r n,
    (Refetched (AwaitFreshAllowance "250") (Fetched (DInt 250000000)) =
       Refetched (AwaitFreshAllowance amount) r \/
     Refetched (AwaitFreshAllowance "250") (Fetched (DInt 250000000)) =
       Refetched (AwaitVerify amount) r) /\
    parseUnits amount 6 = Some n /\ stake_request 250000000 = stake_request n /\
    allowance_covers (allowance_after r demo_awaiting) n = true.
Proof.
  apply (stake_needs_fresh_allowance demo_awaiting
           (Refetched (AwaitFreshAllowance "250") (Fetched (DInt 250000000)))
           (stake_request 250000000)); by vm_compute.
Defined.

(** C16. Every approval the page submits is the unlimited one: it asks
    the token to let the staking contract move up to 2^256 - 1
    micro-units, with a gas limit of 150000, whatever amount is being
    staked. *)
Theorem approval_is_unlimited (s : State) (e : Event) (req : WriteRequest) :
  writes (step s e) = writes s ++ [req] ->
  wr_functionName req = "approve" ->
  req = mkWrite MOCK_USDC_ADDRESS "approve"
          [ArgContract FIVE_FACTION_ADDRESS; ArgUint (2 ^ 256 - 1)] (Some 150000).
Proof.
  intros Hw Hf. assert (Hs : submits s e req)
    by (eapply logged_inv; [apply step_logged|done]).
  by destruct Hs.
Qed.

Lemma approval_is_unlimited_witness :
  approve = mkWrite MOCK_USDC_ADDRESS "approve"
              [ArgContract FIVE_FACTION_ADDRESS; ArgUint (2 ^ 256 - 1)] (Some 150000).
Proof.
  apply (approval_is_unlimited demo_awaiting
           (Refetched (AwaitFreshAllowance "250") (Fetched (DInt 0))) approve);
    by vm_compute.
Defined.

(** ** The guards suffice *)

Lemma no_faction_Some (f : Clan) : no_faction (Some f) = false -> f <> NONE.
Proof. by intros H ->. Qed.

(** What an enabled action button says of the state. *)
Lemma action_enabled_selected (s : State) :
  action_enabled s -> exists f, selectedFaction s = Some f /\ f <> NONE.
Proof.
  intros [Hs _]. unfold shows_action, selected in Hs. bool_to_prop.
  destruct (selectedFaction s) as [f|]; [|done]. exists f. eauto using no_faction_Some.
Qed.

Lemma action_enabled_stake (s : State) :
  action_enabled s -> authenticated s = true -> userClan s <> clan_number NONE ->
  amount_missing (depositAmount s) = false /\ inDepositPhase s = true /\
  hook_busy (approveH (hooks s)) = false /\ hook_busy (stakeH (hooks s)) = false.
Proof.
  intros He Ha Hc. destruct (action_enabled_selected s He) as (f & Hf & Hn).
  destruct He as [_ Hd]. unfold isButtonDisabled in Hd. rewrite Ha, Hf in Hd.
  apply Z.eqb_neq in Hc. rewrite Hc in Hd. destruct f; try done.
  all: simpl in Hd; repeat case_match; try done; by bool_to_prop.
Qed.

Lemma handle_ClickAction (s : State) :
  action_enabled s -> handle ClickAction s = handleAction s.
Proof. intros [Hs Hd]. cbn [handle]. by rewrite Hs, Hd. Qed.

Lemma handleAction_join (s : State) (f : Clan) :
  authenticated s = true -> selectedFaction s = Some f -> f <> NONE ->
  userClan s = clan_number NONE ->
  handleAction s = call_write HJoin (Some (joinClan f)) (s <| actionStep := joining |>).
Proof.
  intros Ha Hf Hn Hc. unfold handleAction. rewrite Ha, Hf, Hc. by destruct f.
Qed.

Lemma handleAction_stake (s : State) :
  action_enabled s -> authenticated s = true -> userClan s <> clan_number NONE ->
  handleAction s =
  spawn (AwaitFreshAllowance (depositAmount s)) (refetch QUSDCAllowance s).
Proof.
  intros He Ha Hc. destruct (action_enabled_selected s He) as (f & Hf & Hn).
  destruct (action_enabled_stake s He Ha Hc) as (Hm & _).
  unfold handleAction. apply Z.eqb_neq in Hc. rewrite Ha, Hf, Hc, Hm. by destruct f.
Qed.

Lemma handle_Refetched_fresh (s : State) (amount : string) (r : RefetchResult) :
  has_task (AwaitFreshAllowance amount) s = true ->
  handle (Refetched (AwaitFreshAllowance amount) r) s =
  resumeAction amount r (s <| tasks ::= remove_task (AwaitFreshAllowance amount) |>).
Proof. intros Ht. cbn [handle]. by rewrite Ht. Qed.

Lemma handle_Refetched_verify (s : State) (pending : string) (r : RefetchResult) :
  has_task (AwaitVerify pending) s = true ->
  handle (Refetched (AwaitVerify pending) r) s =
  resumeVerify pending r (s <| tasks ::= remove_task (AwaitVerify pending) |>).
Proof. intros Ht. cbn [handle]. by rewrite Ht. Qed.

Lemma resumeAction_covered (s : State) (amount : string) (r : RefetchResult) (n : Z) :
  parseUnits amount 6 = Some n -> allowance_covers (allowance_after r s) n = true ->
  resumeAction amount r s =
  call_write HStake (Some (stake_request n))
    (s <| cache ::= refetch_apply QUSDCAllowance r |> <| actionStep := staking |>).
Proof.
  intros Hn Hc. unfold resumeAction. rewrite stakeInk_request, Hn.
  unfold allowance_after in Hc. unfold allowance. state_simpl. by rewrite Hc.
Qed.

Lemma resumeAction_uncovered (s : State) (amount : string) (r : RefetchResult) (n : Z) :
  parseUnits amount 6 = Some n -> allowance_covers (allowance_after r s) n = false ->
  resumeAction amount r s =
  call_write HApprove (Some approve)
    (s <| cache ::= refetch_apply QUSDCAllowance r |> <| actionStep := approving |>
       <| pendingStakeAmount := Some amount |>).
Proof.
  intros Hn Hc. unfold resumeAction. rewrite Hn.
  unfold allowance_after in Hc. unfold allowance. state_simpl. by rewrite Hc.
Qed.

Lemma resumeVerify_covered (s : State) (pending : string) (r : RefetchResult) (n : Z) :
  parseUnits pending 6 = Some n -> allowance_covers (allowance_after r s) n = true ->
  resumeVerify pending r s =
  (call_write HStake (Some (stake_request n))
     (reset HApprove (s <| cache ::= refetch_apply QUSDCAllowance r |>)
        <| actionStep := staking |>))
  <| pendingStakeAmount := None |>.
Proof.
  intros Hn Hc. unfold resumeVerify. rewrite stakeInk_request, Hn.
  unfold allowance_after in Hc. unfold allowance. state_simpl. by rewrite Hc.
Qed.

Lemma resumeVerify_uncovered (s : State) (pending : string) (r : RefetchResult) (n : Z) :
  parseUnits pending 6 = Some n -> allowance_covers (allowance_after r s) n = false ->
  resumeVerify pending r s =
  (reset HApprove
     (console_error "Allowance verification failed after approval. Please try again."
        (s <| cache ::= refetch_apply QUSDCAllowance r |>)))
  <| actionStep := idle |> <| pendingStakeAmount := None |>.
Proof.
  intros Hn Hc. unfold resumeVerify. rewrite Hn.
  unfold allowance_after in Hc. unfold allowance. state_simpl. by rewrite Hc.
Qed.

Lemma handleWithdraw_submits (s : State) (n : Z) :
  withdraw_disabled s = false -> parseUnits (withdrawAmount s) 6 = Some n ->
  handleWithdraw s =
  call_write HWithdraw (Some (withdraw_request n)) (s <| actionStep := withdrawing |>).
Proof.
  intros Hd Hn. unfold withdraw_disabled in Hd. bool_to_prop.
  unfold handleWithdraw. by rewrite withdrawInk_request, Hn, H0.
Qed.

Lemma handle_submits (s : State) (e : Event) (req : WriteRequest) :
  submits s e req -> writes (handle e s) = writes s ++ [req].
Proof.
  destruct 1 as [f He Ha Hf Hc|a r n Ht Hn Hc|a r n Ht Hn Hc|a r n Ht Hn Hc
                |n Hs Hd Hn|a Ha Hb Hw Ht|Hc Hb].
  - destruct (action_enabled_selected s He) as (f' & Hf' & Hne).
    rewrite handle_ClickAction by done. rewrite Hf in Hf'. injection Hf' as <-.
    by rewrite (handleAction_join s f).
  - rewrite handle_Refetched_fresh by done. by erewrite resumeAction_covered.
  - rewrite handle_Refetched_fresh by done. by erewrite resumeAction_uncovered.
  - rewrite handle_Refetched_verify by done. by erewrite resumeVerify_covered.
  - cbn [handle]. rewrite Hs, Hd. cbn [negb andb]. by erewrite handleWithdraw_submits.
  - cbn [handle]. rewrite Ha, Hb. cbn [negb andb]. unfold handleMint.
    by rewrite Hw, Ht, mint_faucet.
  - cbn [handle]. by rewrite Hc, Hb.
Qed.

(** C9. The guards suffice: whenever an event calls for a write in the
    state before it, the step submits that write, once, at the end of
    the log. *)
Theorem submitted_when_called_for (s : State) (e : Event) (req : WriteRequest) :
  submits s e req -> writes (step s e) = writes s ++ [req].
Proof. intros H. rewrite step_writes_handle. by apply handle_submits. Qed.

Lemma submitted_when_called_for_witness :
  writes (step demo_awaiting (Refetched (AwaitFreshAllowance "250") (Fetched (DInt 0)))) =
  writes demo_awaiting ++ [approve].
Proof.
  apply submitted_when_called_for.
  apply (submits_approve _ "250" (Fetched (DInt 0)) 250000000); by vm_compute.
Defined.
