(* ===== verification/ArenaComposite.v ===== *)
(** * The arena page: the events of the composite operations

    The approve-then-stake composite of [Arena], event by event: each
    lemma gives the state after one event in a settled state as field
    updates of the state before it, under the conditions that make the
    event take that branch. *)

From S2P Require Import Prelude Digits JsNumber Viem JsDouble Phase Contract Arena ArenaInv ArenaFlow.

(** ** One event in a settled state *)

Lemma step_render (s : State) (e : Event) :
  is_time e = false -> step s e = render (effects (handle e s)).
Proof. unfold step. by intros ->. Qed.

Lemma step_settled_handle (s : State) (e : Event) :
  is_time e = false -> settled (handle e s) -> step s e = render (handle e s).
Proof. intros He Hs. by rewrite step_render, effects_id. Qed.

(** Time passes: nothing runs and nothing is rendered. *)
Lemma step_Time (s : State) (t : Z) :
  step s (Time t) = s <| clock := Z.max (clock s) t |>.
Proof. done. Qed.

(** The approve effect when the approval has not succeeded, and when it
    has and the dependencies on record say otherwise. *)
Lemma effect_approve_not_success (s : State) :
  isSuccess (approveH (hooks s)) = false ->
  effect_approve s = s <| approveDeps := (false, pendingStakeAmount s) |>.
Proof. intros H. unfold effect_approve. rewrite H. by repeat case_match. Qed.

Lemma effect_approve_success (s : State) (pending : string) :
  isSuccess (approveH (hooks s)) = true -> pendingStakeAmount s = Some pending ->
  truthy_string pending = true -> approveDeps s <> (true, Some pending) ->
  effect_approve s =
  spawn (AwaitSettle (clock s + SETTLE_DELAY) pending)
    (s <| approveDeps := (true, Some pending) |>).
Proof.
  intros H Hp Ht Hd. unfold effect_approve. rewrite H, Hp, Ht.
  by rewrite decide_False by done.
Qed.

(** When one hook other than the approval has succeeded, only its effect
    runs. *)
Lemma effects_only (w : HookId) (s : State) :
  w <> HApprove ->
  (forall w', w' <> HApprove -> w' <> w -> quiet w' s) -> deps_seen s ->
  isSuccess (hook w (hooks s)) = true ->
  effects s = effect_of w s.
Proof.
  intros Hw Hq Hd Hs. unfold effects.
  assert (Hj := Hq HJoin). assert (Hk := Hq HStake). assert (Hx := Hq HWithdraw).
  assert (Hm := Hq HMint). assert (Hc := Hq HClear). unfold quiet in *.
  unfold effect_join, effect_stake, effect_withdraw, effect_mint, effect_clear.
  destruct w; [done|..]; cbn [hook effect_of] in *;
    unfold effect_join, effect_stake, effect_withdraw, effect_mint, effect_clear;
    rewrite ?Hs, ?Hj by done;
    (rewrite effect_approve_id by exact Hd);
    do 4 (state_simpl; rewrite ?Hs, ?Hk, ?Hx, ?Hm, ?Hc by done); done.
Qed.

(** ** Tasks *)

Lemma has_task_last (t : Task) (s : State) (l : list Task) :
  tasks s = l ++ [t] -> has_task t s = true.
Proof.
  intros H. unfold has_task. rewrite H. apply bool_decide_eq_true.
  apply elem_of_app. right. by left.
Qed.

Lemma has_task_spawn (t : Task) (s : State) : has_task t (render (spawn t s)) = true.
Proof. by eapply has_task_last. Qed.

Lemma has_task_added (t : Task) (s s' : State) :
  tasks s' = tasks (spawn t s) -> has_task t s' = true.
Proof. intros H. eapply has_task_last. by rewrite H. Qed.

(** ** The hooks of a wallet answer *)

Lemma hook_submitted_isSuccess (h : Hash) (x : WriteStatus) :
  isSuccess (hook_submitted h x) = isSuccess x.
Proof. by destruct x. Qed.

Lemma settled_submitted (s : State) (w : HookId) (h : Hash) :
  settled s -> settled (s <| hooks ::= hook_update w (hook_submitted h) |>).
Proof.
  intros [Hq Hd]. split.
  - intros w' Hw'. specialize (Hq w' Hw'). unfold quiet in *. state_simpl.
    destruct (decide (w = w')) as [->|].
    + by rewrite hook_update_same, hook_submitted_isSuccess.
    + by rewrite hook_update_other.
  - unfold deps_seen in *. state_simpl. rewrite Hd. f_equal.
    destruct w; state_simpl; by rewrite ?hook_submitted_isSuccess.
Qed.

(** The wallet accepted a request: the hook waits for the receipt. *)
Lemma step_submitted (s : State) (w : HookId) (h : Hash) :
  settled s ->
  step s (Wallet w (Submitted h)) =
  render (s <| hooks ::= hook_update w (hook_submitted h) |>).
Proof. intros Hs. apply step_settled_handle; [done|]. by apply settled_submitted. Qed.

Lemma settled_call_write (s : State) (w : HookId) (req : WriteRequest) :
  w <> HApprove -> settled s -> settled (call_write w (Some req) s).
Proof.
  intros Hw [Hq Hd]. split.
  - intros w' Hw'. specialize (Hq w' Hw'). unfold quiet in *. state_simpl.
    destruct (decide (w = w')) as [->|].
    + by rewrite hook_update_same.
    + by rewrite hook_update_other.
  - unfold deps_seen in *. state_simpl. rewrite Hd. by destruct w.
Qed.

Lemma quiet_call_approve (s : State) (w : HookId) :
  w <> HApprove -> quiet w s -> quiet w (call_write HApprove (Some approve) s).
Proof. intros Hw Hq. unfold quiet in *. by destruct w. Qed.

(** ** The events of the composite *)

Section Steps.
Variable s : State.
Hypothesis Hsettled : settled s.

(** A receipt confirms the write of hook [w]: its effect runs, alone. *)
Lemma receipt_confirmed (w : HookId) (h : Hash) :
  w <> HApprove -> hook w (hooks s) = WConfirming h ->
  step s (Receipt w true) =
  render (effect_of w (s <| hooks ::= hook_update w hook_receipt |>)).
Proof.
  intros Hw Hh. rewrite step_render by done. cbn [handle].
  destruct Hsettled as [Hq Hd]. rewrite (effects_only w); try done.
  - intros w' Hw' Hne. specialize (Hq w' Hw'). unfold quiet in *. state_simpl.
    by rewrite hook_update_other.
  - unfold deps_seen in *. state_simpl. by destruct w.
  - state_simpl. by rewrite hook_update_same, Hh.
Qed.

(** The click: the handler refetches the allowance and waits. *)
Lemma click_action_awaits :
  action_enabled s -> authenticated s = true -> userClan s <> clan_number NONE ->
  step s ClickAction =
  render (spawn (AwaitFreshAllowance (depositAmount s)) (refetch QUSDCAllowance s)).
Proof.
  intros He Ha Hc.
  assert (H : handle ClickAction s = handleAction s) by by apply handle_ClickAction.
  rewrite handleAction_stake in H by done.
  rewrite step_settled_handle; by rewrite ?H.
Qed.

(** The fresh allowance covers the amount: the stake is submitted. *)
Lemma fresh_covered (amount : string) (r : RefetchResult) (n : Z) :
  has_task (AwaitFreshAllowance amount) s = true ->
  parseUnits amount 6 = Some n -> allowance_covers (allowance_after r s) n = true ->
  step s (Refetched (AwaitFreshAllowance amount) r) =
  render (call_write HStake (Some (stake_request n))
    (answered r (s <| tasks ::= remove_task (AwaitFreshAllowance amount) |>)
       <| actionStep := staking |>)).
Proof.
  intros Ht Hn Hc.
  assert (H := handle_Refetched_fresh s amount r Ht).
  erewrite resumeAction_covered in H by done.
  rewrite step_settled_handle; rewrite ?H; try done.
  by apply settled_call_write.
Qed.

(** It does not: the approval is submitted and the amount is kept. *)
Lemma fresh_uncovered (amount : string) (r : RefetchResult) (n : Z) :
  has_task (AwaitFreshAllowance amount) s = true ->
  parseUnits amount 6 = Some n -> allowance_covers (allowance_after r s) n = false ->
  step s (Refetched (AwaitFreshAllowance amount) r) =
  render ((call_write HApprove (Some approve)
    (answered r (s <| tasks ::= remove_task (AwaitFreshAllowance amount) |>)
       <| actionStep := approving |> <| pendingStakeAmount := Some amount |>))
    <| approveDeps := (false, Some amount) |>).
Proof.
  intros Ht Hn Hc. rewrite step_render, handle_Refetched_fresh by done.
  erewrite resumeAction_uncovered by done.
  rewrite effects_approve_only, effect_approve_not_success; try done.
  intros w Hw. apply quiet_call_approve; [done|]. by apply Hsettled.
Qed.

(** The approval is confirmed: the settle timer starts. *)
Lemma receipt_approve (h : Hash) (pending : string) :
  approveH (hooks s) = WConfirming h -> pendingStakeAmount s = Some pending ->
  truthy_string pending = true ->
  step s (Receipt HApprove true) =
  render (spawn (AwaitSettle (clock s + SETTLE_DELAY) pending)
    (s <| hooks ::= hook_update HApprove hook_receipt |>
       <| approveDeps := (true, Some pending) |>)).
Proof.
  intros Hh Hp Ht. rewrite step_render by done. cbn [handle].
  destruct Hsettled as [Hq Hd]. unfold deps_seen in Hd. rewrite Hh, Hp in Hd.
  rewrite effects_approve_only.
  - rewrite (effect_approve_success _ pending); state_simpl; try done;
      by rewrite ?Hh, ?Hd.
  - intros w Hw. specialize (Hq w Hw). unfold quiet in *. by destruct w.
Qed.

(** The timer fires when it is due: the allowance is read again. *)
Lemma timer_fires (due : Z) (pending : string) :
  has_task (AwaitSettle due pending) s = true -> due <= clock s ->
  step s (Timer (AwaitSettle due pending)) =
  render (spawn (AwaitVerify pending)
    (refetch QUSDCAllowance (s <| tasks ::= remove_task (AwaitSettle due pending) |>))).
Proof.
  intros Ht Hc. apply Z.leb_le in Hc.
  assert (H : handle (Timer (AwaitSettle due pending)) s =
              resumeSettle pending (s <| tasks ::= remove_task (AwaitSettle due pending) |>))
    by (cbn [handle]; by rewrite Ht, Hc).
  rewrite step_settled_handle; by rewrite ?H.
Qed.

(** The second read covers the amount: the stake is submitted. *)
Lemma verify_covered (pending : string) (r : RefetchResult) (n : Z) :
  has_task (AwaitVerify pending) s = true ->
  parseUnits pending 6 = Some n -> allowance_covers (allowance_after r s) n = true ->
  step s (Refetched (AwaitVerify pending) r) =
  render (((call_write HStake (Some (stake_request n))
     (reset HApprove (answered r (s <| tasks ::= remove_task (AwaitVerify pending) |>))
        <| actionStep := staking |>))
    <| pendingStakeAmount := None |>) <| approveDeps := (false, None) |>).
Proof.
  intros Ht Hn Hc. rewrite step_render, handle_Refetched_verify by done.
  erewrite resumeVerify_covered by done.
  rewrite effects_approve_only, effect_approve_not_success; try done.
  intros w Hw. assert (Hq := proj1 Hsettled w Hw). unfold quiet in *. by destruct w.
Qed.

(** It does not: no stake; the failure is logged and the page is idle. *)
Lemma verify_uncovered (pending : string) (r : RefetchResult) (n : Z) :
  has_task (AwaitVerify pending) s = true ->
  parseUnits pending 6 = Some n -> allowance_covers (allowance_after r s) n = false ->
  step s (Refetched (AwaitVerify pending) r) =
  render (((reset HApprove
     (console_error "Allowance verification failed after approval. Please try again."
        (answered r (s <| tasks ::= remove_task (AwaitVerify pending) |>))))
    <| actionStep := idle |> <| pendingStakeAmount := None |>)
    <| approveDeps := (false, None) |>).
Proof.
  intros Ht Hn Hc. rewrite step_render, handle_Refetched_verify by done.
  erewrite resumeVerify_uncovered by done.
  rewrite effects_approve_only, effect_approve_not_success; try done.
  intros w Hw. assert (Hq := proj1 Hsettled w Hw). unfold quiet in *. by destruct w.
Qed.

(** The stake is confirmed: the snapshots are refetched, the amount field
    is cleared and the page is idle. *)
Lemma receipt_stake (h : Hash) :
  stakeH (hooks s) = WConfirming h ->
  step s (Receipt HStake true) =
  render (effect_stake (s <| hooks ::= hook_update HStake hook_receipt |>)).
Proof.
  intros Hh. apply (receipt_confirmed HStake h); by rewrite ?Hh.
Qed.

(** The join is confirmed: the warrior is refetched and the page is
    idle. *)
Lemma receipt_join (h : Hash) :
  joinH (hooks s) = WConfirming h ->
  step s (Receipt HJoin true) =
  render (effect_join (s <| hooks ::= hook_update HJoin hook_receipt |>)).
Proof. intros Hh. apply (receipt_confirmed HJoin h); by rewrite ?Hh. Qed.

(** The withdrawal is confirmed: the snapshots are refetched, the amount
    field is cleared and the page is idle. *)
Lemma receipt_withdraw (h : Hash) :
  withdrawH (hooks s) = WConfirming h ->
  step s (Receipt HWithdraw true) =
  render (effect_withdraw (s <| hooks ::= hook_update HWithdraw hook_receipt |>)).
Proof. intros Hh. apply (receipt_confirmed HWithdraw h); by rewrite ?Hh. Qed.

(** The join button: the request is submitted at once. *)
Lemma click_action_joins (f : Clan) :
  action_enabled s -> authenticated s = true -> selectedFaction s = Some f ->
  userClan s = clan_number NONE ->
  step s ClickAction =
  render (call_write HJoin (Some (joinClan f)) (s <| actionStep := joining |>)).
Proof.
  intros He Ha Hf Hc. destruct (action_enabled_selected s He) as (f' & Hf' & Hn).
  rewrite Hf in Hf'. injection Hf' as <-.
  assert (H : handle ClickAction s = handleAction s) by by apply handle_ClickAction.
  rewrite (handleAction_join s f) in H by done.
  rewrite step_settled_handle; rewrite ?H; try done.
  by apply settled_call_write.
Qed.

(** The withdraw button. *)
Lemma click_withdraw_submits (n : Z) :
  shows_withdraw s = true -> withdraw_disabled s = false ->
  parseUnits (withdrawAmount s) 6 = Some n ->
  step s ClickWithdraw =
  render (call_write HWithdraw (Some (withdraw_request n))
            (s <| actionStep := withdrawing |>)).
Proof.
  intros Hs Hd Hn.
  assert (H : handle ClickWithdraw s = handleWithdraw s)
    by (cbn [handle]; by rewrite Hs, Hd).
  rewrite (handleWithdraw_submits s n) in H by done.
  rewrite step_settled_handle; rewrite ?H; try done.
  by apply settled_call_write.
Qed.

(** The poller: when the interval has run out, the three public
    snapshots are refetched, and the allowance when a wallet is
    connected; otherwise nothing happens. *)
Lemma tick_polls :
  step s Tick =
  render (if nextTick s <=? clock s
          then poll (s <| nextTick := clock s + POLL_INTERVAL |>) else s).
Proof.
  apply step_settled_handle; [done|]. cbn [handle]. case_match; [|done].
  unfold poll. by repeat case_match.
Qed.

(** The settle timer does nothing before it is due. *)
Lemma timer_waits (due : Z) (pending : string) :
  clock s < due -> step s (Timer (AwaitSettle due pending)) = render s.
Proof.
  intros Hc%Z.leb_gt.
  assert (H : handle (Timer (AwaitSettle due pending)) s = s)
    by (cbn [handle]; by rewrite Hc, andb_false_r).
  rewrite step_settled_handle; by rewrite ?H.
Qed.

End Steps.
