(* ===== verification/ArenaRuns.v ===== *)
(** * The arena page: runs of the composite operations

    What a run of [Arena] shows of itself: [obs] projects a state on the
    cells, hooks, tasks, clock, cache and logs that the composite
    operations read and write.  Each event of the approve-then-stake
    composite acts on the observation alone; the runs are chained on
    observations, from the click on the action button to the confirmation
    of the stake, for the three outcomes of the two allowance reads:
    approval then stake, stake without approval, and a verification that
    fails. *)

From S2P Require Import Prelude Digits JsNumber Viem JsDouble Phase Contract Arena ArenaInv ArenaFlow ArenaComposite.

(** ** Definitions used by the statements *)

Record Obs := mkObs {
  o_actionStep : ActionStep;
  o_depositAmount : string;
  o_withdrawAmount : string;
  o_pending : option string;
  o_hooks : Hooks;
  o_tasks : list Task;
  o_clock : Z;
  o_cache : Cache;
  o_writes : list WriteRequest;
  o_refetches : list QueryId;
  o_console : list string;
}.

Definition obs (s : State) : Obs :=
  mkObs (actionStep s) (depositAmount s) (withdrawAmount s) (pendingStakeAmount s)
    (hooks s) (tasks s) (clock s) (cache s) (writes s) (refetches s) (console s).

#[export] Instance set_o_actionStep : Setter o_actionStep := fun f o =>
  mkObs (f (o_actionStep o)) (o_depositAmount o) (o_withdrawAmount o) (o_pending o)
    (o_hooks o) (o_tasks o) (o_clock o) (o_cache o) (o_writes o) (o_refetches o)
    (o_console o).

#[export] Instance set_o_depositAmount : Setter o_depositAmount := fun f o =>
  mkObs (o_actionStep o) (f (o_depositAmount o)) (o_withdrawAmount o) (o_pending o)
    (o_hooks o) (o_tasks o) (o_clock o) (o_cache o) (o_writes o) (o_refetches o)
    (o_console o).

#[export] Instance set_o_withdrawAmount : Setter o_withdrawAmount := fun f o =>
  mkObs (o_actionStep o) (o_depositAmount o) (f (o_withdrawAmount o)) (o_pending o)
    (o_hooks o) (o_tasks o) (o_clock o) (o_cache o) (o_writes o) (o_refetches o)
    (o_console o).

#[export] Instance set_o_pending : Setter o_pending := fun f o =>
  mkObs (o_actionStep o) (o_depositAmount o) (o_withdrawAmount o) (f (o_pending o))
    (o_hooks o) (o_tasks o) (o_clock o) (o_cache o) (o_writes o) (o_refetches o)
    (o_console o).

#[export] Instance set_o_hooks : Setter o_hooks := fun f o =>
  mkObs (o_actionStep o) (o_depositAmount o) (o_withdrawAmount o) (o_pending o)
    (f (o_hooks o)) (o_tasks o) (o_clock o) (o_cache o) (o_writes o) (o_refetches o)
    (o_console o).

#[export] Instance set_o_tasks : Setter o_tasks := fun f o =>
  mkObs (o_actionStep o) (o_depositAmount o) (o_withdrawAmount o) (o_pending o)
    (o_hooks o) (f (o_tasks o)) (o_clock o) (o_cache o) (o_writes o) (o_refetches o)
    (o_console o).

#[export] Instance set_o_clock : Setter o_clock := fun f o =>
  mkObs (o_actionStep o) (o_depositAmount o) (o_withdrawAmount o) (o_pending o)
    (o_hooks o) (o_tasks o) (f (o_clock o)) (o_cache o) (o_writes o) (o_refetches o)
    (o_console o).

#[export] Instance set_o_cache : Setter o_cache := fun f o =>
  mkObs (o_actionStep o) (o_depositAmount o) (o_withdrawAmount o) (o_pending o)
    (o_hooks o) (o_tasks o) (o_clock o) (f (o_cache o)) (o_writes o) (o_refetches o)
    (o_console o).

#[export] Instance set_o_writes : Setter o_writes := fun f o =>
  mkObs (o_actionStep o) (o_depositAmount o) (o_withdrawAmount o) (o_pending o)
    (o_hooks o) (o_tasks o) (o_clock o) (o_cache o) (f (o_writes o)) (o_refetches o)
    (o_console o).

#[export] Instance set_o_refetches : Setter o_refetches := fun f o =>
  mkObs (o_actionStep o) (o_depositAmount o) (o_withdrawAmount o) (o_pending o)
    (o_hooks o) (o_tasks o) (o_clock o) (o_cache o) (o_writes o) (f (o_refetches o))
    (o_console o).

#[export] Instance set_o_console : Setter o_console := fun f o =>
  mkObs (o_actionStep o) (o_depositAmount o) (o_withdrawAmount o) (o_pending o)
    (o_hooks o) (o_tasks o) (o_clock o) (o_cache o) (o_writes o) (o_refetches o)
    (f (o_console o)).

(** The allowance read back from a cache after the answer [r]. *)
Definition allowance_read (r : RefetchResult) (c : Cache) : option Z :=
  data_int (refetch_apply QUSDCAllowance r c) QUSDCAllowance.

(** What the confirmation of a stake refetches, in the order of the
    source. *)
Definition stake_refresh : list QueryId :=
  [QUSDCBalance; QWarriorInfo; QAllClanTVLs; QAllScores; QTotalTVL; QUSDCAllowance].

(** What the confirmation of a withdrawal refetches. *)
Definition withdraw_refresh : list QueryId :=
  [QUSDCBalance; QWarriorInfo; QAllClanTVLs; QAllScores; QTotalTVL].

(** What a tick of the poller refetches. *)
Definition poll_queries (walletAddress : option Address) : list QueryId :=
  [QTimeUntilCanvasClears; QAllClanTVLs; QAllScores] ++
  match walletAddress with
  | Some a => if truthy_string a then [QUSDCAllowance] else []
  | None => []
  end.

(** The events of a join and of a withdrawal, submitted as [h] and
    confirmed. *)
Definition join_events (h : Hash) : list Event :=
  [ClickAction; Wallet HJoin (Submitted h); Receipt HJoin true].

Definition withdraw_events (h : Hash) : list Event :=
  [ClickWithdraw; Wallet HWithdraw (Submitted h); Receipt HWithdraw true].

(** A wallet without a clan that has selected one, and the page of the
    example on the withdraw tab with 50 typed. *)
Definition demo_newcomer : State :=
  run step (initial 1700000100000)
    [Connect (Some "0xB0B");
     Answer QEpochStartTime (DInt 1700000000);
     Answer QDepositPhaseDuration (DInt 172800);
     Answer QWarriorInfo (DWarrior 0 0 0 0);
     ClickFaction SPIRIT].

Definition demo_withdrawing : State :=
  run step (initial 1700000100000) (demo_events ++ [ClickTab false; TypeWithdraw "50"]).

(** The page is ready for a stake of [amount], which parses to [n]: the
    wallet is connected and has a clan, the action button is shown and
    enabled, and every effect has run. *)
Definition stake_ready (s : State) (amount : string) (n : Z) : Prop :=
  settled s /\ action_enabled s /\ authenticated s = true /\
  userClan s <> clan_number NONE /\
  depositAmount s = amount /\ parseUnits amount 6 = Some n.

(** The events of a stake that needs an approval: the click, the fresh
    read [r0], the approval submitted as [h] and confirmed, the settle
    timer due at [due] and fired at [t], the second read [r1]. *)
Definition approval_events (amount : string) (r0 r1 : RefetchResult) (h : Hash)
    (due t : Z) : list Event :=
  [ClickAction; Refetched (AwaitFreshAllowance amount) r0;
   Wallet HApprove (Submitted h); Receipt HApprove true;
   Time t; Timer (AwaitSettle due amount); Refetched (AwaitVerify amount) r1].

(** The events of a stake that needs none. *)
Definition direct_events (amount : string) (r0 : RefetchResult) : list Event :=
  [ClickAction; Refetched (AwaitFreshAllowance amount) r0].

(** The stake submitted as [h] and confirmed. *)
Definition stake_events (h : Hash) : list Event :=
  [Wallet HStake (Submitted h); Receipt HStake true].

(** ** One event on the observation *)

Ltac obs_simpl :=
  cbn [o_actionStep o_depositAmount o_withdrawAmount o_pending o_hooks o_tasks
       o_clock o_cache o_writes o_refetches o_console
       set set_o_actionStep set_o_depositAmount set_o_withdrawAmount set_o_pending
       set_o_hooks set_o_tasks set_o_clock set_o_cache set_o_writes set_o_refetches
       set_o_console hook hook_update approveH joinH stakeH withdrawH mintH clearH
       hook_call hook_reset hook_submitted hook_rejected hook_receipt
       hook_receipt_failed isSuccess isPending isConfirming] in *.

Lemma has_task_elem (t : Task) (s : State) : t ∈ tasks s -> has_task t s = true.
Proof. intros. by apply bool_decide_eq_true. Qed.

Section ObsSteps.
Variables (s : State) (o : Obs).
Hypothesis Hsettled : settled s.
Hypothesis Hobs : obs s = o.

Lemma obs_click :
  action_enabled s -> authenticated s = true -> userClan s <> clan_number NONE ->
  obs (step s ClickAction) =
  o <| o_tasks ::= fun l => l ++ [AwaitFreshAllowance (o_depositAmount o)] |>
    <| o_refetches ::= fun l => l ++ [QUSDCAllowance] |>.
Proof. intros. subst o. by rewrite click_action_awaits. Qed.

Lemma obs_fresh_covered (amount : string) (r : RefetchResult) (n : Z) :
  AwaitFreshAllowance amount ∈ o_tasks o -> parseUnits amount 6 = Some n ->
  allowance_covers (allowance_read r (o_cache o)) n = true ->
  obs (step s (Refetched (AwaitFreshAllowance amount) r)) =
  o <| o_tasks ::= remove_task (AwaitFreshAllowance amount) |>
    <| o_cache ::= refetch_apply QUSDCAllowance r |>
    <| o_actionStep := staking |>
    <| o_writes ::= fun l => l ++ [stake_request n] |>
    <| o_hooks ::= hook_update HStake hook_call |>.
Proof.
  intros Ht Hn Hc. subst o.
  by rewrite (fresh_covered s Hsettled amount r n) by auto using has_task_elem.
Qed.

Lemma obs_fresh_uncovered (amount : string) (r : RefetchResult) (n : Z) :
  AwaitFreshAllowance amount ∈ o_tasks o -> parseUnits amount 6 = Some n ->
  allowance_covers (allowance_read r (o_cache o)) n = false ->
  obs (step s (Refetched (AwaitFreshAllowance amount) r)) =
  o <| o_tasks ::= remove_task (AwaitFreshAllowance amount) |>
    <| o_cache ::= refetch_apply QUSDCAllowance r |>
    <| o_actionStep := approving |> <| o_pending := Some amount |>
    <| o_writes ::= fun l => l ++ [approve] |>
    <| o_hooks ::= hook_update HApprove hook_call |>.
Proof.
  intros Ht Hn Hc. subst o.
  by rewrite (fresh_uncovered s Hsettled amount r n) by auto using has_task_elem.
Qed.

Lemma obs_submitted (w : HookId) (h : Hash) :
  obs (step s (Wallet w (Submitted h))) =
  o <| o_hooks ::= hook_update w (hook_submitted h) |>.
Proof. subst o. by rewrite step_submitted. Qed.

Lemma obs_receipt_approve (h : Hash) (pending : string) :
  approveH (o_hooks o) = WConfirming h -> o_pending o = Some pending ->
  truthy_string pending = true ->
  obs (step s (Receipt HApprove true)) =
  o <| o_hooks ::= hook_update HApprove hook_receipt |>
    <| o_tasks ::= fun l => l ++ [AwaitSettle (o_clock o + SETTLE_DELAY) pending] |>.
Proof.
  intros Hh Hp Ht. subst o. by rewrite (receipt_approve s Hsettled h pending).
Qed.

Lemma obs_time (t : Z) :
  obs (step s (Time t)) = o <| o_clock ::= fun c => Z.max c t |>.
Proof. by subst o. Qed.

Lemma obs_timer (due : Z) (pending : string) :
  AwaitSettle due pending ∈ o_tasks o -> due <= o_clock o ->
  obs (step s (Timer (AwaitSettle due pending))) =
  o <| o_tasks ::= fun l => remove_task (AwaitSettle due pending) l ++ [AwaitVerify pending] |>
    <| o_refetches ::= fun l => l ++ [QUSDCAllowance] |>.
Proof.
  intros Ht Hd. subst o.
  by rewrite (timer_fires s Hsettled due pending) by auto using has_task_elem.
Qed.

Lemma obs_verify_covered (pending : string) (r : RefetchResult) (n : Z) :
  AwaitVerify pending ∈ o_tasks o -> parseUnits pending 6 = Some n ->
  allowance_covers (allowance_read r (o_cache o)) n = true ->
  obs (step s (Refetched (AwaitVerify pending) r)) =
  o <| o_tasks ::= remove_task (AwaitVerify pending) |>
    <| o_cache ::= refetch_apply QUSDCAllowance r |>
    <| o_hooks ::= hook_update HApprove hook_reset |>
    <| o_actionStep := staking |> <| o_pending := None |>
    <| o_writes ::= fun l => l ++ [stake_request n] |>
    <| o_hooks ::= hook_update HStake hook_call |>.
Proof.
  intros Ht Hn Hc. subst o.
  by rewrite (verify_covered s Hsettled pending r n) by auto using has_task_elem.
Qed.

Lemma obs_verify_uncovered (pending : string) (r : RefetchResult) (n : Z) :
  AwaitVerify pending ∈ o_tasks o -> parseUnits pending 6 = Some n ->
  allowance_covers (allowance_read r (o_cache o)) n = false ->
  obs (step s (Refetched (AwaitVerify pending) r)) =
  o <| o_tasks ::= remove_task (AwaitVerify pending) |>
    <| o_cache ::= refetch_apply QUSDCAllowance r |>
    <| o_console ::= fun l =>
         l ++ ["Allowance verification failed after approval. Please try again."] |>
    <| o_hooks ::= hook_update HApprove hook_reset |>
    <| o_actionStep := idle |> <| o_pending := None |>.
Proof.
  intros Ht Hn Hc. subst o.
  by rewrite (verify_uncovered s Hsettled pending r n) by auto using has_task_elem.
Qed.

Lemma obs_receipt_stake (h : Hash) :
  stakeH (o_hooks o) = WConfirming h ->
  obs (step s (Receipt HStake true)) =
  o <| o_hooks ::= hook_update HStake hook_reset |>
    <| o_refetches ::= fun l => l ++ stake_refresh |>
    <| o_depositAmount := "" |> <| o_actionStep := idle |>.
Proof.
  intros Hh. subst o. cbn [obs o_hooks] in Hh. rewrite (receipt_stake s Hsettled h Hh).
  unfold effect_stake, obs. state_simpl. rewrite Hh. state_simpl. obs_simpl.
  unfold stake_refresh. f_equal. by rewrite <- !app_assoc.
Qed.

Lemma obs_click_join (f : Clan) :
  action_enabled s -> authenticated s = true -> selectedFaction s = Some f ->
  userClan s = clan_number NONE ->
  obs (step s ClickAction) =
  o <| o_actionStep := joining |> <| o_writes ::= fun l => l ++ [joinClan f] |>
    <| o_hooks ::= hook_update HJoin hook_call |>.
Proof. intros. subst o. by rewrite (click_action_joins s Hsettled f). Qed.

Lemma obs_receipt_join (h : Hash) :
  joinH (o_hooks o) = WConfirming h ->
  obs (step s (Receipt HJoin true)) =
  o <| o_hooks ::= hook_update HJoin hook_reset |>
    <| o_refetches ::= fun l => l ++ [QWarriorInfo] |> <| o_actionStep := idle |>.
Proof.
  intros Hh. subst o. cbn [obs o_hooks] in Hh. rewrite (receipt_join s Hsettled h Hh).
  unfold effect_join, obs. state_simpl. rewrite Hh. by state_simpl.
Qed.

Lemma obs_click_withdraw (n : Z) :
  shows_withdraw s = true -> withdraw_disabled s = false ->
  parseUnits (o_withdrawAmount o) 6 = Some n ->
  obs (step s ClickWithdraw) =
  o <| o_actionStep := withdrawing |>
    <| o_writes ::= fun l => l ++ [withdraw_request n] |>
    <| o_hooks ::= hook_update HWithdraw hook_call |>.
Proof. intros ? ? Hn. subst o. by rewrite (click_withdraw_submits s Hsettled n). Qed.

Lemma obs_receipt_withdraw (h : Hash) :
  withdrawH (o_hooks o) = WConfirming h ->
  obs (step s (Receipt HWithdraw true)) =
  o <| o_hooks ::= hook_update HWithdraw hook_reset |>
    <| o_refetches ::= fun l => l ++ withdraw_refresh |>
    <| o_withdrawAmount := "" |> <| o_actionStep := idle |>.
Proof.
  intros Hh. subst o. cbn [obs o_hooks] in Hh.
  rewrite (receipt_withdraw s Hsettled h Hh).
  unfold effect_withdraw, obs. state_simpl. rewrite Hh. state_simpl. obs_simpl.
  unfold withdraw_refresh. f_equal. by rewrite <- !app_assoc.
Qed.

Lemma obs_tick :
  obs (step s Tick) =
  o <| o_refetches ::= fun l =>
         l ++ (if nextTick s <=? clock s then poll_queries (walletAddress s) else []) |>.
Proof.
  subst o. rewrite (tick_polls s Hsettled). unfold poll, poll_queries.
  destruct (nextTick s <=? clock s); state_simpl;
    [destruct (walletAddress s) as [a|]; [destruct (truthy_string a)|]|];
    unfold obs; cbv [set set_o_refetches]; state_simpl; obs_simpl; f_equal;
    by rewrite <- ?app_assoc, ?app_nil_r.
Qed.


End ObsSteps.

(** ** Chaining *)

Lemma amount_present (amount : string) :
  amount_missing amount = false -> truthy_string amount = true.
Proof. unfold amount_missing. intros H. bool_to_prop. by destruct (truthy_string _). Qed.

Lemma obs_eta (x o : Obs) :
  x = o ->
  x = mkObs (o_actionStep o) (o_depositAmount o) (o_withdrawAmount o) (o_pending o)
        (o_hooks o) (o_tasks o) (o_clock o) (o_cache o) (o_writes o) (o_refetches o)
        (o_console o).
Proof. intros ->. by destruct o. Qed.

(** Moves the run one event forward, given the observation [O] of the
    state after it; the observation is kept field by field. *)
Ltac flow_next O :=
  lazymatch type of O with
  | obs (step ?s ?e) = _ =>
      let S := fresh "S" in
      assert (S : settled (step s e)) by (apply step_settled; assumption);
      lazymatch goal with
      | |- context [run step s (e :: ?es)] =>
          change (run step s (e :: es)) with (run step (step s e) es)
      end;
      apply obs_eta in O; obs_simpl; revert S O; generalize (step s e);
      let s' := fresh "s" in intros s' S O
  end.

Ltac flow_side :=
  obs_simpl; first [done | lia | by apply elem_of_app; right; left].

(** Applies the lemma [L] of the next event to the current state. *)
Ltac flow L :=
  lazymatch goal with
  | |- context [run step ?s (_ :: _)] =>
      lazymatch goal with
      | S : settled s, O : obs s = _ |- _ =>
          let O' := fresh "O" in
          opose proof* (L s _ S O) as O'; [flow_side..|flow_next O'; clear S O]
      end
  end.

(** Reads the fields of the final state off its observation. *)
Ltac flow_done :=
  lazymatch goal with
  | O : obs ?s = _ |- context [run step ?s []] =>
      let E1 := fresh in let E2 := fresh in let E3 := fresh in let E4 := fresh in
      let E5 := fresh in let E6 := fresh in let E7 := fresh in let E8 := fresh in
      let E9 := fresh in let E10 := fresh in let E11 := fresh in
      cbn [run]; unfold obs in O; injection O as E1 E2 E3 E4 E5 E6 E7 E8 E9 E10 E11;
      rewrite ?E1, ?E2, ?E3, ?E4, ?E5, ?E6, ?E7, ?E8, ?E9, ?E10, ?E11
  end.

(** ** The runs *)

Section Approval.
Variables (s : State) (amount : string) (n : Z) (r0 r1 : RefetchResult) (h h' : Hash) (t : Z).
Hypothesis Hready : stake_ready s amount n.
Hypothesis Hfresh : allowance_covers (allowance_read r0 (cache s)) n = false.
Hypothesis Hdue : clock s + SETTLE_DELAY <= t.

Let approval : list Event :=
  approval_events amount r0 r1 h (clock s + SETTLE_DELAY) t.

(** From the click to the second read of the allowance. *)
Lemma approval_settles :
  exists s6,
    run step s approval = step s6 (Refetched (AwaitVerify amount) r1) /\
    settled s6 /\
    obs s6 =
    mkObs approving amount (withdrawAmount s) (Some amount)
      (hook_update HApprove (fun _ => WConfirmed h) (hooks s))
      (remove_task (AwaitSettle (clock s + SETTLE_DELAY) amount)
         (remove_task (AwaitFreshAllowance amount)
            (tasks s ++ [AwaitFreshAllowance amount]) ++
          [AwaitSettle (clock s + SETTLE_DELAY) amount]) ++
       [AwaitVerify amount])
      (Z.max (clock s) t) (refetch_apply QUSDCAllowance r0 (cache s))
      (writes s ++ [approve]) ((refetches s ++ [QUSDCAllowance]) ++ [QUSDCAllowance])
      (console s).
Proof.
  destruct Hready as (Hs & He & Ha & Hc & Hd & Hn).
  destruct (action_enabled_stake s He Ha Hc) as (Hm%amount_present & _).
  assert (O : obs s = obs s) by done. unfold obs in O at 2. rewrite Hd in *.
  unfold approval, approval_events.
  flow obs_click.
  flow (fun s o S O => obs_fresh_uncovered s o S O amount r0 n).
  flow (fun s o S O => obs_submitted s o S O HApprove h).
  flow (fun s o S O => obs_receipt_approve s o S O h amount).
  flow (fun s o (S : settled s) O => obs_time s o O t).
  flow (fun s' o S O => obs_timer s' o S O (clock s + SETTLE_DELAY) amount).
  eexists. split; [reflexivity|]. by split.
Qed.

Lemma approval_staked :
  allowance_covers (allowance_read r1 (refetch_apply QUSDCAllowance r0 (cache s))) n = true ->
  let s' := run step s (approval ++ stake_events h') in
  writes s' = writes s ++ [approve; stake_request n] /\
  actionStep s' = idle /\ depositAmount s' = "" /\ pendingStakeAmount s' = None /\
  approveH (hooks s') = WIdle /\ stakeH (hooks s') = WIdle /\ console s' = console s.
Proof.
  intros Hc. destruct approval_settles as (s6 & E & S & O).
  destruct Hready as (_ & _ & _ & _ & _ & Hn).
  cbv zeta. rewrite run_app, E.
  change (run step (step ?x ?e) ?es) with (run step x (e :: es)).
  unfold stake_events.
  flow (fun s o S O => obs_verify_covered s o S O amount r1 n).
  flow (fun s o S O => obs_submitted s o S O HStake h').
  flow (fun s o S O => obs_receipt_stake s o S O h').
  flow_done. by rewrite <- app_assoc.
Qed.

(** C2. Approve, then stake.  From a page that is ready for a stake of
    an amount the fresh allowance does not cover: when the approval is
    confirmed and the allowance read after the settle delay covers the
    amount, the run submits exactly one approval and then exactly one
    stake of the parsed amount, and the confirmation of the stake leaves
    the page idle with the amount field cleared and no amount pending. *)
Theorem approve_then_stake :
  allowance_covers (allowance_read r1 (refetch_apply QUSDCAllowance r0 (cache s))) n = true ->
  let s' := run step s (approval ++ stake_events h') in
  writes s' = writes s ++ [approve; stake_request n] /\
  actionStep s' = idle /\ depositAmount s' = "" /\ pendingStakeAmount s' = None /\
  approveH (hooks s') = WIdle /\ stakeH (hooks s') = WIdle /\ console s' = console s.
Proof. exact approval_staked. Qed.

Lemma approval_refused :
  allowance_covers (allowance_read r1 (refetch_apply QUSDCAllowance r0 (cache s))) n = false ->
  let s' := run step s approval in
  writes s' = writes s ++ [approve] /\
  actionStep s' = idle /\ pendingStakeAmount s' = None /\
  approveH (hooks s') = WIdle /\ depositAmount s' = amount /\
  console s' =
    console s ++ ["Allowance verification failed after approval. Please try again."].
Proof.
  intros Hc. destruct approval_settles as (s6 & E & S & O).
  destruct Hready as (_ & _ & _ & _ & _ & Hn).
  cbv zeta. rewrite E. change (step ?x ?e) with (run step x [e]).
  flow (fun s o S O => obs_verify_uncovered s o S O amount r1 n).
  by flow_done.
Qed.

(** C3. Verification failure.  When the allowance read after the settle
    delay still does not cover the amount, no stake is submitted: the log
    holds the approval alone, the failure is written to the console, the
    approval hook is reset, no amount is pending and the page is idle;
    the amount typed is kept. *)
Theorem verification_failure_no_stake :
  allowance_covers (allowance_read r1 (refetch_apply QUSDCAllowance r0 (cache s))) n = false ->
  let s' := run step s approval in
  writes s' = writes s ++ [approve] /\
  actionStep s' = idle /\ pendingStakeAmount s' = None /\
  approveH (hooks s') = WIdle /\ depositAmount s' = amount /\
  console s' =
    console s ++ ["Allowance verification failed after approval. Please try again."].
Proof. exact approval_refused. Qed.

End Approval.

Section Direct.
Variables (s : State) (amount : string) (n : Z) (r0 : RefetchResult) (h' : Hash).
Hypothesis Hready : stake_ready s amount n.
Hypothesis Hfresh : allowance_covers (allowance_read r0 (cache s)) n = true.

Lemma direct_staked :
  let s' := run step s (direct_events amount r0 ++ stake_events h') in
  writes s' = writes s ++ [stake_request n] /\
  actionStep s' = idle /\ depositAmount s' = "" /\
  pendingStakeAmount s' = pendingStakeAmount s /\ stakeH (hooks s') = WIdle /\
  refetches s' = (refetches s ++ [QUSDCAllowance]) ++ stake_refresh.
Proof.
  destruct Hready as (Hs & He & Ha & Hc & Hd & Hn).
  assert (O : obs s = obs s) by done. unfold obs in O at 2. rewrite Hd in *.
  cbv zeta. unfold direct_events, stake_events. cbn [app].
  flow obs_click.
  flow (fun s o S O => obs_fresh_covered s o S O amount r0 n).
  flow (fun s o S O => obs_submitted s o S O HStake h').
  flow (fun s o S O => obs_receipt_stake s o S O h').
  by flow_done.
Qed.

(** C11. Stake without approval.  When the fresh allowance covers the
    amount, the run submits the stake alone, with no approval and no
    pending amount, and the confirmation of the stake refetches the
    balance, the warrior, the clan totals, the scores, the total and the
    allowance, clears the amount field and leaves the page idle. *)
Theorem direct_stake :
  let s' := run step s (direct_events amount r0 ++ stake_events h') in
  writes s' = writes s ++ [stake_request n] /\
  actionStep s' = idle /\ depositAmount s' = "" /\
  pendingStakeAmount s' = pendingStakeAmount s /\ stakeH (hooks s') = WIdle /\
  refetches s' = (refetches s ++ [QUSDCAllowance]) ++ stake_refresh.
Proof. exact direct_staked. Qed.

End Direct.

(** C24. Join.  A wallet without a clan that clicks the action button on
    a selected faction submits [joinClan] for it at once; the
    confirmation refetches the warrior, resets the hook and leaves the
    page idle. *)
Theorem join_then_idle (s : State) (f : Clan) (h : Hash) :
  settled s -> action_enabled s -> authenticated s = true ->
  selectedFaction s = Some f -> userClan s = clan_number NONE ->
  let s' := run step s (join_events h) in
  writes s' = writes s ++ [joinClan f] /\ actionStep s' = idle /\
  joinH (hooks s') = WIdle /\ refetches s' = refetches s ++ [QWarriorInfo].
Proof.
  intros Hs He Ha Hf Hc.
  assert (O : obs s = obs s) by done. unfold obs in O at 2.
  cbv zeta. unfold join_events.
  flow (fun s o S O => obs_click_join s o S O f).
  flow (fun s o S O => obs_submitted s o S O HJoin h).
  flow (fun s o S O => obs_receipt_join s o S O h).
  by flow_done.
Qed.

(** C25. Withdraw.  A click on the enabled withdraw button submits
    [withdrawInk] for the parsed amount; the confirmation refetches
    balance, warrior, clan totals, scores and total, clears the amount
    field and leaves the page idle. *)
Theorem withdraw_then_idle (s : State) (n : Z) (h : Hash) :
  settled s -> shows_withdraw s = true -> withdraw_disabled s = false ->
  parseUnits (withdrawAmount s) 6 = Some n ->
  let s' := run step s (withdraw_events h) in
  writes s' = writes s ++ [withdraw_request n] /\ actionStep s' = idle /\
  withdrawAmount s' = "" /\ withdrawH (hooks s') = WIdle /\
  refetches s' = refetches s ++ withdraw_refresh.
Proof.
  intros Hs Hw Hd Hn.
  assert (O : obs s = obs s) by done. unfold obs in O at 2.
  cbv zeta. unfold withdraw_events.
  flow (fun s o S O => obs_click_withdraw s o S O n).
  flow (fun s o S O => obs_submitted s o S O HWithdraw h).
  flow (fun s o S O => obs_receipt_withdraw s o S O h).
  by flow_done.
Qed.

(** Reads an observation of one step field by field. *)
Ltac obs_fields O :=
  let E1 := fresh in let E2 := fresh in let E3 := fresh in let E4 := fresh in
  let E5 := fresh in let E6 := fresh in let E7 := fresh in let E8 := fresh in
  let E9 := fresh in let E10 := fresh in let E11 := fresh in
  apply obs_eta in O; unfold obs in O; obs_simpl;
  injection O as E1 E2 E3 E4 E5 E6 E7 E8 E9 E10 E11;
  rewrite ?E1, ?E2, ?E3, ?E4, ?E5, ?E6, ?E7, ?E8, ?E9, ?E10, ?E11.

(** The poller.  A tick refetches the time until the canvas
    clears, the clan totals and the scores, and the allowance when a
    wallet is connected, once the interval of 30000 ms has run out; it
    changes no cell, no hook, no suspended continuation and no cached
    value, and it submits nothing. *)
Theorem tick_only_refetches (s : State) :
  settled s ->
  let s' := step s Tick in
  actionStep s' = actionStep s /\ pendingStakeAmount s' = pendingStakeAmount s /\
  hooks s' = hooks s /\ tasks s' = tasks s /\ writes s' = writes s /\
  cache s' = cache s /\ depositAmount s' = depositAmount s /\
  refetches s' =
    refetches s ++ (if nextTick s <=? clock s then poll_queries (walletAddress s) else []).
Proof.
  intros Hs. assert (O := obs_tick s _ Hs eq_refl). cbv zeta. by obs_fields O.
Qed.


(** ** The theorems on the page of the example *)

Lemma demo_stake_ready : stake_ready demo_ready "250" 250000000.
Proof.
  split; [apply (reachable_settled 1700000100000), reachable_run|].
  by vm_compute.
Qed.

Lemma demo_settled (es : list Event) :
  settled (run step (initial 1700000100000) es).
Proof. apply (reachable_settled 1700000100000), reachable_run. Qed.

Lemma join_then_idle_witness :
  let s' := run step demo_newcomer (join_events "0xa3") in
  writes s' = writes demo_newcomer ++ [joinClan SPIRIT] /\ actionStep s' = idle /\
  joinH (hooks s') = WIdle /\ refetches s' = refetches demo_newcomer ++ [QWarriorInfo].
Proof.
  apply (join_then_idle demo_newcomer SPIRIT "0xa3" (demo_settled _)); by vm_compute.
Defined.

Lemma withdraw_then_idle_witness :
  let s' := run step demo_withdrawing (withdraw_events "0xa4") in
  writes s' = writes demo_withdrawing ++ [withdraw_request 50000000] /\
  actionStep s' = idle /\ withdrawAmount s' = "" /\ withdrawH (hooks s') = WIdle /\
  refetches s' = refetches demo_withdrawing ++ withdraw_refresh.
Proof.
  apply (withdraw_then_idle demo_withdrawing 50000000 "0xa4" (demo_settled _));
    by vm_compute.
Defined.

Lemma tick_only_refetches_witness :
  let s := step demo_withdrawing (Time 1700000130000) in
  let s' := step s Tick in
  actionStep s' = actionStep s /\ pendingStakeAmount s' = pendingStakeAmount s /\
  hooks s' = hooks s /\ tasks s' = tasks s /\ writes s' = writes s /\
  cache s' = cache s /\ depositAmount s' = depositAmount s /\
  refetches s' =
    refetches s ++ (if nextTick s <=? clock s then poll_queries (walletAddress s) else []).
Proof.
  apply (tick_only_refetches (step demo_withdrawing (Time 1700000130000))).
  apply step_settled, demo_settled.
Defined.


Lemma approve_then_stake_witness :
  let s' := run step demo_ready
    (approval_events "250" (Fetched (DInt 0)) (Fetched (DInt maxUint256)) "0xa1"
       (clock demo_ready + SETTLE_DELAY) 1700000103000 ++ stake_events "0xa2") in
  writes s' = writes demo_ready ++ [approve; stake_request 250000000] /\
  actionStep s' = idle /\ depositAmount s' = "" /\ pendingStakeAmount s' = None /\
  approveH (hooks s') = WIdle /\ stakeH (hooks s') = WIdle /\
  console s' = console demo_ready.
Proof.
  apply (approve_then_stake demo_ready "250" 250000000 (Fetched (DInt 0))
           (Fetched (DInt maxUint256)) "0xa1" "0xa2" 1700000103000 demo_stake_ready);
    by vm_compute.
Defined.

Lemma verification_failure_no_stake_witness :
  let s' := run step demo_ready
    (approval_events "250" (Fetched (DInt 0)) (Fetched (DInt 249999999)) "0xa1"
       (clock demo_ready + SETTLE_DELAY) 1700000103000) in
  writes s' = writes demo_ready ++ [approve] /\
  actionStep s' = idle /\ pendingStakeAmount s' = None /\
  approveH (hooks s') = WIdle /\ depositAmount s' = "250" /\
  console s' =
    console demo_ready ++
    ["Allowance verification failed after approval. Please try again."].
Proof.
  apply (verification_failure_no_stake demo_ready "250" 250000000 (Fetched (DInt 0))
           (Fetched (DInt 249999999)) "0xa1" 1700000103000 demo_stake_ready);
    by vm_compute.
Defined.

Lemma direct_stake_witness :
  let s' := run step demo_ready
    (direct_events "250" (Fetched (DInt 250000000)) ++ stake_events "0xa2") in
  writes s' = writes demo_ready ++ [stake_request 250000000] /\
  actionStep s' = idle /\ depositAmount s' = "" /\
  pendingStakeAmount s' = pendingStakeAmount demo_ready /\
  stakeH (hooks s') = WIdle /\
  refetches s' = (refetches demo_ready ++ [QUSDCAllowance]) ++ stake_refresh.
Proof.
  apply (direct_stake demo_ready "250" 250000000 (Fetched (DInt 250000000)) "0xa2"
           demo_stake_ready).
  by vm_compute.
Defined.
