(* ===== verification/ArenaFindings.v ===== *)
(** * The arena page: where the code departs from the specification

    Runs of [Arena] from the page of the example ([demo_ready]: a
    connected wallet of clan 2 with a stake of 100, in the deposit phase,
    250 typed in the amount field) that end where the written
    specification says a run cannot end.  Each theorem is a closed
    statement about one run, checked by evaluation of [step]. *)

From S2P Require Import Prelude Digits JsNumber Viem JsDouble Phase Contract Arena ArenaInv ArenaFlow.

(** ** Definitions used by the statements *)

(** The answer to the awaited refetch of [handleAction] for the amount of
    the example. *)
Definition fresh (r : RefetchResult) : Event := Refetched (AwaitFreshAllowance "250") r.

(** An allowance that covers every amount. *)
Definition unlimited : RefetchResult := Fetched (DInt maxUint256).

(** The wallet declines to sign. *)
Definition declined : WalletOutcome := Rejected "User rejected the request.".



(** A state with its [actionStep] cell blanked, and the states that
    differ in that cell at most. *)
Definition forget_step (s : State) : State := s <| actionStep := idle |>.

Definition same_but_step (s s' : State) : Prop := forget_step s = forget_step s'.

(** ** Serialization *)

#[export] Instance same_but_step_equiv : Equivalence same_but_step.
Proof.
  unfold same_but_step. split; [done|by intros ? ?|]. intros ? ? ?. congruence.
Qed.

Ltac unfold_page :=
  cbv beta delta [effect_join effect_approve effect_stake effect_withdraw
    effect_mint effect_clear effect_wallet poll handle handleAction resumeAction
    resumeSettle resumeVerify handleWithdraw handleMint quickDeposit quickWithdraw stake_onError
    render forget_step shows_action shows_stake_form shows_withdraw withdraw_disabled
    selected isButtonDisabled inDepositPhase canClear userClan userStake usdcBalance
    allowance has_task].

(** Both states are taken apart; what is left differs in the cell only,
    which no test mentions. *)
Ltac same_cases :=
  intros [] [] H; unfold same_but_step in *; cbv beta delta [forget_step] in H;
  state_simpl; injection H as -> -> -> -> -> -> -> -> -> -> -> -> -> -> -> -> -> ->;
  unfold_page; state_simpl; repeat case_match; reflexivity.

#[export] Instance effect_join_same : Proper (same_but_step ==> same_but_step) effect_join.
Proof. same_cases. Qed.

#[export] Instance effect_approve_same :
  Proper (same_but_step ==> same_but_step) effect_approve.
Proof. same_cases. Qed.

#[export] Instance effect_stake_same : Proper (same_but_step ==> same_but_step) effect_stake.
Proof. same_cases. Qed.

#[export] Instance effect_withdraw_same :
  Proper (same_but_step ==> same_but_step) effect_withdraw.
Proof. same_cases. Qed.

#[export] Instance effect_mint_same : Proper (same_but_step ==> same_but_step) effect_mint.
Proof. same_cases. Qed.

#[export] Instance effect_clear_same : Proper (same_but_step ==> same_but_step) effect_clear.
Proof. same_cases. Qed.

#[export] Instance render_same : Proper (same_but_step ==> same_but_step) render.
Proof. same_cases. Qed.

#[export] Instance effects_same : Proper (same_but_step ==> same_but_step) effects.
Proof. intros s s' H. unfold effects. by rewrite H. Qed.

#[export] Instance handle_same (e : Event) :
  Proper (same_but_step ==> same_but_step) (handle e).
Proof. destruct e; same_cases. Qed.

#[export] Instance step_same : Proper (same_but_step ==> eq ==> same_but_step) step.
Proof.
  intros s s' H e ? <-. unfold step. destruct (is_time e); by rewrite H.
Qed.

Lemma same_but_step_set (s : State) (a : ActionStep) :
  same_but_step (s <| actionStep := a |>) s.
Proof. by destruct s. Qed.

(** C15. The register of the operation in flight guards nothing: no
    handler, no effect and no condition of the page reads [actionStep].
    Whatever the cell holds, a step leaves every other part of the state
    exactly as it would have left it: the cell cannot make the page
    decline an operation while another one is in flight. *)
Theorem actionStep_guards_nothing (s : State) (a : ActionStep) (e : Event) :
  forget_step (step (s <| actionStep := a |>) e) = forget_step (step s e).
Proof. apply step_same; [apply same_but_step_set|done]. Qed.



(** ** Failures *)


(** Only the stake has an error callback: a withdrawal the wallet
    declines writes nothing to the console and leaves the page in the
    withdrawing step. *)
Theorem rejected_withdraw_is_silent :
  let s := run step demo_ready
             [ClickTab false; TypeWithdraw "50"; ClickWithdraw; Wallet HWithdraw declined] in
  actionStep s = withdrawing /\ console s = [] /\
  withdrawH (hooks s) = WError "User rejected the request.".
Proof. by vm_compute. Qed.

(** ** Guards *)



(** A refetch that fails resolves with the cached allowance: the
    handler takes it for the fresh one and stakes on it. *)
Theorem failed_refetch_reads_cache :
  let s := run step demo_ready
             [Answer QUSDCAllowance (DInt 250000000); ClickAction; fresh FetchFailed] in
  writes s = [stake_request 250000000].
Proof. by vm_compute. Qed.

(** ** Amounts *)

(** The MAX button without a fetched balance types the word MAX
    into the amount field.  The button stays enabled and reads APPROVE
    USDC; a click refetches the allowance and then [parseUnits] throws
    in the continuation: nothing is submitted and nothing is reported. *)
Theorem max_without_balance :
  let s0 := run step demo_ready
              [Connect (Some "0xB0B"); Answer QWarriorInfo (DWarrior 0 2 1 0);
               ClickQuickDeposit "MAX"] in
  let s := run step s0 [ClickAction; Refetched (AwaitFreshAllowance "MAX") unlimited] in
  depositAmount s0 = "MAX" /\ isButtonDisabled s0 = false /\
  getButtonText s0 = "APPROVE USDC" /\
  writes s = [] /\ console s = [] /\ tasks s = [] /\ actionStep s = idle.
Proof. by vm_compute. Qed.

(** The MAX button rounds to cents, half up: with a balance of
    1.005 it types 1.01, which is more than the balance. *)
Theorem max_rounds_above_balance :
  let s := run step demo_ready [Answer QUSDCBalance (DInt 1005000); ClickQuickDeposit "MAX"] in
  depositAmount s = "1.01" /\
  usdcBalance s = Some 1005000 /\ parseUnits (depositAmount s) 6 = Some 1010000.
Proof. by vm_compute. Qed.

(** An amount in exponent notation passes the guard of the handler,
    whose [parseFloat] reads it, and stops the continuation, whose
    [parseUnits] does not: the click has no effect beyond the refetch. *)
Theorem exponent_amount_is_dropped :
  let s0 := step demo_ready (TypeDeposit "1e3") in
  let s := run step s0 [ClickAction; Refetched (AwaitFreshAllowance "1e3") unlimited] in
  isButtonDisabled s0 = false /\ parseFloat "1e3" = Dec false 1 3 /\
  parseUnits "1e3" 6 = None /\
  writes s = [] /\ console s = [] /\ actionStep s = idle.
Proof. by vm_compute. Qed.
