(* ===== verification/Portfolio.v ===== *)
(** * The portfolio page ([src/app/portfolio/page.tsx])

    The second orchestrator: the deposit and withdraw cards of a wallet
    that has joined a clan, with the faucet.  It has the cells
    [depositAmount], [withdrawAmount] and [pendingStakeAmount] and the
    hooks [approve], [stakeInk], [withdrawInk] and [mint]; it has no
    [actionStep], no join, no rollover and no poller.

    The page is modelled on the record of [Arena], whose cells
    [selectedFaction], [isDepositing], [actionStep] and [nextTick] and
    whose join and clear hooks it neither reads nor writes, and on the
    events of [Arena], of which it ignores those of elements it does not
    have.  Privy's [ready] flag is folded into [authenticated]: the
    session is not authenticated before it is ready.  One definition per
    handler and per effect, named as in the source; a name the arena page
    also has carries the prefix [portfolio_]. *)

From stdpp Require Import pretty.
From S2P Require Import Prelude Digits JsNumber Viem JsDouble Phase Contract Arena.

(** ** Tables *)

Definition CLAN_IMAGES (c : Clan) : string :=
  match c with
  | NONE => "/placeholder.svg"
  | SHADOW => "/images/kage-shadow.jpg"
  | BLADE => "/images/steel-blade.jpg"
  | SPIRIT => "/images/ghost-spirit.jpg"
  | PILLAR => "/images/monk-pillar.jpg"
  | WIND => "/images/wind-arrow.jpg"
  end.

Definition CLAN_SUBTITLES (c : Clan) : string :=
  match c with
  | NONE => ""
  | SHADOW => "The Kage"
  | BLADE => "The Steel"
  | SPIRIT => "The Ghost"
  | PILLAR => "The Monk"
  | WIND => "The Arrow"
  end.

(** ** Derived values of a render *)

(** The queries the page subscribes to. *)
Definition portfolio_queries : list QueryId :=
  [QCurrentEpoch; QWarriorInfo; QUSDCBalance; QAllClanTVLs; QUSDCAllowance;
   QEpochStartTime; QDepositPhaseDuration; QTimeUntilCanvasClears].

Definition portfolio_inDepositPhase (s : State) : bool :=
  isDepositPhase (rendered s)
    (data_int (cache s) QEpochStartTime) (data_int (cache s) QDepositPhaseDuration).

(** [warriorInfo ? Number(warriorInfo[2]) : 0] *)
Definition epochJoined (s : State) : Z :=
  match cache s QWarriorInfo with
  | Some (DWarrior _ _ epoch _) => epoch
  | _ => 0
  end.

Definition portfolio_hasAllowance (s : State) : bool :=
  if negb (truthy_bigint (allowance s)) || negb (truthy_string (depositAmount s)) then false
  else
    let amount := parseFloat (depositAmount s) in
    if isNaN amount || num_le_zero amount then false
    else
      match parseUnits (depositAmount s) 6 with
      | Some required => default 0 (allowance s) >=? required
      | None => false
      end.

(** [clanTVLs[clan - 1]], which is [undefined] ([None]) outside the
    array. *)
Definition getClanTVL (clan : Z) (s : State) : option Z :=
  match data_list (cache s) QAllClanTVLs with
  | None => Some 0
  | Some clanTVLs =>
      if clan =? clan_number NONE then Some 0
      else if clan - 1 <? 0 then None
      else clanTVLs !! Z.to_nat (clan - 1)
  end.

(** The share of the clan total, in percent with one decimal.  A total
    that is [undefined] is not [0n], and its Number is [NaN]. *)
Definition getStakePercentage (s : State) : string :=
  match getClanTVL (userClan s) s with
  | Some clanTVL =>
      if (clanTVL =? 0) || (userStake s =? 0) then "0"
      else
        toFixed 1
          (double_mul
             (double_div (number_of_bigint (userStake s)) (number_of_bigint clanTVL))
             double_100)
  | None => if userStake s =? 0 then "0" else "NaN"
  end.

(** *** What is on the page, and enabled *)

(** The cards are rendered for an authenticated session only. *)
Definition shows_portfolio (s : State) : bool := authenticated s.

(** The amount field and the quick-amount buttons of the deposit card. *)
Definition deposit_input_disabled (s : State) : bool :=
  (userClan s =? clan_number NONE) || negb (portfolio_inDepositPhase s).

Definition deposit_disabled (s : State) : bool :=
  (userClan s =? clan_number NONE) || negb (portfolio_inDepositPhase s) ||
  negb (truthy_string (depositAmount s)) || num_le_zero (parseFloat (depositAmount s)) ||
  isPending (approveH (hooks s)) || isConfirming (approveH (hooks s)) ||
  isPending (stakeH (hooks s)) || isConfirming (stakeH (hooks s)).

Definition depositButtonText (s : State) : string :=
  if isPending (approveH (hooks s)) || isConfirming (approveH (hooks s)) then "APPROVING..."
  else if isPending (stakeH (hooks s)) || isConfirming (stakeH (hooks s)) then "DEPOSITING..."
  else if negb (portfolio_hasAllowance s) && truthy_string (depositAmount s)
  then "APPROVE USDC"
  else "DEPOSIT".

Definition allowanceLabel (s : State) : string :=
  if portfolio_hasAllowance s then "Approved" else "Needs Approval".

(** The amount field and the percent buttons of the withdraw card. *)
Definition withdraw_input_disabled (s : State) : bool :=
  (userStake s =? 0) || negb (portfolio_inDepositPhase s).

Definition portfolio_withdraw_disabled (s : State) : bool :=
  (userStake s =? 0) || negb (portfolio_inDepositPhase s) ||
  negb (truthy_string (withdrawAmount s)) || num_le_zero (parseFloat (withdrawAmount s)) ||
  isPending (withdrawH (hooks s)) || isConfirming (withdrawH (hooks s)).

(** ** Handlers *)

(** [handleDeposit] up to its [await]. *)
Definition handleDeposit (s : State) : State :=
  if amount_missing (depositAmount s) then s
  else spawn (AwaitFreshAllowance (depositAmount s)) (refetch QUSDCAllowance s).

(** The rest of [handleDeposit], once [refetchAllowance()] has resolved. *)
Definition resumeDeposit (depositAmount : string) (r : RefetchResult) (s : State) : State :=
  let s := s <| cache ::= refetch_apply QUSDCAllowance r |> in
  let freshAllowance := allowance s in
  match parseUnits depositAmount 6 with
  | None => s
  | Some requiredAmount =>
      if allowance_covers freshAllowance requiredAmount
      then call_write HStake (stakeInk depositAmount) s
      else call_write HApprove (Some approve) (s <| pendingStakeAmount := Some depositAmount |>)
  end.

(** [performStakeAfterApproval] after the timer, and after the second
    read. *)
Definition portfolio_resumeSettle (pending : string) (s : State) : State :=
  spawn (AwaitVerify pending) (refetch QUSDCAllowance s).

Definition portfolio_resumeVerify (pending : string) (r : RefetchResult) (s : State)
    : State :=
  let s := s <| cache ::= refetch_apply QUSDCAllowance r |> in
  let newAllowance := allowance s in
  match parseUnits pending 6 with
  | None => s
  | Some requiredAmount =>
      let s :=
        if allowance_covers newAllowance requiredAmount
        then call_write HStake (stakeInk pending) (reset HApprove s)
        else
          reset HApprove
            (console_error "Allowance verification failed after approval. Please try again." s)
      in
      s <| pendingStakeAmount := None |>
  end.

Definition portfolio_handleWithdraw (s : State) : State :=
  if negb (truthy_string (withdrawAmount s)) then s
  else call_write HWithdraw (withdrawInk (withdrawAmount s)) s.

Definition portfolio_handleMint (s : State) : State :=
  match walletAddress s with
  | Some a => if truthy_string a then call_write HMint (mint a "10000") s else s
  | None => s
  end.

(** The quick-amount buttons of the deposit card. *)
Definition portfolio_quickDeposit (amount : string) (s : State) : State :=
  if String.eqb amount "MAX" && truthy_bigint (usdcBalance s)
  then s <| depositAmount := strip_commas (formatUSDC (usdcBalance s)) |>
  else s <| depositAmount := amount |>.

(** The percent buttons of the withdraw card. *)
Definition portfolio_quickWithdraw (percent : string) (s : State) : State :=
  let stake := double_div (number_of_bigint (userStake s)) double_1e6 in
  if String.eqb percent "MAX"
  then s <| withdrawAmount := toString_double stake |>
  else
    let pct := double_div (to_double (parseInt percent)) double_100 in
    s <| withdrawAmount := toFixed 2 (double_mul stake pct) |>.

(** ** Effects, in the order of the source *)

Definition portfolio_effect_approve (s : State) : State :=
  let deps := (isSuccess (approveH (hooks s)), pendingStakeAmount s) in
  let s' := s <| approveDeps := deps |> in
  if decide (deps = approveDeps s) then s'
  else
    match deps with
    | (true, Some pending) =>
        if truthy_string pending
        then spawn (AwaitSettle (clock s + SETTLE_DELAY) pending) s'
        else s'
    | _ => s'
    end.

Definition portfolio_effect_stake (s : State) : State :=
  if isSuccess (stakeH (hooks s))
  then
    (reset HStake
      (refetch QUSDCAllowance
        (refetch QAllClanTVLs (refetch QWarriorInfo (refetch QUSDCBalance s)))))
    <| depositAmount := "" |>
  else s.

Definition portfolio_effect_withdraw (s : State) : State :=
  if isSuccess (withdrawH (hooks s))
  then
    (reset HWithdraw
      (refetch QAllClanTVLs (refetch QWarriorInfo (refetch QUSDCBalance s))))
    <| withdrawAmount := "" |>
  else s.

Definition portfolio_effect_mint (s : State) : State :=
  if isSuccess (mintH (hooks s)) then reset HMint (refetch QUSDCBalance s) else s.

(** The effect on [walletAddress]. *)
Definition portfolio_effect_wallet (s : State) : State :=
  match walletAddress s with
  | Some a =>
      if truthy_string a then refetch QUSDCBalance (refetch QUSDCAllowance s) else s
  | None => s
  end.

Definition portfolio_effects (s : State) : State :=
  portfolio_effect_mint
    (portfolio_effect_withdraw (portfolio_effect_stake (portfolio_effect_approve s))).

(** ** Events *)

(** The write hooks the page calls. *)
Definition portfolio_hook (w : HookId) : bool :=
  match w with
  | HApprove | HStake | HWithdraw | HMint => true
  | HJoin | HClear => false
  end.

(** One event, before the effects.  [ClickAction] is the connect button
    of the page without a session, and the deposit button with one. *)
Definition portfolio_handle (e : Event) (s : State) : State :=
  match e with
  | ClickFaction _ | ClickTab _ | ClickClear | Tick => s
  | TypeDeposit v =>
      if shows_portfolio s && negb (deposit_input_disabled s)
      then s <| depositAmount := v |> else s
  | TypeWithdraw v =>
      if shows_portfolio s && negb (withdraw_input_disabled s)
      then s <| withdrawAmount := v |> else s
  | ClickQuickDeposit amount =>
      if shows_portfolio s && negb (deposit_input_disabled s) &&
         bool_decide (amount ∈ quick_amounts)
      then portfolio_quickDeposit amount s else s
  | ClickQuickWithdraw percent =>
      if shows_portfolio s && negb (withdraw_input_disabled s) &&
         bool_decide (percent ∈ quick_percents)
      then portfolio_quickWithdraw percent s else s
  | ClickAction =>
      if negb (shows_portfolio s) then s <| logins ::= S |>
      else if deposit_disabled s then s else handleDeposit s
  | ClickWithdraw =>
      if shows_portfolio s && negb (portfolio_withdraw_disabled s)
      then portfolio_handleWithdraw s else s
  | ClickMint =>
      if shows_portfolio s && negb (hook_busy (mintH (hooks s)))
      then portfolio_handleMint s else s
  | Connect a =>
      portfolio_effect_wallet
        (s <| authenticated := bool_decide (is_Some a) |>
           <| walletAddress := a |>
           <| cache ::= cache_drop account_query |>)
  | Wallet w (Submitted h) =>
      if portfolio_hook w then s <| hooks ::= hook_update w (hook_submitted h) |> else s
  | Wallet w (Rejected m) =>
      if portfolio_hook w then
        let s' := s <| hooks ::= hook_update w (hook_rejected m) |> in
        if bool_decide (w = HStake) && isPending (stakeH (hooks s))
        then stake_onError m s' else s'
      else s
  | Receipt w ok =>
      if portfolio_hook w
      then s <| hooks ::= hook_update w (if ok then hook_receipt else hook_receipt_failed) |>
      else s
  | Answer q d => s <| cache ::= cache_set q d |>
  | Refetched t r =>
      if has_task t s then
        let s' := s <| tasks ::= remove_task t |> in
        match t with
        | AwaitFreshAllowance amount => resumeDeposit amount r s'
        | AwaitVerify pending => portfolio_resumeVerify pending r s'
        | AwaitSettle _ _ => s
        end
      else s
  | Timer t =>
      match t with
      | AwaitSettle due pending =>
          if has_task t s && (due <=? clock s)
          then portfolio_resumeSettle pending (s <| tasks ::= remove_task t |>)
          else s
      | _ => s
      end
  | Time t => s <| clock := Z.max (clock s) t |>
  end.

(** An event, the effects it triggers, and the render that follows. *)
Definition portfolio_step (s : State) (e : Event) : State :=
  if is_time e then portfolio_handle e s else render (portfolio_effects (portfolio_handle e s)).

(** *** A page to run the theorems on

    The wallet of the example of [Arena] opens the portfolio page one
    hundred seconds into the epoch, with a clan total of 400 for its clan. *)
Definition portfolio_demo_events : list Event :=
  [Connect (Some "0xA11CE");
   Answer QEpochStartTime (DInt 1700000000);
   Answer QDepositPhaseDuration (DInt 172800);
   Answer QWarriorInfo (DWarrior 100000000 2 1 0);
   Answer QAllClanTVLs (DList [0; 400000000; 0; 0; 0]);
   Answer QUSDCBalance (DInt 1000000000);
   Answer QUSDCAllowance (DInt 0);
   TypeDeposit "250"].

Definition portfolio_demo : State :=
  run portfolio_step (initial 1700000100000) portfolio_demo_events.

(** ** Examples *)

Example portfolio_demo_page :
  depositAmount portfolio_demo = "250" /\ deposit_disabled portfolio_demo = false /\
  depositButtonText portfolio_demo = "APPROVE USDC" /\
  allowanceLabel portfolio_demo = "Needs Approval" /\
  getStakePercentage portfolio_demo = "25.0" /\ epochJoined portfolio_demo = 1 /\
  refetches portfolio_demo = [QUSDCAllowance; QUSDCBalance].
Proof. by vm_compute. Qed.
