(* ===== verification/PortfolioSim.v ===== *)
(** * The two orchestrators move in lock step

    The portfolio page repeats the staking flow of the arena page.  The
    relation [mirrors] holds of an arena state and a portfolio state that
    agree on everything the portfolio page has: the session, the amount
    cells, the pending amount, the hooks, the cache, the suspended
    continuations, the clock and the logs, the refetches that only the
    arena page issues (scores and total) being left out.  On the events
    the pages share, with the arena page on the form the event belongs
    to, a step of one is a step of the other ([portfolio_simulated]):
    the two pages submit the same writes. *)

From S2P Require Import Prelude Digits JsNumber Viem JsDouble Phase Contract Arena ArenaInv Portfolio.

(** ** Definitions used by the statements *)

(** The queries the portfolio page refetches. *)
Definition portfolio_query (q : QueryId) : bool :=
  match q with
  | QAllScores | QTotalTVL => false
  | _ => true
  end.

(** What the portfolio page has of a state. *)
Definition portfolio_view (s : State) : State :=
  s <| selectedFaction := None |> <| isDepositing := true |> <| actionStep := idle |>
    <| nextTick := 0 |> <| refetches ::= List.filter portfolio_query |>.

Definition mirrors (s s' : State) : Prop := portfolio_view s = portfolio_view s'.

(** The wallet is connected and has a clan. *)
Definition in_session (s : State) : Prop :=
  authenticated s = true /\ userClan s <> clan_number NONE.

(** The event is one the pages share, and the arena page shows the form
    it belongs to. *)
Definition shared (e : Event) (s : State) : Prop :=
  match e with
  | ClickFaction _ | ClickTab _ | ClickClear | Tick => False
  | Wallet w _ | Receipt w _ => portfolio_hook w = true
  | TypeDeposit _ | ClickQuickDeposit _ | ClickAction =>
      selected s = true /\ isDepositing s = true
  | TypeWithdraw _ | ClickQuickWithdraw _ =>
      selected s = true /\ isDepositing s = false
  | ClickWithdraw =>
      (selected s = true /\ isDepositing s = false) /\ userStake s <> 0
  | _ => True
  end.

(** Along the run, every event is shared and the wallet stays connected
    and in a clan. *)
Fixpoint along (sa sp : State) (es : list Event) : Prop :=
  match es with
  | [] => True
  | e :: es' =>
      in_session sp /\ shared e sa /\ along (step sa e) (portfolio_step sp e) es'
  end.

(** The arena page a portfolio state mirrors: the clan of the wallet
    selected, on the deposit form. *)
Definition arena_of (f : Clan) (s : State) : State :=
  s <| selectedFaction := Some f |> <| isDepositing := true |>.

(** A deposit of the example that needs an approval, from the click to
    the confirmation of the stake. *)
Definition demo_flow : list Event :=
  [ClickAction; Refetched (AwaitFreshAllowance "250") (Fetched (DInt 0));
   Wallet HApprove (Submitted "0xa"); Receipt HApprove true;
   Time 1700000105000; Timer (AwaitSettle 1700000102500 "250");
   Refetched (AwaitVerify "250") (Fetched (DInt maxUint256));
   Wallet HStake (Submitted "0xb"); Receipt HStake true].

(** ** The relation *)

#[export] Instance mirrors_equiv : Equivalence mirrors.
Proof.
  unfold mirrors. split; [done|by intros ? ?|]. intros ? ? ?. congruence.
Qed.

Ltac unfold_pages :=
  cbv beta delta [effect_join effect_approve effect_stake effect_withdraw
    effect_mint effect_clear effect_wallet effects
    portfolio_effect_approve portfolio_effect_stake portfolio_effect_withdraw
    portfolio_effect_mint portfolio_effect_wallet portfolio_effects
    handleAction resumeAction resumeSettle resumeVerify handleWithdraw handleMint
    quickDeposit quickWithdraw stake_onError
    handleDeposit resumeDeposit portfolio_resumeSettle portfolio_resumeVerify
    portfolio_handleWithdraw portfolio_handleMint portfolio_quickDeposit
    portfolio_quickWithdraw
    render shows_action shows_stake_form shows_withdraw withdraw_disabled
    selected isButtonDisabled inDepositPhase userClan userStake usdcBalance
    allowance has_task shows_portfolio deposit_input_disabled deposit_disabled
    withdraw_input_disabled portfolio_withdraw_disabled portfolio_inDepositPhase
    amount_missing hook_busy call_write].

(** Both states are taken apart; the fields the view keeps are
    identified, and the refetch logs are compared through the filter. *)
(** Field updates on a state that has been taken apart, by evaluation. *)
Ltac state_cbv H :=
  cbv beta iota delta
    [authenticated walletAddress selectedFaction depositAmount withdrawAmount
     isDepositing actionStep pendingStakeAmount hooks cache approveDeps tasks
     clock rendered nextTick writes refetches console logins
     set set_authenticated set_walletAddress set_selectedFaction
     set_depositAmount set_withdrawAmount set_isDepositing set_actionStep
     set_pendingStakeAmount set_hooks set_cache set_approveDeps set_tasks
     set_clock set_rendered set_nextTick set_writes set_refetches set_console
     set_logins refetch call_write reset console_error spawn render fst snd] in H.

Ltac state_cbv_goal :=
  cbv beta iota delta
    [authenticated walletAddress selectedFaction depositAmount withdrawAmount
     isDepositing actionStep pendingStakeAmount hooks cache approveDeps tasks
     clock rendered nextTick writes refetches console logins
     set set_authenticated set_walletAddress set_selectedFaction
     set_depositAmount set_withdrawAmount set_isDepositing set_actionStep
     set_pendingStakeAmount set_hooks set_cache set_approveDeps set_tasks
     set_clock set_rendered set_nextTick set_writes set_refetches set_console
     set_logins refetch call_write reset console_error spawn render fst snd].

Ltac mirror_intro :=
  intros; repeat match goal with s : State |- _ => destruct s end;
  match goal with
  | H : mirrors _ _ |- _ =>
      let Hr := fresh "Hrefetches" in
      cbv beta delta [mirrors portfolio_view] in H; state_cbv H;
      injection H as -> -> -> -> -> -> -> -> -> -> -> -> Hr -> ->
  end.

Ltac mirror_close :=
  state_cbv_goal; rewrite ?List.filter_app; cbn [List.filter portfolio_query app];
  rewrite ?app_nil_r; first [reflexivity | congruence].

Ltac mirror_cases :=
  mirror_intro; cbv beta delta [mirrors portfolio_view]; unfold_pages; cbv zeta;
  state_simpl; repeat case_match; try discriminate; mirror_close.

Lemma effect_approve_mirrors (sa sp : State) :
  mirrors sa sp -> mirrors (effect_approve sa) (portfolio_effect_approve sp).
Proof. mirror_cases. Qed.

Lemma effect_stake_mirrors (sa sp : State) :
  mirrors sa sp -> mirrors (effect_stake sa) (portfolio_effect_stake sp).
Proof. mirror_cases. Qed.

Lemma effect_withdraw_mirrors (sa sp : State) :
  mirrors sa sp -> mirrors (effect_withdraw sa) (portfolio_effect_withdraw sp).
Proof. mirror_cases. Qed.

Lemma effect_mint_mirrors (sa sp : State) :
  mirrors sa sp -> mirrors (effect_mint sa) (portfolio_effect_mint sp).
Proof. mirror_cases. Qed.

Lemma render_mirrors (sa sp : State) : mirrors sa sp -> mirrors (render sa) (render sp).
Proof. mirror_cases. Qed.

(** ** The effects *)

Lemma effect_join_id (s : State) : quiet HJoin s -> effect_join s = s.
Proof. unfold quiet, effect_join. cbn [hook]. by intros ->. Qed.

Lemma effect_clear_id (s : State) : quiet HClear s -> effect_clear s = s.
Proof. unfold quiet, effect_clear. cbn [hook]. by intros ->. Qed.

(** With no join and no rollover confirmed, the effects of the arena
    page are those of the portfolio page. *)
Lemma effects_mirrors (sa sp : State) :
  mirrors sa sp -> quiet HJoin sa -> quiet HClear sa ->
  mirrors (effects sa) (portfolio_effects sp).
Proof.
  intros H Hj Hc. unfold effects, portfolio_effects.
  rewrite (effect_join_id sa Hj), effect_clear_id.
  - by apply effect_mint_mirrors, effect_withdraw_mirrors, effect_stake_mirrors,
      effect_approve_mirrors.
  - apply effect_mint_quiet, or_intror, effect_withdraw_quiet, or_intror,
      effect_stake_quiet, or_intror, effect_approve_quiet, Hc.
Qed.

(** ** The handlers *)

(** A test is split at its first atom. *)
Ltac bool_atom b :=
  lazymatch b with
  | andb ?x _ => bool_atom x
  | orb ?x _ => bool_atom x
  | negb ?x => bool_atom x
  | _ => let E := fresh "E" in destruct b eqn:E
  end.

Ltac split_tests :=
  repeat (match goal with |- context [if ?b then _ else _] => bool_atom b end;
          cbn [andb orb negb] in *; try discriminate).

(** The hypotheses on the session and on the form, on states taken
    apart. *)
Ltac session_intro :=
  repeat match goal with
  | H : in_session _ |- _ =>
      let Ha := fresh "Hauth" in let Hc := fresh "Hclan" in
      destruct H as [Ha Hc]; cbn [authenticated] in Ha; subst;
      apply Z.eqb_neq in Hc; cbv beta delta [userClan] in Hc; cbn [cache] in Hc
  | H : shared _ _ |- _ =>
      cbv beta iota delta [shared selected portfolio_hook] in H;
      cbn [selectedFaction isDepositing] in H;
      lazymatch type of H with
      | False => exfalso; exact H
      | True => clear H
      | (_ /\ _) /\ _ =>
          let Hk := fresh "Hstake" in
          destruct H as [[? ?] Hk]; subst; apply Z.eqb_neq in Hk;
          cbv beta delta [userStake] in Hk; cbn [cache] in Hk
      | _ /\ _ => destruct H as [? ?]; subst
      | _ = _ => first [discriminate H | clear H]
      end
  end.

Ltac mirror_handler :=
  mirror_intro; session_intro; cbv beta delta [mirrors portfolio_view];
  cbv beta iota delta [handle portfolio_handle]; unfold_pages; cbv zeta; state_simpl;
  repeat match goal with H : _ = _ |- _ => rewrite H end;
  split_tests; repeat case_match; try discriminate; mirror_close.

(** On a shared event the handlers of the two pages do the same. *)
Lemma handle_mirrors (sa sp : State) (e : Event) :
  mirrors sa sp -> in_session sp -> shared e sa ->
  mirrors (handle e sa) (portfolio_handle e sp).
Proof.
  destruct e as [| | | | | | | | | | |w []|w| |[]| | |]; try destruct w; mirror_handler.
Qed.

(** A shared event confirms no join and no rollover. *)
Lemma handle_quiet (s : State) (e : Event) (w : HookId) :
  portfolio_hook w = false -> shared e s -> quiet w s -> quiet w (handle e s).
Proof.
  intros Hw Hs Hq. destruct s as [? ? ? ? ? ? ? ? [ha hj hs hx hm hc] ? ? ? ? ? ? ? ? ? ?].
  unfold quiet in *. cbn [hooks hook] in Hq.
  destruct w; try discriminate Hw;
    (destruct e as [| | | | | | | | | | |w []|w| |[]| | |]; try destruct w;
     try (exfalso; exact Hs); try discriminate Hs; clear Hs;
     cbv beta iota delta [handle]; unfold_pages; cbv zeta; state_simpl;
     split_tests; repeat case_match; try discriminate; state_cbv_goal;
     cbn [hook hook_update joinH clearH hook_call isSuccess];
     first [exact Hq | reflexivity]).
Qed.

(** ** The simulation *)

(** One step of each page. *)
Lemma step_mirrors (sa sp : State) (e : Event) :
  mirrors sa sp -> settled sa -> in_session sp -> shared e sa ->
  mirrors (step sa e) (portfolio_step sp e).
Proof.
  intros Hm [Hq _] Hi Hs. unfold step, portfolio_step.
  destruct (is_time e); [by apply handle_mirrors|].
  apply render_mirrors, effects_mirrors; [by apply handle_mirrors|..];
    apply handle_quiet; auto.
Qed.

(** What two states that mirror each other agree on. *)
Lemma mirrors_fields (sa sp : State) :
  mirrors sa sp ->
  writes sa = writes sp /\ hooks sa = hooks sp /\ cache sa = cache sp /\
  tasks sa = tasks sp /\ depositAmount sa = depositAmount sp /\
  withdrawAmount sa = withdrawAmount sp /\
  pendingStakeAmount sa = pendingStakeAmount sp /\ console sa = console sp /\
  clock sa = clock sp /\ authenticated sa = authenticated sp.
Proof. mirror_intro. by repeat split. Qed.

Lemma run_mirrors (sa sp : State) (es : list Event) :
  mirrors sa sp -> settled sa -> along sa sp es ->
  mirrors (run step sa es) (run portfolio_step sp es).
Proof.
  revert sa sp. induction es as [|e es IH]; intros sa sp Hm Hs Ha; [done|].
  destruct Ha as (Hi & He & Ha). cbn [run]. apply IH; [|by apply step_settled|done].
  by apply step_mirrors.
Qed.

(** C5. Lock step.  From an arena state and a portfolio state that
    agree on what the portfolio page has, along a run of events the
    pages share during which the wallet stays connected and in a clan,
    the two pages end in states that agree again and have submitted the
    same writes: the deposit, withdrawal and faucet flows of the
    portfolio page are those of the arena page, write for write. *)
Theorem portfolio_simulated (sa sp : State) (es : list Event) :
  mirrors sa sp -> settled sa -> along sa sp es ->
  mirrors (run step sa es) (run portfolio_step sp es) /\
  writes (run portfolio_step sp es) = writes (run step sa es).
Proof.
  intros Hm Hs Ha. assert (H := run_mirrors sa sp es Hm Hs Ha).
  split; [done|]. by destruct (mirrors_fields _ _ H) as (-> & _).
Qed.

Lemma portfolio_simulated_witness :
  mirrors (run step demo_ready demo_flow) (run portfolio_step demo_ready demo_flow) /\
  writes (run portfolio_step demo_ready demo_flow) = writes (run step demo_ready demo_flow).
Proof.
  apply (portfolio_simulated demo_ready demo_ready demo_flow); [done| |].
  - apply (reachable_settled 1700000100000), reachable_run.
  - vm_compute. by repeat split.
Defined.
