(* ===== verification/PortfolioRuns.v ===== *)
(** * The portfolio page: the composite operations

    The outcomes of a deposit on the portfolio page (approve then stake,
    a verification that fails, a stake without approval), obtained from
    those of the arena page through the simulation of [PortfolioSim]: the
    portfolio state is mirrored by the arena state with a faction
    selected on the deposit form, the events of a deposit keep the
    session and the form, and what the two runs agree on is carried
    back. *)

From S2P Require Import Prelude Digits JsNumber Viem JsDouble Phase Contract Arena ArenaInv ArenaFlow ArenaComposite ArenaRuns Portfolio PortfolioSim.

(** ** Definitions used by the statements *)

(** The page is ready for a deposit of [amount], which parses to [n]:
    the wallet is connected and has a clan, the deposit button is
    enabled, and every effect has run. *)
Definition deposit_ready (s : State) (amount : string) (n : Z) : Prop :=
  settled s /\ in_session s /\ deposit_disabled s = false /\
  depositAmount s = amount /\ parseUnits amount 6 = Some n.

(** The events of a deposit: the clicks of the deposit card and of the
    faucet, the answers of the wallet and of the chain for the hooks of
    the page, the continuations and the clock. *)
Definition flow_event (e : Event) : bool :=
  match e with
  | ClickAction | ClickMint | TypeDeposit _ | ClickQuickDeposit _
  | Refetched _ _ | Timer _ | Time _ => true
  | Wallet w _ | Receipt w _ => portfolio_hook w
  | _ => false
  end.

(** The session and the form of a state. *)
Definition session_of (s : State) : bool * option QData := (authenticated s, cache s QWarriorInfo).
Definition form_of (s : State) : option Clan * bool := (selectedFaction s, isDepositing s).

(** ** The events of a deposit keep the session and the form *)

Lemma refetch_apply_other (q q' : QueryId) (r : RefetchResult) (c : Cache) :
  q' <> q -> refetch_apply q r c q' = c q'.
Proof.
  intros H. destruct r; [|done]. unfold refetch_apply, cache_set. by case_decide.
Qed.

Ltac flow_cases e s :=
  destruct e as [| | | | | | | | | | |w []|w| |[]| | |]; try destruct w;
  try discriminate; destruct s;
  cbv beta iota delta [session_of form_of handle portfolio_handle];
  unfold_pages; cbv zeta; state_simpl;
  split_tests; repeat case_match; try discriminate; state_cbv_goal;
  rewrite ?refetch_apply_other by done; first [reflexivity | congruence].

Lemma portfolio_handle_session (s : State) (e : Event) :
  flow_event e = true -> session_of (portfolio_handle e s) = session_of s.
Proof. intros H. flow_cases e s. Qed.

Lemma handle_form (s : State) (e : Event) :
  flow_event e = true -> form_of (handle e s) = form_of s.
Proof. intros H. flow_cases e s. Qed.

Ltac effect_cases s :=
  destruct s; cbv beta iota delta [session_of]; unfold_pages; cbv zeta; state_simpl;
  repeat case_match; reflexivity.

Lemma portfolio_effects_session (s : State) :
  session_of (portfolio_effects s) = session_of s.
Proof.
  unfold portfolio_effects.
  transitivity (session_of (portfolio_effect_withdraw
    (portfolio_effect_stake (portfolio_effect_approve s))));
    [generalize (portfolio_effect_withdraw
       (portfolio_effect_stake (portfolio_effect_approve s))) as x; intros x;
     unfold portfolio_effect_mint; effect_cases x|].
  transitivity (session_of (portfolio_effect_stake (portfolio_effect_approve s)));
    [generalize (portfolio_effect_stake (portfolio_effect_approve s)) as x; intros x;
     unfold portfolio_effect_withdraw; effect_cases x|].
  transitivity (session_of (portfolio_effect_approve s));
    [generalize (portfolio_effect_approve s) as x; intros x;
     unfold portfolio_effect_stake; effect_cases x|].
  unfold portfolio_effect_approve; effect_cases s.
Qed.

Lemma session_kept (s : State) (e : Event) :
  flow_event e = true -> session_of (portfolio_step s e) = session_of s.
Proof.
  intros H. rewrite <- (portfolio_handle_session s e H). unfold portfolio_step.
  destruct (is_time e); [done|].
  transitivity (session_of (portfolio_effects (portfolio_handle e s)));
    [reflexivity|apply portfolio_effects_session].
Qed.

Lemma form_kept (s : State) (e : Event) :
  flow_event e = true -> form_of (step s e) = form_of s.
Proof.
  intros H. rewrite <- (handle_form s e H). unfold step.
  destruct (is_time e); [done|].
  destruct (effects_frame (handle e s)) as (_ & _ & Hf & Hd & _).
  unfold form_of. state_simpl. by rewrite Hf, Hd.
Qed.

(** ** Along a deposit the pages stay in lock step *)

Lemma flow_shared (e : Event) (s : State) :
  flow_event e = true -> selected s = true -> isDepositing s = true -> shared e s.
Proof. intros He Hs Hd. by destruct e; try discriminate; cbn [shared flow_event] in *. Qed.

Lemma in_session_of (s s' : State) :
  session_of s' = session_of s -> in_session s -> in_session s'.
Proof. unfold session_of, in_session, userClan. by intros [= -> ->]. Qed.

Lemma selected_of (s s' : State) :
  form_of s' = form_of s -> selected s' = selected s /\ isDepositing s' = isDepositing s.
Proof. unfold form_of, selected. by intros [= -> ->]. Qed.

Lemma flow_along (es : list Event) (sa sp : State) :
  Forall (fun e => flow_event e = true) es ->
  mirrors sa sp -> settled sa -> in_session sp ->
  selected sa = true -> isDepositing sa = true -> along sa sp es.
Proof.
  intros Hes. revert sa sp.
  induction Hes as [|e es He _ IH]; intros sa sp Hm Hs Hi Hsel Hdep; [done|].
  destruct (selected_of sa (step sa e) (form_kept sa e He)) as [Hsel' Hdep'].
  assert (Hsh : shared e sa) by by apply flow_shared.
  split_and!; [done..|]. apply IH.
  - by apply step_mirrors.
  - by apply step_settled.
  - apply (in_session_of sp); [by apply session_kept|done].
  - by rewrite Hsel'.
  - by rewrite Hdep'.
Qed.

(** ** The arena page that mirrors a portfolio page *)

Lemma arena_of_mirrors (f : Clan) (s : State) : mirrors (arena_of f s) s.
Proof. by destruct s. Qed.

Lemma arena_of_settled (f : Clan) (s : State) : settled s -> settled (arena_of f s).
Proof. by destruct s. Qed.

Lemma arena_of_ready (s : State) (amount : string) (n : Z) :
  deposit_ready s amount n -> stake_ready (arena_of SHADOW s) amount n.
Proof.
  intros (Hs & [Ha Hc] & Hd & Hamt & Hn). split; [by apply arena_of_settled|].
  split_and!; try done. apply Z.eqb_neq in Hc. unfold deposit_disabled in Hd.
  repeat (apply orb_false_iff in Hd as [Hd ?]).
  unfold action_enabled, isButtonDisabled, shows_action, selected, arena_of,
    amount_missing, hook_busy, inDepositPhase, portfolio_inDepositPhase, userClan in *.
  state_simpl. rewrite Ha. cbn [negb no_faction andb orb].
  repeat match goal with H : _ = false |- _ => rewrite H end. by split.
Qed.

Lemma deposit_run_mirrors (s : State) (amount : string) (n : Z) (es : list Event) :
  deposit_ready s amount n -> Forall (fun e => flow_event e = true) es ->
  mirrors (run step (arena_of SHADOW s) es) (run portfolio_step s es).
Proof.
  intros (Hs & Hi & _) Hes.
  assert (Hm := arena_of_mirrors SHADOW s). assert (Hs' := arena_of_settled SHADOW s Hs).
  apply run_mirrors; [done..|]. by apply flow_along.
Qed.

(** ** The outcomes of a deposit *)

Lemma flow_events_approval (amount : string) (r0 r1 : RefetchResult) (h h' : Hash)
    (due t : Z) :
  Forall (fun e => flow_event e = true)
    (approval_events amount r0 r1 h due t ++ stake_events h').
Proof. by repeat constructor. Qed.

Lemma flow_events_direct (amount : string) (r0 : RefetchResult) (h' : Hash) :
  Forall (fun e => flow_event e = true) (direct_events amount r0 ++ stake_events h').
Proof. by repeat constructor. Qed.

Section Deposit.
Variables (s : State) (amount : string) (n : Z) (r0 r1 : RefetchResult) (h h' : Hash) (t : Z).
Hypothesis Hready : deposit_ready s amount n.

(** What the arena run and the portfolio run agree on. *)
Lemma deposit_run_fields (es : list Event) :
  Forall (fun e => flow_event e = true) es ->
  let sa := run step (arena_of SHADOW s) es in
  let sp := run portfolio_step s es in
  writes sp = writes sa /\ hooks sp = hooks sa /\ depositAmount sp = depositAmount sa /\
  pendingStakeAmount sp = pendingStakeAmount sa /\ console sp = console sa.
Proof.
  intros Hes sa sp.
  destruct (mirrors_fields _ _ (deposit_run_mirrors s amount n es Hready Hes))
    as (? & ? & _ & _ & ? & _ & ? & ? & _).
  by split_and!.
Qed.

(** C12. Approve, then deposit, on the portfolio page.  From a page that
    is ready for a deposit of an amount the fresh allowance does not
    cover: when the approval is confirmed and the allowance read after
    the settle delay covers the amount, the run submits exactly one
    approval and then exactly one stake of the parsed amount, and the
    confirmation of the stake leaves the amount field cleared, no amount
    pending and both hooks reset. *)
Theorem portfolio_approve_then_deposit :
  allowance_covers (allowance_read r0 (cache s)) n = false ->
  clock s + SETTLE_DELAY <= t ->
  allowance_covers (allowance_read r1 (refetch_apply QUSDCAllowance r0 (cache s))) n = true ->
  let s' := run portfolio_step s
              (approval_events amount r0 r1 h (clock s + SETTLE_DELAY) t ++ stake_events h') in
  writes s' = writes s ++ [approve; stake_request n] /\
  depositAmount s' = "" /\ pendingStakeAmount s' = None /\
  approveH (hooks s') = WIdle /\ stakeH (hooks s') = WIdle /\ console s' = console s.
Proof.
  intros Hf Hd Hc.
  assert (Ha := approval_staked (arena_of SHADOW s) amount n r0 r1 h h' t
                  (arena_of_ready s amount n Hready) Hf Hd Hc).
  destruct (deposit_run_fields _ (flow_events_approval amount r0 r1 h h'
              (clock s + SETTLE_DELAY) t)) as (Ew & Eh & Ed & Ep & Ec).
  cbv zeta in *. rewrite Ew, Eh, Ed, Ep, Ec. by destruct Ha as (? & _ & ? & ? & ? & ? & ?).
Qed.

(** Verification failure on the portfolio page.  When the allowance
    read after the settle delay still does not cover the amount, no stake
    is submitted: the log holds the approval alone, the failure is
    written to the console, the approval hook is reset and no amount is
    pending; the amount typed is kept. *)
Theorem portfolio_verification_failure :
  allowance_covers (allowance_read r0 (cache s)) n = false ->
  clock s + SETTLE_DELAY <= t ->
  allowance_covers (allowance_read r1 (refetch_apply QUSDCAllowance r0 (cache s))) n = false ->
  let s' := run portfolio_step s
              (approval_events amount r0 r1 h (clock s + SETTLE_DELAY) t) in
  writes s' = writes s ++ [approve] /\ pendingStakeAmount s' = None /\
  approveH (hooks s') = WIdle /\ depositAmount s' = amount /\
  console s' =
    console s ++ ["Allowance verification failed after approval. Please try again."].
Proof.
  intros Hf Hd Hc.
  assert (Ha := approval_refused (arena_of SHADOW s) amount n r0 r1 h t
                  (arena_of_ready s amount n Hready) Hf Hd Hc).
  destruct (deposit_run_fields (approval_events amount r0 r1 h (clock s + SETTLE_DELAY) t))
    as (Ew & Eh & Ed & Ep & Ec); [by repeat constructor|].
  cbv zeta in *. rewrite Ew, Eh, Ed, Ep, Ec. by destruct Ha as (? & _ & ? & ? & ? & ?).
Qed.

(** Deposit without approval.  When the fresh allowance covers the
    amount, the run submits the stake alone and the confirmation of the
    stake clears the amount field and resets the hook. *)
Theorem portfolio_direct_deposit :
  allowance_covers (allowance_read r0 (cache s)) n = true ->
  let s' := run portfolio_step s (direct_events amount r0 ++ stake_events h') in
  writes s' = writes s ++ [stake_request n] /\ depositAmount s' = "" /\
  pendingStakeAmount s' = pendingStakeAmount s /\ stakeH (hooks s') = WIdle.
Proof.
  intros Hf.
  assert (Ha := direct_staked (arena_of SHADOW s) amount n r0 h'
                  (arena_of_ready s amount n Hready) Hf).
  destruct (deposit_run_fields _ (flow_events_direct amount r0 h'))
    as (Ew & Eh & Ed & Ep & Ec).
  cbv zeta in *. rewrite Ew, Eh, Ed, Ep. by destruct Ha as (? & _ & ? & ? & ? & _).
Qed.

End Deposit.

(** ** The theorems on the page of the example *)

Lemma portfolio_demo_ready : deposit_ready portfolio_demo "250" 250000000.
Proof.
  split; [split; [intros w _; by destruct w|done]|]. by vm_compute.
Qed.

Lemma portfolio_approve_then_deposit_witness :
  let s' := run portfolio_step portfolio_demo
              (approval_events "250" (Fetched (DInt 0)) (Fetched (DInt maxUint256)) "0xa"
                 (clock portfolio_demo + SETTLE_DELAY) 1700000105000 ++
               stake_events "0xb") in
  writes s' = writes portfolio_demo ++ [approve; stake_request 250000000] /\
  depositAmount s' = "" /\ pendingStakeAmount s' = None /\
  approveH (hooks s') = WIdle /\ stakeH (hooks s') = WIdle /\
  console s' = console portfolio_demo.
Proof.
  apply (portfolio_approve_then_deposit portfolio_demo "250" 250000000
           (Fetched (DInt 0)) (Fetched (DInt maxUint256)) "0xa" "0xb" 1700000105000
           portfolio_demo_ready); by vm_compute.
Defined.

Lemma portfolio_verification_failure_witness :
  let s' := run portfolio_step portfolio_demo
              (approval_events "250" (Fetched (DInt 0)) (Fetched (DInt 1000000)) "0xa"
                 (clock portfolio_demo + SETTLE_DELAY) 1700000105000) in
  writes s' = writes portfolio_demo ++ [approve] /\ pendingStakeAmount s' = None /\
  approveH (hooks s') = WIdle /\ depositAmount s' = "250" /\
  console s' =
    console portfolio_demo ++
    ["Allowance verification failed after approval. Please try again."].
Proof.
  apply (portfolio_verification_failure portfolio_demo "250" 250000000
           (Fetched (DInt 0)) (Fetched (DInt 1000000)) "0xa" 1700000105000
           portfolio_demo_ready); by vm_compute.
Defined.

Lemma portfolio_direct_deposit_witness :
  let s' := run portfolio_step portfolio_demo
              (direct_events "250" (Fetched (DInt 250000000)) ++ stake_events "0xb") in
  writes s' = writes portfolio_demo ++ [stake_request 250000000] /\
  depositAmount s' = "" /\
  pendingStakeAmount s' = pendingStakeAmount portfolio_demo /\
  stakeH (hooks s') = WIdle.
Proof.
  apply (portfolio_direct_deposit portfolio_demo "250" 250000000
           (Fetched (DInt 250000000)) "0xb" portfolio_demo_ready); by vm_compute.
Defined.
