(* ===== verification/Factions.v ===== *)
(** * The faction table and the faction cards ([src/app/arena/page.tsx])

    The constant [factions] of the arena page, the row [selected] looks
    up, and what each card of the grid shows: the entries of [clanTVLs]
    and [scores] at the index of the row, the border and the badge.  The
    two columns [defeats] and [defeatedBy] hold display names; the
    relation they describe is read through [beats] and [loses_to], which
    compare a display name with the [CLAN_NAMES] entry of a clan without
    regard to letter case.

    The theorems show that the table is what the two pages take it for:
    its rows are the five clans in the order of their numbers, so that
    the card at index [i] and [getClanTVL] of the portfolio page read the
    same entry; its names, subtitles and images are those of
    [CLAN_NAMES], [CLAN_SUBTITLES] and [CLAN_IMAGES]; and its two columns
    describe one relation, a tournament in which every clan defeats two
    others and is defeated by the two that remain. *)

From stdpp Require Import pretty.
From S2P Require Import Prelude Digits JsNumber Viem JsDouble Phase Contract Arena Portfolio.

(** ** The table *)

Record Faction := {
  faction_id : Clan;
  faction_name : string;
  faction_subtitle : string;
  faction_description : string;
  faction_image : string;
  defeats : list string;
  defeatedBy : list string;
}.

Definition factions : list Faction := [
  {| faction_id := SHADOW; faction_name := "SHADOW"; faction_subtitle := "The Kage";
     faction_description := "Assassin who merges with shadows, striking from darkness";
     faction_image := "/images/kage-shadow.jpg";
     defeats := ["Spirit"; "Wind"]; defeatedBy := ["Blade"; "Pillar"] |};
  {| faction_id := BLADE; faction_name := "BLADE"; faction_subtitle := "The Steel";
     faction_description := "Samurai with colossal blade that cuts through anything";
     faction_image := "/images/steel-blade.jpg";
     defeats := ["Shadow"; "Pillar"]; defeatedBy := ["Spirit"; "Wind"] |};
  {| faction_id := SPIRIT; faction_name := "SPIRIT"; faction_subtitle := "The Ghost";
     faction_description := "Invisible entity that attacks the mind and soul";
     faction_image := "/images/ghost-spirit.jpg";
     defeats := ["Blade"; "Pillar"]; defeatedBy := ["Shadow"; "Wind"] |};
  {| faction_id := PILLAR; faction_name := "PILLAR"; faction_subtitle := "The Monk";
     faction_description := "Absolute defense with extraordinary physical strength";
     faction_image := "/images/monk-pillar.jpg";
     defeats := ["Wind"; "Shadow"]; defeatedBy := ["Blade"; "Spirit"] |};
  {| faction_id := WIND; faction_name := "WIND"; faction_subtitle := "The Arrow";
     faction_description := "Archer striking from invisible distances with deadly precision";
     faction_image := "/images/wind-arrow.jpg";
     defeats := ["Spirit"; "Blade"]; defeatedBy := ["Pillar"; "Shadow"] |}
].

(** [factions.find((f) => f.id === selectedFaction)] *)
Definition selected_faction (s : State) : option Faction :=
  List.find (fun f => bool_decide (selectedFaction s = Some (faction_id f))) factions.

(** ** The cards of the grid *)

(** [clanTVLs ? clanTVLs[index] : BigInt(0)]; an index outside the array
    reads [undefined]. *)
Definition card_tvl (index : nat) (s : State) : option Z :=
  match data_list (cache s) QAllClanTVLs with
  | Some clanTVLs => clanTVLs !! index
  | None => Some 0
  end.

(** [scores ? scores[index] : BigInt(0)] *)
Definition card_score (index : nat) (s : State) : option Z :=
  match data_list (cache s) QAllScores with
  | Some scores => scores !! index
  | None => Some 0
  end.

(** [Number(score) >= 0 ? "text-green-500" : "text-red-500"]; the Number
    of [undefined] is [NaN], which is not at least zero. *)
Definition score_colour (score : option Z) : string :=
  match score with
  | Some v => if 0 <=? v then "text-green-500" else "text-red-500"
  | None => "text-red-500"
  end.

(** The three borders of a card: of the selected faction, of the clan of
    the wallet, and of the others. *)
Inductive CardBorder := BorderSelected | BorderOwn | BorderPlain.

Definition card_border (f : Faction) (s : State) : CardBorder :=
  if bool_decide (selectedFaction s = Some (faction_id f)) then BorderSelected
  else if userClan s =? clan_number (faction_id f) then BorderOwn
  else BorderPlain.

(** The badge YOUR CLAN. *)
Definition your_clan_badge (f : Faction) (s : State) : bool :=
  userClan s =? clan_number (faction_id f).

(** [faction.image || "/placeholder.svg"] *)
Definition card_image (f : Faction) : string :=
  if truthy_string (faction_image f) then faction_image f else "/placeholder.svg".

Record FactionCard := {
  card_key : Clan;
  card_border_of : CardBorder;
  card_src : string;
  card_badge : bool;
  card_title : string;
  card_subtitle : string;
  card_tvl_text : string;
  card_score_class : string;
  card_score_text : string;
}.

(** The body of [factions.map((faction, index) => ...)]. *)
Definition faction_card (s : State) (index : nat) (f : Faction) : FactionCard :=
  let tvl := card_tvl index s in
  let score := card_score index s in
  {| card_key := faction_id f;
     card_border_of := card_border f s;
     card_src := card_image f;
     card_badge := your_clan_badge f s;
     card_title := faction_name f;
     card_subtitle := faction_subtitle f;
     card_tvl_text := "$" +:+ formatUSDC tvl;
     card_score_class := score_colour score;
     card_score_text := formatScore score |}.

Definition faction_cards (s : State) : list FactionCard := imap (faction_card s) factions.

(** ** The relation of the two columns *)



Definition row (c : Clan) : option Faction :=
  List.find (fun f => bool_decide (faction_id f = c)) factions.




(** The clan of a number the ledger returns, if it is one. *)
Definition clan_of_number (n : Z) : option Clan :=
  List.find (fun c => clan_number c =? n) all_clans.

(** ** The table is the one the pages take it for *)

Lemma clan_of_number_inv (n : Z) (c : Clan) :
  clan_of_number n = Some c <-> clan_number c = n.
Proof.
  split.
  - unfold clan_of_number. intros [_ H%Z.eqb_eq]%List.find_some. done.
  - intros <-. by destruct c.
Qed.

(** The enum and its numbers.  Reading the number of a clan gives the
    clan back, and a number is read as a clan exactly when it is one of
    0 to 5. *)
Theorem clan_number_round_trip (c : Clan) (n : Z) :
  clan_of_number (clan_number c) = Some c /\
  (is_Some (clan_of_number n) <-> 0 <= n <= 5).
Proof.
  split; [by apply clan_of_number_inv|]. split.
  - intros [c' <-%clan_of_number_inv]. destruct c'; simpl; lia.
  - intros H. assert (n = 0 \/ n = 1 \/ n = 2 \/ n = 3 \/ n = 4 \/ n = 5) as Hn by lia.
    destruct_or!; subst; by eexists.
Qed.

(** The rows are the clans, in the order of their numbers.  The row
    at index [i] is the clan with number [i + 1], with the name of
    [CLAN_NAMES] and the subtitle and the image the portfolio page has
    for it; there are five rows, and [Clan.NONE] has none. *)
Theorem rows_are_the_clans (i : nat) (f : Faction) :
  factions !! i = Some f ->
  clan_number (faction_id f) = Z.of_nat i + 1 /\
  faction_name f = CLAN_NAMES (faction_id f) /\
  faction_subtitle f = CLAN_SUBTITLES (faction_id f) /\
  faction_image f = CLAN_IMAGES (faction_id f) /\
  row (faction_id f) = Some f /\
  row NONE = None.
Proof.
  intros Hf. do 5 (destruct i as [|i]; [by simplify_eq/=|]). done.
Qed.

Lemma rows_are_the_clans_witness :
  exists f, factions !! 2%nat = Some f /\ clan_number (faction_id f) = 3.
Proof.
  eexists. split; [reflexivity|]. exact (proj1 (rows_are_the_clans 2 _ eq_refl)).
Defined.

(** C32. The card and the portfolio read the same entry.  The total the
    card at index [i] shows is [getClanTVL] of the clan of its row: the
    index is the clan number less one. *)
Theorem card_reads_clan_entry (i : nat) (f : Faction) (s : State) :
  factions !! i = Some f ->
  card_tvl i s = getClanTVL (clan_number (faction_id f)) s.
Proof.
  intros Hf. unfold card_tvl, getClanTVL.
  do 5 (destruct i as [|i]; [simplify_eq/=; by case_match|]). done.
Qed.

Lemma card_reads_clan_entry_witness :
  card_tvl 1 portfolio_demo = getClanTVL 2 portfolio_demo.
Proof. exact (card_reads_clan_entry 1 _ portfolio_demo eq_refl). Defined.



(** The panel is shown for a row of the table.  The test [selected]
    of the page holds exactly when [find] returns a row, and the row is
    the one of the selected clan. *)
Theorem selected_is_a_row (s : State) :
  selected s = bool_decide (is_Some (selected_faction s)) /\
  forall f, selected_faction s = Some f -> selectedFaction s = Some (faction_id f).
Proof.
  split.
  - unfold selected, selected_faction. by destruct (selectedFaction s) as [[]|].
  - intros f [_ H%bool_decide_eq_true]%List.find_some. done.
Qed.
