(* ===== verification/Views.v ===== *)
(** * What the two pages show

    The values the JSX of [src/app/arena/page.tsx] and of
    [src/app/portfolio/page.tsx] computes for display, one record per
    block of the page and one function per record, and the tests that
    decide whether a block is rendered ([None] is a block that is not).
    The handlers and the guards of the buttons are in [Arena] and
    [Portfolio]; this file has the figures and the labels.

    The theorems relate the two pages (states that agree on the session
    and the cache show the same stake, balance, score, clan and phase)
    and state what the line for the stake that remains after a withdrawal
    shows, which is a Number computed on doubles and can be negative. *)

From stdpp Require Import pretty.
From S2P Require Import Prelude Digits JsNumber Viem JsDouble Phase Contract Arena ArenaInv Portfolio PortfolioSim Factions.

(** ** Shared pieces *)

(** [value?.toString() || missing]; the string of a bigint is never
    empty. *)
Definition bigint_label (value : option Z) (missing : string) : string :=
  match value with
  | Some n => pretty n
  | None => missing
  end.

(** [usdcBalance ? formatUSDC(usdcBalance) : "0.00"] *)
Definition balance_text (value : option Z) : string :=
  if truthy_bigint value then formatUSDC value else "0.00".

(** [CLAN_NAMES[userClan]] for the number the ledger returned; a number
    that is no clan reads [undefined], which is rendered as nothing. *)
Definition clan_text (table : Clan -> string) (n : Z) : string :=
  from_option table "" (clan_of_number n).

(** [busy ? "MINTING..." : "MINT 10,000 USDC"] *)
Definition mint_label (s : State) : string :=
  if hook_busy (mintH (hooks s)) then "MINTING..." else "MINT 10,000 USDC".

(** [s || other] on strings. *)
Definition string_or (s other : string) : string :=
  if truthy_string s then s else other.

(** ** The arena page *)

Record ArenaHeader := {
  header_epoch : string;
  header_time : string;
  header_tvl : string;
  header_phase : string;
}.

Definition arena_header (s : State) : ArenaHeader :=
  {| header_epoch := "#" +:+ bigint_label (data_int (cache s) QCurrentEpoch) "...";
     header_time := formatTimeRemaining (data_int (cache s) QTimeUntilCanvasClears);
     header_tvl := "$" +:+ balance_text (data_int (cache s) QTotalTVL);
     header_phase := if inDepositPhase s then "DEPOSIT PHASE" else "LOCKED PHASE" |}.

Record SessionCard := {
  session_clan : string;
  session_stake : string;
  session_score_class : string;
  session_score : string;
}.

(** [authenticated && userClan !== Clan.NONE && (...)] *)
Definition session_card (s : State) : option SessionCard :=
  if authenticated s && negb (userClan s =? clan_number NONE) then
    Some {| session_clan := clan_text CLAN_NAMES (userClan s);
            session_stake := "$" +:+ formatUSDC (Some (userStake s));
            session_score_class := score_colour (Some (userScore s));
            session_score := formatScore (Some (userScore s)) |}
  else None.

(** The faucet card: the button is disabled while a mint is in flight. *)
Definition arena_faucet (s : State) : option (bool * string) :=
  if authenticated s then Some (hook_busy (mintH (hooks s)), mint_label s) else None.

(** The rollover card. *)
Definition clear_card (s : State) : option (bool * string) :=
  if canClear s
  then Some (hook_busy (clearH (hooks s)),
             if hook_busy (clearH (hooks s)) then "CLEARING..." else "CLEAR CANVAS")
  else None.

Record FactionPanel := {
  panel_src : string;
  panel_name : string;
  panel_subtitle : string;
  panel_description : string;
  panel_defeats : list string;
  panel_defeatedBy : list string;
}.

(** The left card of [selected && (...)]. *)
Definition faction_panel (s : State) : option FactionPanel :=
  f ← selected_faction s;
  Some {| panel_src := card_image f;
          panel_name := faction_name f;
          panel_subtitle := faction_subtitle f;
          panel_description := faction_description f;
          panel_defeats := defeats f;
          panel_defeatedBy := defeatedBy f |}.

(** The two tabs, and the [disabled] of the second. *)
Definition tabs (s : State) : option bool :=
  if selected s && negb (userClan s =? clan_number NONE)
  then Some (userStake s =? 0) else None.

Record StakeForm := {
  stake_title : string;
  stake_join_notice : option string;
  stake_input_disabled : option bool;
  stake_closed_notice : bool;
  stake_balance : string;
  stake_current : option string;
  stake_allowance : option string;
  stake_button : string;
  stake_button_disabled : bool;
  stake_spinner : bool;
  stake_footer : string;
}.

(** The branch [(isDepositing || userClan === Clan.NONE)] of the right
    card. *)
Definition stake_form (s : State) : option StakeForm :=
  if shows_action s then
    let none := userClan s =? clan_number NONE in
    Some {|
      stake_title := if none then "JOIN FACTION" else "STAKE USDC";
      stake_join_notice :=
        if none then faction_name <$> selected_faction s else None;
      stake_input_disabled := if none then None else Some (negb (inDepositPhase s));
      stake_closed_notice := negb none && negb (inDepositPhase s);
      stake_balance := balance_text (usdcBalance s) +:+ " USDC";
      stake_current :=
        if none then None else Some (formatUSDC (Some (userStake s)) +:+ " USDC");
      stake_allowance :=
        if none then None
        else Some (if hasAllowance s then "Approved" else "Needs Approval");
      stake_button := getButtonText s;
      stake_button_disabled := isButtonDisabled s;
      stake_spinner := isLoading s;
      stake_footer :=
        if none then "Join a clan to start participating in the yield battle"
        else "Your USDC generates yield. Winning clan takes all." |}
  else None.

(** [(Number(userStake) / 1e6 - parseFloat(withdrawAmount || "0")).toFixed(2)] *)
Definition remaining (s : State) : string :=
  toFixed 2
    (double_sub (double_div (number_of_bigint (userStake s)) double_1e6)
       (to_double (parseFloat (string_or (withdrawAmount s) "0")))).

Record WithdrawForm := {
  withdraw_closed_notice : bool;
  withdraw_input_off : bool;
  withdraw_stake : string;
  withdraw_amount : string;
  withdraw_remaining : string;
  withdraw_button : string;
  withdraw_button_disabled : bool;
}.

(** The other branch of the right card. *)
Definition withdraw_form (s : State) : option WithdrawForm :=
  if shows_withdraw s then
    Some {|
      withdraw_closed_notice := negb (inDepositPhase s);
      withdraw_input_off := negb (inDepositPhase s) || (userStake s =? 0);
      withdraw_stake := formatUSDC (Some (userStake s)) +:+ " USDC";
      withdraw_amount := string_or (withdrawAmount s) "0.00" +:+ " USDC";
      withdraw_remaining := remaining s +:+ " USDC";
      withdraw_button :=
        if hook_busy (withdrawH (hooks s)) then "WITHDRAWING..."
        else "WITHDRAW " +:+ string_or (withdrawAmount s) "0" +:+ " USDC";
      withdraw_button_disabled := withdraw_disabled s |}
  else None.

(** [!selected && (...)] *)
Definition select_hint (s : State) : bool := negb (selected s).

(** ** The portfolio page *)

(** The page of a session that is not authenticated has the connect
    button only. *)
Definition connect_page (s : State) : bool := negb (authenticated s).

Record PortfolioStats := {
  stats_stake : string;
  stats_balance : string;
  stats_score_class : string;
  stats_score : string;
  stats_clan : string;
  stats_epoch : string;
  stats_phase : string;
  stats_time : string;
}.

Definition portfolio_stats (s : State) : PortfolioStats :=
  {| stats_stake := "$" +:+ formatUSDC (Some (userStake s));
     stats_balance := "$" +:+ balance_text (usdcBalance s);
     stats_score_class := score_colour (Some (userScore s));
     stats_score := formatScore (Some (userScore s));
     stats_clan :=
       if userClan s =? clan_number NONE then "No Clan"
       else clan_text CLAN_NAMES (userClan s);
     stats_epoch := "#" +:+ bigint_label (data_int (cache s) QCurrentEpoch) "-";
     stats_phase := if portfolio_inDepositPhase s then "DEPOSIT" else "LOCKED";
     stats_time := formatTimeRemaining_portfolio (data_int (cache s) QTimeUntilCanvasClears) |}.

Record ClanCard := {
  clan_src : string;
  clan_name : string;
  clan_subtitle : string;
  clan_stake : string;
  clan_share : string;
  clan_joined : string;
}.

(** [userClan !== Clan.NONE && (...)] *)
Definition clan_card (s : State) : option ClanCard :=
  if userClan s =? clan_number NONE then None
  else
    Some {| clan_src := clan_text CLAN_IMAGES (userClan s);
            clan_name := clan_text CLAN_NAMES (userClan s);
            clan_subtitle := clan_text CLAN_SUBTITLES (userClan s);
            clan_stake := "$" +:+ formatUSDC (Some (userStake s));
            clan_share := getStakePercentage s +:+ "% of clan TVL";
            clan_joined := "#" +:+ toString_double (number_of_bigint (epochJoined s)) |}.

(** [userClan === Clan.NONE && (...)]: the card that sends to the
    arena, and the line under the deposit button. *)
Definition no_clan_card (s : State) : bool := userClan s =? clan_number NONE.

(** [!inDepositPhase && (...)], in both cards. *)
Definition closed_notice (s : State) : bool := negb (portfolio_inDepositPhase s).

(** The line under the percent buttons. *)
Definition available (s : State) : string :=
  "Available to withdraw: " +:+ formatUSDC (Some (userStake s)) +:+ " USDC".

Definition withdrawButtonText (s : State) : string :=
  if isPending (withdrawH (hooks s)) || isConfirming (withdrawH (hooks s))
  then "WITHDRAWING..." else "WITHDRAW".

(** The faucet card of the portfolio page, which is rendered for every
    authenticated session. *)
Definition portfolio_faucet (s : State) : bool * string :=
  (isPending (mintH (hooks s)) || isConfirming (mintH (hooks s)), mint_label s).

(** ** An example *)

(** The withdraw form of the example wallet, which has 100 USDC at
    stake, with 250 typed into the amount field. *)
Definition demo_overdraw : State := run step demo_ready [ClickTab false; TypeWithdraw "250"].

(** ** The two pages show the same figures *)

Lemma mirrors_rendered (sa sp : State) : mirrors sa sp -> rendered sa = rendered sp.
Proof. intros H. by apply (f_equal rendered) in H. Qed.

(** C33. One wallet, one set of figures.  An arena page and a portfolio
    page that agree on the session and the cache show the same stake,
    score and clan in the session card and in the statistics, the same
    balance, the same phase, and for the clan of the wallet the same
    total in the faction card and in the share of the clan card. *)
Theorem pages_show_same_figures (sa sp : State) (c : SessionCard) :
  mirrors sa sp -> session_card sa = Some c ->
  let stats := portfolio_stats sp in
  session_stake c = stats_stake stats /\
  session_score c = stats_score stats /\
  session_score_class c = stats_score_class stats /\
  session_clan c = stats_clan stats /\
  "$" +:+ balance_text (usdcBalance sa) = stats_balance stats /\
  (header_phase (arena_header sa) = "DEPOSIT PHASE" <-> stats_phase stats = "DEPOSIT") /\
  (forall i f, factions !! i = Some f -> clan_number (faction_id f) = userClan sa ->
     card_tvl i sa = getClanTVL (userClan sp) sp).
Proof.
  intros Hm Hc. pose proof (mirrors_rendered _ _ Hm) as Hr.
  destruct (mirrors_fields _ _ Hm) as (_ & _ & Hcache & _).
  unfold session_card in Hc. case_match eqn:Hshow; [|done]. simplify_eq.
  apply andb_true_iff in Hshow as [_ Hclan%negb_true_iff].
  unfold portfolio_stats, arena_header, userStake, userScore, userClan, usdcBalance,
    inDepositPhase, portfolio_inDepositPhase, card_tvl, getClanTVL in *.
  rewrite <- Hcache, <- Hr. cbn [session_stake session_score session_score_class session_clan
    stats_stake stats_score stats_score_class stats_clan stats_balance stats_phase header_phase].
  rewrite Hclan. split_and!; try done.
  - destruct (isDepositPhase _ _ _); by split.
  - intros i f Hf Hn. rewrite <- Hn.
    do 5 (destruct i as [|i]; [simplify_eq/=; by case_match|]). done.
Qed.

Lemma pages_show_same_figures_witness :
  exists c, session_card demo_ready = Some c /\
            session_stake c = stats_stake (portfolio_stats demo_ready).
Proof.
  assert (is_Some (session_card demo_ready)) as [c Hc] by (vm_compute; eauto).
  exists c. split; [done|].
  exact (proj1 (pages_show_same_figures demo_ready demo_ready c (reflexivity _) Hc)).
Defined.

(** ** The blocks and the handlers *)

(** A block that is not rendered takes no input: the events of its
    elements leave the state as it is. *)
Lemma hidden_blocks_are_inert (s : State) (v : string) (b : bool) :
  (stake_form s = None -> handle ClickAction s = s) /\
  (withdraw_form s = None ->
   handle ClickWithdraw s = s /\ handle (TypeWithdraw v) s = s /\
   handle (ClickQuickWithdraw v) s = s) /\
  (tabs s = None -> handle (ClickTab b) s = s) /\
  (arena_faucet s = None -> handle ClickMint s = s) /\
  (clear_card s = None -> handle ClickClear s = s).
Proof.
  unfold stake_form, withdraw_form, tabs, arena_faucet, clear_card.
  split_and!; intros H;
    match type of H with (if ?b then _ else _) = None => destruct b eqn:E; [done|] end;
    cbn [handle andb]; by rewrite ?E.
Qed.

(** ** The stake that remains *)

(** The remaining stake is not bounded below.  With more than the
    stake in the amount field the form shows a negative remainder, and
    the button is enabled and submits the withdrawal. *)
Example remaining_goes_negative :
  withdraw_form demo_overdraw =
    Some {| withdraw_closed_notice := false; withdraw_input_off := false;
            withdraw_stake := "100.00 USDC"; withdraw_amount := "250 USDC";
            withdraw_remaining := "-150.00 USDC";
            withdraw_button := "WITHDRAW 250 USDC";
            withdraw_button_disabled := false |}.
Proof. by vm_compute. Qed.
