(* ===== verification/Amounts.v ===== *)
(** * Amounts as strings, and back

    The amount cells of the two pages hold strings.  The program prints
    micro-units with [formatUnits] and [formatUSDC] and reads what is in a
    cell with [parseUnits]; the MAX button of the stake form does both,
    one after the other.  This file has the round trips: [parseUnits]
    reads what [formatUnits] prints, [formatUSDC] prints the amount
    rounded half up to cents, and MAX therefore puts the balance rounded
    to cents into the cell, which is the balance when it has whole cents
    and is more than the balance when the rounding goes up. *)

From stdpp Require Import pretty.
From S2P Require Import Prelude Digits JsNumber Viem JsDouble Phase Contract Arena ArenaInv ArenaFlow.

(** ** Definitions used by the statements *)

(** The optional minus sign of a printed amount. *)
Definition sign_text (negative : bool) : string := if negative then "-" else "".


(** An amount of micro-units in cents, half a cent rounded up. *)
Definition cents_of (micro : Z) : Z := (micro + 5000) / 10000.

(** ** The length of a printed number *)

Lemma pretty_go_length (x : N) (d : nat) :
  (0 < x)%N -> (x < 10 ^ N.of_nat d)%N -> (String.length (pretty_N_go x "") <= d)%nat.
Proof.
  revert d. induction (N.lt_wf_0 x) as [x _ IH]; intros d Hx Hd.
  destruct d as [|d]; [simpl in Hd; lia|].
  rewrite pretty_N_go_step, pretty_N_go_app, string_length_app by lia.
  simpl String.length. destruct (N.eq_dec (x / 10) 0)%N as [->|Hq]; [simpl; lia|].
  assert (x / 10 < 10 ^ N.of_nat d)%N.
  { apply N.Div0.div_lt_upper_bound. rewrite <- N.pow_succ_r'. by rewrite <- Nat2N.inj_succ. }
  assert (x / 10 < x)%N as Hlt by (apply N.div_lt; lia).
  apply N.neq_0_lt_0 in Hq. pose proof (IH _ Hlt d Hq H). lia.
Qed.

Lemma pretty_length (n : N) (d : nat) :
  (n < 10 ^ N.of_nat (S d))%N -> (String.length (pretty n) <= S d)%nat.
Proof.
  intros H. unfold pretty, pretty_N. case_decide; [simpl; lia|].
  apply pretty_go_length; [lia|done].
Qed.

(** A number below [10^(S d)], padded to [S d] digits. *)
Lemma padded_fraction (n : N) (d : nat) :
  (n < 10 ^ N.of_nat (S d))%N ->
  read_digits (pad_start (S d) "0" (pretty n)) = Some n /\
  String.length (pad_start (S d) "0" (pretty n)) = S d.
Proof.
  intros H. split; [by rewrite read_digits_pad_start, read_pretty|].
  pose proof (pretty_length n d H). rewrite pad_start_length. lia.
Qed.

(** What is left of a digit string when its trailing zeros are removed. *)
Lemma strip_trailing_zeros_value (s : string) (n : N) :
  read_digits s = Some n ->
  exists f k, read_digits (strip_trailing_zeros s) = Some f /\
    n = (f * 10 ^ N.of_nat k)%N /\
    String.length s = (String.length (strip_trailing_zeros s) + k)%nat.
Proof.
  intros Hn. destruct (strip_trailing_zeros_spec s) as (k & Hs & Hk).
  rewrite Hs, read_digits_app, read_digits_zeros, repeat_char_length in Hn.
  destruct (read_digits (strip_trailing_zeros s)) as [f|]; [|done].
  exists f, k. split_and!; [done| |done]. simplify_eq. lia.
Qed.

(** ** Reading a signed amount *)





(** ** What formatUnits prints *)

(** The printed amount is a sign, the integer digits and, unless they are
    all zero, a point and the fraction digits without their trailing
    zeros. *)
Lemma formatUnits_shape (v : Z) (d : nat) :
  let m := Z.abs_N v in
  let scale := (10 ^ N.of_nat (S d))%N in
  exists fp f k,
    formatUnits v (S d) =
      sign_text (v <? 0) +:+ pretty (m / scale)%N +:+
      match fp with EmptyString => EmptyString | _ => "." +:+ fp end /\
    read_digits fp = Some f /\ (m mod scale = f * 10 ^ N.of_nat k)%N /\
    S d = (String.length fp + k)%nat.
Proof.
  intros m scale. assert (m mod scale < scale)%N as Hlt by (apply N.mod_lt; unfold scale; lia).
  destruct (padded_fraction _ d Hlt) as [Hread Hlen].
  destruct (strip_trailing_zeros_value _ _ Hread) as (f & k & Hf & Hk & Hl).
  exists (strip_trailing_zeros (pad_start (S d) "0" (pretty (m mod scale)%N))), f, k.
  split_and!; [done..|lia].
Qed.


Lemma div_mod_parts (m a r : N) : a <> 0%N -> (m mod a = r)%N -> (m / a * a + r = m)%N.
Proof. intros Ha <-. rewrite N.mul_comm. symmetry. by apply N.div_mod. Qed.


(** ** What formatUSDC prints *)

(** The Number [formatUSDC] formats is the amount as an exact decimal with
    at most six fraction digits. *)
Lemma parseFloat_formatUnits (b : Z) :
  0 <= b ->
  exists (M : N) (L : nat),
    parseFloat (formatUnits b 6) = Dec false M (- Z.of_nat L) /\
    (L <= 6)%nat /\ (M * 10 ^ N.of_nat (6 - L) = Z.abs_N b)%N.
Proof.
  intros Hb. destruct (formatUnits_shape b 5) as (fp & f & k & -> & Hf & Hk & Hlen).
  apply div_mod_parts in Hk; [|lia]. replace (b <? 0) with false by lia.
  change (sign_text false +:+ ?s) with s. set (q := (Z.abs_N b / _)%N) in *.
  destruct fp as [|c fp].
  - exists q, 0%nat. rewrite string_app_nil_r, parseFloat_digits, digits_value_pretty
      by (apply pretty_all_digits || apply pretty_nonempty).
    assert (f = 0%N) as -> by (by injection Hf). split_and!; [done|lia|].
    rewrite <- Hk. change (N.of_nat (6 - 0)) with (N.of_nat 6). lia.
  - exists (q * 10 ^ N.of_nat (String.length (String c fp)) + f)%N, (String.length (String c fp)).
    rewrite parseFloat_fixed
      by (apply pretty_all_digits || apply pretty_nonempty || (apply read_digits_all_digits; eauto)).
    unfold digits_value. rewrite read_digits_app, read_pretty, Hf.
    split_and!; [done|lia|]. replace (6 - _)%nat with k by lia. rewrite <- Hk.
    rewrite N.mul_add_distr_r, <- N.mul_assoc, <- N.pow_add_r. do 3 f_equal. lia.
Qed.

(** Rounding to cents, on a decimal with at most six fraction digits. *)
Lemma round_to_cents_micro (M : N) (L : nat) :
  (L <= 6)%nat ->
  round_to_cents M (- Z.of_nat L) = ((M * 10 ^ N.of_nat (6 - L) + 5000) / 10000)%N.
Proof.
  intros HL. unfold round_to_cents.
  destruct L as [|[|[|[|[|[|[|L]]]]]]]; [..|lia]; cbv - [N.mul N.add N.div];
    zify; Z.div_mod_to_equations; lia.
Qed.

(** C23. formatUSDC prints the amount in cents, half a cent rounded up.
    For an amount that is not negative the string is the integer part of
    the cents with thousands separators, a point, and two digits. *)
Theorem formatUSDC_rounds_to_cents (b : Z) :
  0 <= b ->
  let cents := Z.to_N (cents_of b) in
  formatUSDC (Some b) =
    group3 (pretty (cents / 100)%N) +:+ "." +:+ pad_start 2 "0" (pretty (cents mod 100)%N).
Proof.
  intros Hb cents. destruct (parseFloat_formatUnits b Hb) as (M & L & HM & HL & Hval).
  unfold formatUSDC. rewrite HM. unfold toLocaleString_en_US_2.
  rewrite round_to_cents_micro, Hval by done.
  replace ((Z.abs_N b + 5000) / 10000)%N with cents; [done|].
  unfold cents, cents_of. zify; Z.div_mod_to_equations; lia.
Qed.

Lemma formatUSDC_rounds_to_cents_witness : formatUSDC (Some 1234567890) = "1,234.57".
Proof. exact (formatUSDC_rounds_to_cents 1234567890 ltac:(lia)). Defined.

(** C14. MAX puts the balance in cents into the amount cell.  The string
    the MAX button of the stake form writes is read by [stakeInk] as the
    balance rounded half up to cents: the balance itself when it has
    whole cents, and more than the balance when the rounding goes up. *)
Theorem max_stakes_balance_in_cents (s : State) (b : Z) :
  usdcBalance s = Some b -> 0 < b ->
  let amount := depositAmount (quickDeposit "MAX" s) in
  let staked := cents_of b * 10000 in
  stakeInk amount = Some (stake_request staked) /\
  (b mod 10000 = 0 -> staked = b) /\
  (5000 <= b mod 10000 -> b < staked).
Proof.
  intros Hbal Hb amount staked. split; [|unfold staked, cents_of; Z.div_mod_to_equations; lia].
  unfold amount, quickDeposit. rewrite Hbal.
  replace (truthy_bigint (Some b)) with true by (unfold truthy_bigint; simpl; lia).
  cbn [String.eqb Ascii.eqb Bool.eqb andb]. state_simpl.
  rewrite formatUSDC_rounds_to_cents by lia. cbv zeta.
  set (cents := Z.to_N (cents_of b)).
  rewrite !strip_commas_app, strip_commas_group3, (strip_commas_digits (pad_start _ _ _))
    by (apply pretty_all_digits || (apply read_digits_all_digits;
        rewrite read_digits_pad_start, read_pretty; eauto)).
  change (strip_commas ".") with ".".
  assert (cents mod 100 < 10 ^ N.of_nat 2)%N as Hlt by (apply N.mod_lt; lia).
  destruct (padded_fraction _ 1 Hlt) as [Hread Hlen].
  unfold stakeInk. rewrite (parseUnits_fixed _ _ _ _ 5 (read_pretty _) Hread) by lia.
  cbn [mbind option_bind]. rewrite Hlen. unfold stake_request. do 4 f_equal.
  assert (0 <= cents_of b) by (unfold cents_of; Z.div_mod_to_equations; lia).
  change (10 ^ N.of_nat 6)%N with 1000000%N. change (10 ^ N.of_nat (6 - 2))%N with 10000%N.
  unfold staked, cents. clear - H. generalize dependent (cents_of b). intros c Hc.
  rewrite N2Z.inj_add, !N2Z.inj_mul, N2Z.inj_div, N2Z.inj_mod, Z2N.id by done.
  Z.div_mod_to_equations; lia.
Qed.

Lemma max_stakes_balance_in_cents_witness :
  stakeInk (depositAmount (quickDeposit "MAX" demo_ready)) = Some (stake_request 1000000000).
Proof.
  exact (proj1 (max_stakes_balance_in_cents demo_ready 1000000000
                  ltac:(by vm_compute) ltac:(lia))).
Defined.
