(* ===== verification/PortfolioFlow.v ===== *)
(** * The portfolio page: what is submitted, and when

    The write log of [Portfolio] against guarded commands, as [ArenaFlow]
    has them for the arena page: [portfolio_submits s e req] says that
    event [e] in state [s] calls for the ledger write [req].  The page
    has four commands (stake, approve, withdraw, mint); every step
    appends to the log the write its event calls for and nothing else.
    The guards of the stake and of the withdrawal are read off the
    relation: a stake needs an allowance reading made for it, and a
    withdrawal needs a stake, an open deposit phase and a positive
    amount. *)

From S2P Require Import Prelude Digits JsNumber Viem JsDouble Phase Contract Arena ArenaInv ArenaFlow Portfolio.

(** ** Definitions used by the statements *)

Inductive portfolio_submits (s : State) : Event -> WriteRequest -> Prop :=
| portfolio_submits_stake amount r n :
    has_task (AwaitFreshAllowance amount) s = true ->
    parseUnits amount 6 = Some n ->
    allowance_covers (allowance_after r s) n = true ->
    portfolio_submits s (Refetched (AwaitFreshAllowance amount) r) (stake_request n)
| portfolio_submits_approve amount r n :
    has_task (AwaitFreshAllowance amount) s = true ->
    parseUnits amount 6 = Some n ->
    allowance_covers (allowance_after r s) n = false ->
    portfolio_submits s (Refetched (AwaitFreshAllowance amount) r) approve
| portfolio_submits_verified_stake pending r n :
    has_task (AwaitVerify pending) s = true ->
    parseUnits pending 6 = Some n ->
    allowance_covers (allowance_after r s) n = true ->
    portfolio_submits s (Refetched (AwaitVerify pending) r) (stake_request n)
| portfolio_submits_withdraw n :
    shows_portfolio s = true -> portfolio_withdraw_disabled s = false ->
    parseUnits (withdrawAmount s) 6 = Some n ->
    portfolio_submits s ClickWithdraw (withdraw_request n)
| portfolio_submits_mint a :
    shows_portfolio s = true -> hook_busy (mintH (hooks s)) = false ->
    walletAddress s = Some a -> truthy_string a = true ->
    portfolio_submits s ClickMint (mint_request a 10000000000).

Definition portfolio_logged (s : State) (e : Event) (s' : State) : Prop :=
  writes s' = writes s \/
  exists req, portfolio_submits s e req /\ writes s' = writes s ++ [req].

(** The page one click into the example of [Portfolio]: the deposit
    button has been pressed and the allowance read is awaited. *)
Definition portfolio_awaiting : State := portfolio_step portfolio_demo ClickAction.

(** ** The write log of one step *)



Lemma portfolio_effects_writes (s : State) : writes (portfolio_effects s) = writes s.
Proof.
  unfold portfolio_effects.
  transitivity (writes (portfolio_effect_withdraw
    (portfolio_effect_stake (portfolio_effect_approve s))));
    [unfold portfolio_effect_mint; by repeat case_match|].
  transitivity (writes (portfolio_effect_stake (portfolio_effect_approve s)));
    [unfold portfolio_effect_withdraw; by repeat case_match|].
  transitivity (writes (portfolio_effect_approve s));
    [unfold portfolio_effect_stake; by repeat case_match|].
  unfold portfolio_effect_approve; by repeat case_match.
Qed.

Lemma portfolio_step_writes_handle (s : State) (e : Event) :
  writes (portfolio_step s e) = writes (portfolio_handle e s).
Proof. unfold portfolio_step. destruct (is_time e); [done|]. exact (portfolio_effects_writes _). Qed.

Lemma portfolio_logged_same (s : State) (e : Event) (s' : State) :
  writes s' = writes s -> portfolio_logged s e s'.
Proof. by left. Qed.

Lemma portfolio_logged_one (s : State) (e : Event) (s' : State) (req : WriteRequest) :
  portfolio_submits s e req -> writes s' = writes s ++ [req] -> portfolio_logged s e s'.
Proof. right. by exists req. Qed.

Lemma resumeDeposit_logged (s : State) (amount : string) (r : RefetchResult) :
  has_task (AwaitFreshAllowance amount) s = true ->
  portfolio_logged s (Refetched (AwaitFreshAllowance amount) r)
    (resumeDeposit amount r (s <| tasks ::= remove_task (AwaitFreshAllowance amount) |>)).
Proof.
  intros Ht. unfold resumeDeposit. rewrite stakeInk_request.
  destruct (parseUnits amount 6) as [n|] eqn:Hn; [|by apply portfolio_logged_same].
  destruct (allowance_covers _ n) eqn:Hc; (eapply portfolio_logged_one; [|done]).
  - by apply portfolio_submits_stake.
  - by eapply portfolio_submits_approve.
Qed.

Lemma portfolio_resumeVerify_logged (s : State) (pending : string) (r : RefetchResult) :
  has_task (AwaitVerify pending) s = true ->
  portfolio_logged s (Refetched (AwaitVerify pending) r)
    (portfolio_resumeVerify pending r (s <| tasks ::= remove_task (AwaitVerify pending) |>)).
Proof.
  intros Ht. unfold portfolio_resumeVerify. rewrite stakeInk_request.
  destruct (parseUnits pending 6) as [n|] eqn:Hn; [|by apply portfolio_logged_same].
  destruct (allowance_covers _ n) eqn:Hc; [|by apply portfolio_logged_same].
  eapply portfolio_logged_one; [|done]. by apply portfolio_submits_verified_stake.
Qed.

Lemma portfolio_handleWithdraw_logged (s : State) :
  shows_portfolio s = true -> portfolio_withdraw_disabled s = false ->
  portfolio_logged s ClickWithdraw (portfolio_handleWithdraw s).
Proof.
  intros Hs Hd. unfold portfolio_handleWithdraw. rewrite withdrawInk_request.
  destruct (negb _); [by apply portfolio_logged_same|].
  destruct (parseUnits _ 6) as [n|] eqn:Hn; [|by apply portfolio_logged_same].
  eapply portfolio_logged_one; [|done]. by apply portfolio_submits_withdraw.
Qed.

Lemma portfolio_handleMint_logged (s : State) :
  shows_portfolio s = true -> hook_busy (mintH (hooks s)) = false ->
  portfolio_logged s ClickMint (portfolio_handleMint s).
Proof.
  intros Ha Hb. unfold portfolio_handleMint.
  destruct (walletAddress s) as [a|] eqn:Hw; [|by apply portfolio_logged_same].
  rewrite mint_faucet. destruct (truthy_string a) eqn:Hta; [|by apply portfolio_logged_same].
  eapply portfolio_logged_one; [|done]. by eapply portfolio_submits_mint.
Qed.

Lemma portfolio_quiet_writes (s : State) (amount : string) :
  writes (portfolio_quickDeposit amount s) = writes s /\
  writes (portfolio_quickWithdraw amount s) = writes s.
Proof.
  unfold portfolio_quickDeposit, portfolio_quickWithdraw. split; by repeat case_match.
Qed.

Lemma portfolio_silent_writes (s : State) :
  writes (portfolio_effect_wallet s) = writes s /\ writes (handleDeposit s) = writes s.
Proof. unfold portfolio_effect_wallet, handleDeposit. split; by repeat case_match. Qed.

(** Every handler appends to the log the write its event calls for, and
    nothing else. *)
Lemma portfolio_handle_logged (s : State) (e : Event) :
  portfolio_logged s e (portfolio_handle e s).
Proof.
  destruct e; cbn beta iota delta [portfolio_handle].
  all: repeat case_match; try (by apply portfolio_logged_same); bool_to_prop.
  all: try (apply portfolio_logged_same; first
    [ apply portfolio_quiet_writes | apply portfolio_silent_writes
    | by rewrite (proj1 (portfolio_silent_writes _)) | by rewrite stake_onError_writes ]).
  - by apply portfolio_handleWithdraw_logged.
  - by apply portfolio_handleMint_logged.
  - by apply resumeDeposit_logged.
  - by apply portfolio_resumeVerify_logged.
Qed.

Lemma portfolio_step_logged (s : State) (e : Event) : portfolio_logged s e (portfolio_step s e).
Proof.
  destruct (portfolio_handle_logged s e) as [H|(req & Hs & H)].
  - apply portfolio_logged_same. by rewrite portfolio_step_writes_handle.
  - eapply portfolio_logged_one; [done|]. by rewrite portfolio_step_writes_handle.
Qed.

Lemma portfolio_logged_inv (s : State) (e : Event) (s' : State) (req : WriteRequest) :
  portfolio_logged s e s' -> writes s' = writes s ++ [req] -> portfolio_submits s e req.
Proof.
  intros [H|(req' & Hs & H)] H'; rewrite H in H'.
  - rewrite <- (app_nil_r (writes s)) in H' at 1. by apply app_inv_head in H'.
  - apply app_inv_head in H'. by simplify_eq.
Qed.

(** ** The theorems *)

(** The portfolio page implements its guarded commands.  Every step
    appends to the write log exactly the write its event calls for in the
    state before it, and leaves the log alone when the event calls for
    none; the page never submits a join or a rollover. *)
Theorem portfolio_step_submits (s : State) (e : Event) :
  writes (portfolio_step s e) = writes s \/
  exists req, portfolio_submits s e req /\
    writes (portfolio_step s e) = writes s ++ [req] /\
    wr_functionName req ∈ ["stakeInk"; "approve"; "withdrawInk"; "mint"].
Proof.
  destruct (portfolio_step_logged s e) as [H|(req & Hs & H)]; [by left|right].
  exists req. split_and!; [done..|]. destruct Hs; by apply (bool_decide_unpack _).
Qed.

(** C8. A deposit needs an allowance read for it.  On the portfolio page
    a stake is submitted only by the continuation of an awaited allowance
    read, for the amount that continuation parsed, and only when the
    allowance just read covers that amount. *)
Theorem portfolio_stake_needs_fresh_allowance (s : State) (e : Event) (req : WriteRequest) :
  writes (portfolio_step s e) = writes s ++ [req] ->
  wr_functionName req = "stakeInk" ->
  exists amount r n,
    (e = Refetched (AwaitFreshAllowance amount) r \/ e = Refetched (AwaitVerify amount) r) /\
    parseUnits amount 6 = Some n /\ req = stake_request n /\
    allowance_covers (allowance_after r s) n = true.
Proof.
  intros Hw Hf. apply (portfolio_logged_inv s e) in Hw; [|apply portfolio_step_logged].
  destruct Hw; try done; eexists _, _, _; eauto.
Qed.

Lemma portfolio_stake_needs_fresh_allowance_witness :
  exists amount r n,
    (Refetched (AwaitFreshAllowance "250") (Fetched (DInt 250000000)) =
       Refetched (AwaitFreshAllowance amount) r \/
     Refetched (AwaitFreshAllowance "250") (Fetched (DInt 250000000)) =
       Refetched (AwaitVerify amount) r) /\
    parseUnits amount 6 = Some n /\ stake_request 250000000 = stake_request n /\
    allowance_covers (allowance_after r portfolio_awaiting) n = true.
Proof.
  apply (portfolio_stake_needs_fresh_allowance portfolio_awaiting
           (Refetched (AwaitFreshAllowance "250") (Fetched (DInt 250000000)))
           (stake_request 250000000)); by vm_compute.
Defined.

(** C21. A withdrawal needs a stake, an open phase and a positive amount.
    On the portfolio page a withdrawal is submitted only by the withdraw
    button, with a stake that is not zero, in the deposit phase of the
    last render, for the amount in the field, which reads as a Number
    above zero. *)
Theorem portfolio_withdraw_guarded (s : State) (e : Event) (req : WriteRequest) :
  writes (portfolio_step s e) = writes s ++ [req] ->
  wr_functionName req = "withdrawInk" ->
  e = ClickWithdraw /\ userStake s <> 0 /\ portfolio_inDepositPhase s = true /\
  num_le_zero (parseFloat (withdrawAmount s)) = false /\
  exists n, parseUnits (withdrawAmount s) 6 = Some n /\ req = withdraw_request n.
Proof.
  intros Hw Hf. apply (portfolio_logged_inv s e) in Hw; [|apply portfolio_step_logged].
  destruct Hw as [| | |n Hs Hd Hn|]; try done. unfold portfolio_withdraw_disabled in Hd.
  bool_to_prop. split_and!; eauto.
Qed.

Lemma portfolio_withdraw_guarded_witness :
  userStake (portfolio_step portfolio_demo (TypeWithdraw "50")) <> 0.
Proof.
  apply (portfolio_withdraw_guarded (portfolio_step portfolio_demo (TypeWithdraw "50"))
           ClickWithdraw (withdraw_request 50000000)); by vm_compute.
Defined.
