(* ===== verification/PortfolioFindings.v ===== *)
(** * Runs that show what the guards of the two pages let through

    Two behaviours found while proving the theorems of [ArenaFlow],
    [PortfolioFlow] and [PortfolioSim], each as a run of the example
    wallet.  The first is on both pages: between the receipt of an
    approval and the stake that follows it the button is enabled, and a
    click in that interval stakes the amount a second time.  The second
    is where the pages differ: the withdraw button of the arena page has
    no test on the stake, the one of the portfolio page has. *)

From S2P Require Import Prelude Digits JsNumber Viem JsDouble Phase Contract Arena ArenaInv ArenaFlow Portfolio.

(** ** Definitions used by the statements *)



(** An amount is typed into the withdraw field, and the stake is then
    read as zero. *)
Definition stake_gone : list Event :=
  [ClickTab false; TypeWithdraw "50"; Answer QWarriorInfo (DWarrior 0 2 1 0)].

(** ** The runs *)


(** The withdraw buttons differ.  With an amount in the field and a
    stake that has become zero, the withdraw button of the arena page is
    enabled and submits the withdrawal; the one of the portfolio page is
    disabled and submits nothing. *)
Theorem withdraw_buttons_differ :
  let arena := run step demo_ready stake_gone in
  let portfolio := run portfolio_step demo_ready stake_gone in
  userStake arena = 0 /\ userStake portfolio = 0 /\
  withdraw_disabled arena = false /\ portfolio_withdraw_disabled portfolio = true /\
  writes (step arena ClickWithdraw) = [withdraw_request 50000000] /\
  writes (portfolio_step portfolio ClickWithdraw) = [].
Proof. by vm_compute. Qed.
