(* ===== verification/ArenaLive.v ===== *)
(** * The continuations of the arena page complete

    A handler of the page that awaits leaves a task: the allowance read
    of [handleAction], the 2500 ms timer of [performStakeAfterApproval]
    and its allowance read.  This file shows that the tasks are served:
    an allowance read that resolves, with whatever result, removes its
    task; a timer that fires turns its task into the read that follows
    it; and so a page whose reads resolve and whose timers fire comes to
    rest, with no task left, after a number of events bounded by the
    [load] of its task list.  [drain] computes the events. *)

From S2P Require Import Prelude Digits JsNumber Viem JsDouble Phase Contract Arena ArenaInv ArenaFlow ArenaComposite ArenaRuns.

(** ** Definitions used by the statements *)

(** The events a task waits for before its handler returns. *)
Definition weight (t : Task) : nat :=
  match t with
  | AwaitSettle _ _ => 2
  | AwaitFreshAllowance _ | AwaitVerify _ => 1
  end.

Definition load (s : State) : nat := sum_list_with weight (tasks s).

(** The environment serves a task: the clock reaches the time a timer is
    due and the timer fires; a read resolves with [r]. *)
Definition serve (r : RefetchResult) (t : Task) : list Event :=
  match t with
  | AwaitSettle due _ => [Time due; Timer t]
  | AwaitFreshAllowance _ | AwaitVerify _ => [Refetched t r]
  end.

(** The task a served task leaves behind. *)
Definition follow_up (t : Task) : list Task :=
  match t with
  | AwaitSettle _ pending => [AwaitVerify pending]
  | AwaitFreshAllowance _ | AwaitVerify _ => []
  end.

(** The oldest task is served, again and again. *)
Fixpoint drain (fuel : nat) (r : RefetchResult) (s : State) : list Event :=
  match fuel with
  | O => []
  | S fuel' =>
      match tasks s with
      | [] => []
      | t :: _ => serve r t ++ drain fuel' r (run step s (serve r t))
      end
  end.

(** The approve effect has nothing to start: the approval has not
    succeeded, or the effect has seen it. *)
Definition approve_idle (s : State) : Prop :=
  isSuccess (approveH (hooks s)) = false \/ deps_seen s.

(** ** The effects and the task list *)

Lemma effect_approve_tasks (s : State) :
  approve_idle s -> tasks (effect_approve s) = tasks s.
Proof.
  intros [H|H].
  - by rewrite effect_approve_not_success.
  - by rewrite effect_approve_id.
Qed.

Lemma effect_join_idle (s : State) :
  approve_idle s -> approve_idle (effect_join s) /\ tasks (effect_join s) = tasks s.
Proof. unfold approve_idle, deps_seen, effect_join. intros H. by case_match. Qed.

Lemma effects_tasks (s : State) : approve_idle s -> tasks (effects s) = tasks s.
Proof.
  intros [Hi Ht]%effect_join_idle. rewrite <- Ht, <- (effect_approve_tasks _ Hi).
  unfold effects. generalize (effect_approve (effect_join s)). intros x.
  unfold effect_clear, effect_mint, effect_withdraw, effect_stake.
  by repeat case_match.
Qed.

(** ** The continuations and the task list *)

Ltac idle_cases :=
  unfold approve_idle, deps_seen; intros Hd;
  unfold resumeAction, resumeVerify, resumeSettle, call_write, reset, console_error, spawn,
    refetch;
  repeat case_match; state_simpl; split; auto.

Lemma resumeAction_idle (amount : string) (r : RefetchResult) (s : State) :
  deps_seen s ->
  approve_idle (resumeAction amount r s) /\ tasks (resumeAction amount r s) = tasks s.
Proof. idle_cases. Qed.

Lemma resumeVerify_idle (pending : string) (r : RefetchResult) (s : State) :
  deps_seen s ->
  approve_idle (resumeVerify pending r s) /\ tasks (resumeVerify pending r s) = tasks s.
Proof. idle_cases. Qed.

Lemma resumeSettle_idle (pending : string) (s : State) :
  deps_seen s ->
  approve_idle (resumeSettle pending s) /\
  tasks (resumeSettle pending s) = tasks s ++ [AwaitVerify pending].
Proof. idle_cases. Qed.

Lemma step_tasks (s : State) (e : Event) :
  is_time e = false -> approve_idle (handle e s) ->
  tasks (step s e) = tasks (handle e s).
Proof. intros He Hi. rewrite step_render by done. by apply effects_tasks. Qed.

(** A read that resolves removes its task, whatever it resolves with. *)
Lemma read_served (s : State) (t : Task) (r : RefetchResult) :
  settled s -> t ∈ tasks s -> follow_up t = [] ->
  tasks (step s (Refetched t r)) = remove_task t (tasks s).
Proof.
  intros [_ Hd] Ht%has_task_elem Hf.
  assert (deps_seen (s <| tasks ::= remove_task t |>)) as Hd' by done.
  destruct t as [amount| |pending]; [|done|].
  - destruct (resumeAction_idle amount r _ Hd') as [Hi Htasks].
    rewrite step_tasks; rewrite ?handle_Refetched_fresh by done; done.
  - destruct (resumeVerify_idle pending r _ Hd') as [Hi Htasks].
    rewrite step_tasks; rewrite ?handle_Refetched_verify by done; done.
Qed.

(** A timer that fires turns its task into the read that follows. *)
Lemma timer_served (s : State) (due : Z) (pending : string) :
  settled s -> AwaitSettle due pending ∈ tasks s ->
  tasks (run step s [Time due; Timer (AwaitSettle due pending)]) =
  remove_task (AwaitSettle due pending) (tasks s) ++ [AwaitVerify pending].
Proof.
  intros Hs Ht%has_task_elem. cbn [run]. rewrite step_Time.
  rewrite timer_fires; [done|done|done|state_simpl; lia].
Qed.

Lemma serve_tasks (s : State) (t : Task) (r : RefetchResult) :
  settled s -> t ∈ tasks s ->
  tasks (run step s (serve r t)) = remove_task t (tasks s) ++ follow_up t.
Proof.
  intros Hs Ht. destruct t as [amount|due pending|pending]; cbn [serve follow_up run];
    rewrite ?app_nil_r; [by apply read_served|by apply timer_served|by apply read_served].
Qed.

Lemma run_settled (s : State) (es : list Event) : settled s -> settled (run step s es).
Proof. revert s. induction es as [|e es IH]; intros s Hs; [done|]. by apply IH, step_settled. Qed.

(** ** The load goes down *)

Lemma weight_follow_up (t : Task) : (sum_list_with weight (follow_up t) + 1 = weight t)%nat.
Proof. by destruct t. Qed.

Lemma load_remove (t : Task) (l : list Task) :
  t ∈ l ->
  (sum_list_with weight (remove_task t l) + weight t = sum_list_with weight l)%nat.
Proof.
  induction l as [|x l IH]; [by intros ?%elem_of_nil|]. cbn [remove_task].
  intros Ht. cbn [sum_list_with]. case_decide as Hx; [subst; lia|].
  apply elem_of_cons in Ht as [->|Ht]; [done|]. specialize (IH Ht).
  cbn [sum_list_with]. lia.
Qed.

Lemma load_served (s : State) (t : Task) (r : RefetchResult) :
  settled s -> t ∈ tasks s -> (load (run step s (serve r t)) + 1 = load s)%nat.
Proof.
  intros Hs Ht. unfold load. rewrite serve_tasks, sum_list_with_app by done.
  pose proof (weight_follow_up t). pose proof (load_remove t _ Ht). lia.
Qed.

Lemma load_zero (s : State) : load s = 0%nat -> tasks s = [].
Proof. unfold load. destruct (tasks s) as [|[] l]; [done|simpl; lia..]. Qed.

Lemma serve_length (r : RefetchResult) (t : Task) : (length (serve r t) <= 2)%nat.
Proof. destruct t; simpl; lia. Qed.

(** Serving the oldest task [fuel] times empties a list of load at most
    [fuel]. *)
Lemma drain_empties (fuel : nat) (r : RefetchResult) (s : State) :
  settled s -> (load s <= fuel)%nat ->
  tasks (run step s (drain fuel r s)) = [] /\ (length (drain fuel r s) <= 2 * fuel)%nat.
Proof.
  revert s. induction fuel as [|fuel IH]; intros s Hs Hl.
  - split; [apply load_zero; by apply Nat.le_0_r|done].
  - cbn [drain]. destruct (tasks s) as [|t l] eqn:Ht; [split; [exact Ht|cbn [length]; lia]|].
    assert (t ∈ tasks s) as Hin by (rewrite Ht; left).
    pose proof (load_served s t r Hs Hin). pose proof (serve_length r t).
    destruct (IH (run step s (serve r t))) as [H1 H2]; [by apply run_settled|lia|].
    rewrite run_app, length_app. split; [done|lia].
Qed.

(** ** The theorem *)

(** C6. The page comes to rest.  In every state the page can reach, if
    the allowance reads resolve (with any result, an error included) and
    the timers fire, every continuation runs to its end: after the events
    of [drain], which are at most twice the load of the task list, no
    task is left. *)
Theorem continuations_complete (t0 : Z) (s : State) (r : RefetchResult) :
  reachable step (initial t0) s ->
  tasks (run step s (drain (load s) r s)) = [] /\
  (length (drain (load s) r s) <= 2 * load s)%nat.
Proof. intros Hs%reachable_settled. by apply drain_empties. Qed.

Lemma continuations_complete_witness :
  tasks (run step demo_awaiting (drain (load demo_awaiting) (Fetched (DInt 0)) demo_awaiting)) = [] /\
  (length (drain (load demo_awaiting) (Fetched (DInt 0)) demo_awaiting) <= 2 * load demo_awaiting)%nat.
Proof.
  apply (continuations_complete 1700000100000). unfold demo_awaiting, demo_ready.
  apply reach_step, reachable_run.
Defined.
