(* ===== verification/Requests.v ===== *)
(** * The requests are calls of the ledger interface

    The ledger takes unsigned amounts.  The two pages test an amount with
    [parseFloat(amount) <= 0] and convert it with [parseUnits], two
    readers of one string; this file shows that they agree on the sign
    (an amount that passes the test is not converted to a negative
    integer), that every amount a continuation carries has passed the
    test, and hence that every request of the write log of the arena
    page is a call of the interface: the function, the number and kind
    of its arguments, a clan between 1 and 5, an amount that is not
    negative. *)

From S2P Require Import Prelude Digits JsNumber Viem JsDouble Phase Contract Arena ArenaInv ArenaFlow.

(** ** Definitions used by the statements *)

(** The amount a task carries. *)
Definition task_amount (t : Task) : string :=
  match t with
  | AwaitFreshAllowance amount | AwaitSettle _ amount | AwaitVerify amount => amount
  end.

(** Every amount that waits has passed the test of the button. *)
Definition amounts_tested (s : State) : Prop :=
  (forall a, pendingStakeAmount s = Some a -> amount_missing a = false) /\
  (forall t, t ∈ tasks s -> amount_missing (task_amount t) = false).

(** The functions of the ledger and of the token that the pages call,
    with the kinds of their arguments. *)
Definition well_formed (req : WriteRequest) : bool :=
  match wr_address req, wr_args req with
  | MOCK_USDC_ADDRESS, [ArgContract FIVE_FACTION_ADDRESS; ArgUint n] =>
      String.eqb (wr_functionName req) "approve" && (0 <=? n) && (n <=? maxUint256)
  | MOCK_USDC_ADDRESS, [ArgAddress a; ArgUint n] =>
      String.eqb (wr_functionName req) "mint" && truthy_string a && (0 <=? n)
  | FIVE_FACTION_ADDRESS, [ArgUint n] =>
      (String.eqb (wr_functionName req) "joinClan" && (1 <=? n) && (n <=? 5)) ||
      ((String.eqb (wr_functionName req) "stakeInk" ||
        String.eqb (wr_functionName req) "withdrawInk") && (0 <=? n))
  | FIVE_FACTION_ADDRESS, [] => String.eqb (wr_functionName req) "clearCanvas"
  | _, _ => false
  end.

(** ** The two readers agree on the sign *)

Lemma strip_sign_true (a body : string) : strip_sign a = (true, body) -> a = String "-" body.
Proof.
  destruct a as [|c a]; [done|]. unfold strip_sign.
  destruct (Ascii.eqb_spec c "-") as [->|Hc]; [by intros [= ->]|].
  destruct c as [[] [] [] [] [] [] [] []]; done.
Qed.

(** What [split_decimal] accepts does not start with the I of Infinity. *)
Lemma accepted_not_Infinity (body ip rest : string) :
  span_digits body = (ip, rest) ->
  (rest = "" \/ exists r, rest = String "." r) ->
  String.prefix "Infinity" body = false.
Proof.
  destruct body as [|c body]; [done|]. intros Hspan Hrest.
  destruct (Ascii.eqb_spec c "I") as [->|Hc].
  - simpl in Hspan. simplify_eq. by destruct Hrest as [|[]].
  - clear Hspan. destruct c as [[] [] [] [] [] [] [] []]; done.
Qed.

Lemma zeros_read_zero (negative : bool) (n : Z) :
  bigint_of_signed_digits negative (pad_end 6 "0" "") = Some n -> n = 0.
Proof. destruct negative; by intros [= <-]. Qed.

Lemma split_decimal_inv (a : string) (negative : bool) (ip : string) (fo : option string) :
  split_decimal a = Some (negative, ip, fo) ->
  exists body rest,
    strip_sign a = (negative, body) /\ span_digits body = (ip, rest) /\
    ((fo = None /\ rest = "") \/
     (exists fp r, fo = Some fp /\ rest = String "." r /\ span_digits r = (fp, ""))).
Proof.
  unfold split_decimal. destruct (strip_sign a) as [neg body] eqn:Hsign.
  destruct (span_digits body) as [ip' rest] eqn:Hspan. intros H. exists body, rest.
  destruct rest as [|c rest]; [simplify_eq; eauto|].
  destruct c as [[] [] [] [] [] [] [] []]; try done.
  destruct (span_digits rest) as [fp rest'] eqn:Hfp. destruct rest'; [|done].
  simplify_eq. eauto 10.
Qed.

(** The digits [parseUnits] reads when the fraction is empty or zero. *)
Lemma parseUnits_inv (a : string) (n : Z) :
  parseUnits a 6 = Some n ->
  exists negative ip fo digits,
    split_decimal a = Some (negative, ip, fo) /\
    bigint_of_signed_digits negative digits = Some n /\
    (strip_trailing_zeros (default "0" fo) = "" -> digits = ip +:+ pad_end 6 "0" "").
Proof.
  unfold parseUnits. destruct (split_decimal a) as [[[negative ip] fo]|]; [|done].
  cbn [mbind option_bind]. cbv zeta. intros H.
  destruct (_ <? _)%nat eqn:Hlong.
  - destruct (round_fraction _ _ _) as [i' f']. exists negative, ip, fo, (i' +:+ f').
    split_and!; [done..|]. intros Hz. rewrite Hz in Hlong. done.
  - exists negative, ip, fo, (ip +:+ pad_end 6 "0" (strip_trailing_zeros (default "0" fo))).
    split_and!; [done..|]. by intros ->.
Qed.

Lemma signed_digits_negative (negative : bool) (digits : string) (n : Z) :
  bigint_of_signed_digits negative digits = Some n -> n < 0 ->
  negative = true /\ digits <> pad_end 6 "0" "".
Proof.
  intros H Hn. destruct negative.
  - split; [done|]. intros ->. apply zeros_read_zero in H. lia.
  - unfold bigint_of_signed_digits in H. destruct (read_digits digits); simplify_eq/=. lia.
Qed.

Lemma parseFloat_minus (body : string) : parseFloat (String "-" body) = parse_unsigned true body.
Proof. done. Qed.

(** A string that [parseUnits] converts to a negative integer reads as a
    negative Number. *)
Lemma negative_amount_fails_test (a : string) (n : Z) :
  parseUnits a 6 = Some n -> n < 0 -> num_le_zero (parseFloat a) = true.
Proof.
  intros (negative & ip & fo & digits & Hsplit & Hdigits & Hzero)%parseUnits_inv Hn.
  destruct (signed_digits_negative _ _ _ Hdigits Hn) as [-> Hne].
  destruct (split_decimal_inv _ _ _ _ Hsplit) as (body & rest & Hsign & Hspan & Hrest).
  apply strip_sign_true in Hsign as ->. rewrite parseFloat_minus. unfold parse_unsigned.
  rewrite (accepted_not_Infinity body ip rest), Hspan
    by (done || destruct Hrest as [[]|(?&?&?&?&?)]; eauto).
  destruct Hrest as [[-> ->]|(fp & r & -> & -> & Hfp)].
  - destruct ip; [|done]. by destruct Hne; rewrite Hzero.
  - rewrite Hfp. destruct ip, fp; try done. by destruct Hne; rewrite Hzero.
Qed.

Lemma tested_amount_sign (a : string) (n : Z) :
  amount_missing a = false -> parseUnits a 6 = Some n -> 0 <= n.
Proof.
  intros [_ Hm]%orb_false_iff Hp. destruct (Z.le_gt_cases 0 n) as [|Hn]; [done|].
  by rewrite (negative_amount_fails_test a n) in Hm.
Qed.

(** C22. The test and the conversion agree on the sign.  An amount that
    passes the test of the buttons, [!amount || parseFloat(amount) <= 0],
    is converted by [parseUnits] to an integer that is not negative. *)
Theorem tested_amount_not_negative (a : string) (n : Z) :
  amount_missing a = false -> parseUnits a 6 = Some n -> 0 <= n.
Proof. exact (tested_amount_sign a n). Qed.

Lemma tested_amount_not_negative_witness : 0 <= 250000000.
Proof. exact (tested_amount_not_negative "250" 250000000 eq_refl eq_refl). Defined.

(** ** Every amount that waits has passed the test *)

Lemma tested_removed (s : State) (t : Task) :
  amounts_tested s -> amounts_tested (s <| tasks ::= remove_task t |>).
Proof.
  intros [Hp Ht]. split; [exact Hp|]. intros t' Hin. apply Ht.
  exact (remove_task_subset t t' (tasks s) Hin).
Qed.

Lemma tested_spawn (s : State) (t : Task) :
  amount_missing (task_amount t) = false -> amounts_tested s -> amounts_tested (spawn t s).
Proof.
  intros Hn [Hp Ht]. split; [exact Hp|].
  intros t' [Hin| ->%list_elem_of_singleton]%elem_of_app; eauto.
Qed.

Lemma tested_call_write (s : State) (w : HookId) (req : option WriteRequest) :
  amounts_tested s -> amounts_tested (call_write w req s).
Proof. by destruct req. Qed.

Lemma tested_task (s : State) (t : Task) :
  amounts_tested s -> has_task t s = true -> amount_missing (task_amount t) = false.
Proof. intros [_ Ht] Hin%bool_decide_eq_true. by apply Ht. Qed.

Lemma effect_approve_tested (s : State) : amounts_tested s -> amounts_tested (effect_approve s).
Proof.
  intros H. unfold effect_approve. repeat case_match; try done.
  apply tested_spawn; [|done]. simpl. apply (proj1 H). by simplify_eq.
Qed.

Lemma effects_tested (s : State) : amounts_tested s -> amounts_tested (effects s).
Proof.
  intros H. unfold effects.
  assert (Hj : amounts_tested (effect_join s)) by (unfold effect_join; by case_match).
  apply effect_approve_tested in Hj.
  unfold effect_clear, effect_mint, effect_withdraw, effect_stake.
  by repeat case_match.
Qed.

Lemma resumeAction_tested (amount : string) (r : RefetchResult) (s : State) :
  amount_missing amount = false -> amounts_tested s ->
  amounts_tested (resumeAction amount r s).
Proof.
  intros Ha [Hp Ht]. unfold resumeAction. case_match; [|done].
  case_match; apply tested_call_write; [done|]. split; [|exact Ht]. by intros a [= <-].
Qed.

Lemma resumeVerify_tested (pending : string) (r : RefetchResult) (s : State) :
  amounts_tested s -> amounts_tested (resumeVerify pending r s).
Proof.
  intros [Hp Ht]. unfold resumeVerify. case_match; [|done].
  split; [done|]. case_match; [|exact Ht].
  by apply (tested_call_write _ HStake (stakeInk pending)).
Qed.

Lemma handle_tested (s : State) (e : Event) : amounts_tested s -> amounts_tested (handle e s).
Proof.
  intros H. destruct e; cbn beta iota delta [handle]; repeat case_match; try done.
  - unfold quickDeposit. by case_match.
  - unfold quickWithdraw. by case_match.
  - unfold handleAction. repeat case_match; try done;
      by first [apply tested_call_write | apply tested_spawn].
  - unfold handleWithdraw. case_match; [done|]. by apply tested_call_write.
  - unfold handleMint. repeat case_match; try done; by apply tested_call_write.
  - unfold effect_wallet. by repeat case_match.
  - unfold stake_onError. by case_match.
  - apply resumeAction_tested, tested_removed; [|done].
    by apply (tested_task s (AwaitFreshAllowance _)).
  - by apply resumeVerify_tested, tested_removed.
  - bool_to_prop. apply tested_spawn; [|by apply tested_removed].
    match goal with Ht : has_task ?t s = true |- _ => exact (tested_task s t H Ht) end.
  - unfold poll. by repeat case_match.
Qed.

Lemma step_tested (s : State) (e : Event) : amounts_tested s -> amounts_tested (step s e).
Proof.
  intros H. unfold step. case_match; [by apply handle_tested|].
  by apply (effects_tested (handle e s)), handle_tested.
Qed.

Lemma reachable_tested (t : Z) (s : State) :
  reachable step (initial t) s -> amounts_tested s.
Proof.
  apply (reachable_invariant step amounts_tested); [|by intros; apply step_tested].
  split; [done|]. by intros ? ?%elem_of_nil.
Qed.

(** ** The requests *)

Lemma submits_well_formed (s : State) (e : Event) (req : WriteRequest) :
  amounts_tested s -> submits s e req -> well_formed req = true.
Proof.
  intros Ht. destruct 1 as [f [Hs Hd] Ha Hf Hc|a r n Hin Hn _|a r n _ _ _|p r n Hin Hn _
                            |n _ Hd Hn|a _ _ _ Ha|].
  - unfold isButtonDisabled in Hd. rewrite Ha, Hf in Hd. by destruct f.
  - apply (tested_task s _ Ht) in Hin. by apply Z.leb_le, (tested_amount_sign a).
  - done.
  - apply (tested_task s _ Ht) in Hin. by apply Z.leb_le, (tested_amount_sign p).
  - unfold withdraw_disabled in Hd. bool_to_prop.
    by apply Z.leb_le, (tested_amount_sign (withdrawAmount s)).
  - unfold well_formed, mint_request. cbn [wr_address wr_args wr_functionName].
    by rewrite Ha.
  - done.
Qed.

(** C7. Every request is a call of the ledger interface.  In every state
    the arena page can reach, each request of the write log names a
    function of the ledger or of the token with arguments of its kinds:
    the unlimited approval, a join of a clan between 1 and 5, a stake or
    a withdrawal of an amount that is not negative, the rollover, a mint
    to an address. *)
Theorem requests_well_formed (t : Z) (s : State) :
  reachable step (initial t) s -> Forall (fun req => well_formed req = true) (writes s).
Proof.
  induction 1 as [|s e Hr IH]; [by constructor|].
  destruct (step_logged s e) as [->|(req & Hs & ->)]; [done|].
  apply Forall_app. split; [done|]. constructor; [|done].
  apply (submits_well_formed s e); [|done]. by apply (reachable_tested t).
Qed.

Lemma requests_well_formed_witness :
  Forall (fun req => well_formed req = true)
    (writes (run step demo_ready
       [ClickAction; Refetched (AwaitFreshAllowance "250") (Fetched (DInt 0))])).
Proof.
  unfold demo_ready. rewrite <- run_app.
  apply (requests_well_formed 1700000100000), reachable_run.
Defined.

(** The interface takes amounts of 256 bits; the pages do not look at the
    magnitude of what is typed.  An amount of eighty digits passes the
    test and is converted: the request carries an integer above
    [maxUint256]. *)
Example oversized_amount_is_requested :
  let amount := repeat_char 80 "9" in
  amount_missing amount = false /\
  exists n, stakeInk amount = Some (stake_request n) /\ maxUint256 < n.
Proof. split; [by vm_compute|]. eexists. split; [by vm_compute|by vm_compute]. Qed.
