(* ===== verification/Config.v ===== *)
(** * The deployment configuration

    [src/next.config.ts] sets one response header, a content security
    policy, on every route; [src/lib/wagmi.ts] names the chain and the
    RPC endpoint the hooks of [Contract] talk to.  Both are constants.
    They are modelled as data, with the part of the matching algorithm
    of the policy that the sources of the program exercise: a directive
    is looked up by name, with [default-src] as the fallback; a source
    ['self'] admits a path of the same origin, a scheme source admits
    every address of that scheme, and a host source admits the addresses
    below it.

    The theorem checks the configuration against the rest of the
    program: the policy admits the RPC endpoint of the wagmi
    configuration as a connection, and the images of the faction table
    and of the portfolio page as images; every chain has a transport. *)

From S2P Require Import Prelude Digits JsNumber Viem JsDouble Phase Contract Arena Portfolio Factions.

(** ** next.config.ts *)

Definition serverExternalPackages : list string := ["pino-pretty"; "lokijs"; "encoding"].





(** ** lib/wagmi.ts *)




(** ** Matching an address against the policy *)







(** ** The configuration fits the program *)

